(** * CodexOrb: the session synchronisation store and its edge functions

    A shallow embedding of [src/store/useAppStore.ts] (the zustand store
    with its asynchronous actions and realtime handlers) and of the edge
    function [supabase/functions/generate-code/index.ts] and
    [supabase/functions/chat-response/index.ts], together with the tables
    of the Postgres schema they talk to.

    Conventions of the embedding:
    - uuids and texts are [string]s: the bytes of their UTF-8 encoding.
      The keywords looked for in a prompt are ASCII, so they occur in a
      text exactly when their bytes occur in its encoding;
      [toLowerCase] is computed on ASCII texts and left to the runtime
      (a parameter) on the others;
    - a [timestamptz] is the integer [new Date(s).getTime()] yields for it;
    - a JavaScript number is a [JS.number]: a rational, an infinity or NaN;
      a numeric column holds a finite number or null;
    - jsonb payloads the store never inspects are opaque [Json] strings;
    - an asynchronous action is a function [Env -> World -> World]: the
      [Env] holds what the outside answers during that call (which queries
      fail, generated uuids, the clock, [Math.random()], the replies of
      the completion API), the [World] holds the zustand state, the
      database, the open realtime channels, [window.supabaseSubscriptions]
      and the toasts shown so far. An action runs to completion before the
      next one starts. Of row-level security, the policy deciding
      which rows of [sessions] a user may view is applied to every
      read of that table; the other policies show only as queries that
      fail. *)

From Stdlib Require Import List String Ascii ZArith QArith Qround Bool Lia Lqa.
From Stdlib Require Import Sorting.Sorted Sorting.Permutation.
Import ListNotations.

Local Open Scope string_scope.
Local Open Scope Z_scope.

(* ------------------------------------------------------------------ *)
(** ** JavaScript values used by the health-score computation *)

Module JS.

(** An IEEE double, up to the precision the code never depends on. *)
Inductive number : Type :=
| NaN
| Fin (q : Q)
| PosInf
| NegInf.

(** [a <= b] on numbers that are not NaN. *)
Definition leb (a b : number) : bool :=
  match a, b with
  | NaN, _ | _, NaN => false
  | NegInf, _ => true
  | _, PosInf => true
  | Fin x, Fin y => Qle_bool x y
  | _, _ => false
  end.

Definition Math_min (a b : number) : number :=
  match a, b with
  | NaN, _ | _, NaN => NaN
  | _, _ => if leb a b then a else b
  end.

Definition Math_max (a b : number) : number :=
  match a, b with
  | NaN, _ | _, NaN => NaN
  | _, _ => if leb a b then b else a
  end.

Definition Math_floor (a : number) : number :=
  match a with
  | Fin q => Fin (inject_Z (Qfloor q))
  | other => other
  end.

Definition add (a b : number) : number :=
  match a, b with
  | NaN, _ | _, NaN => NaN
  | Fin x, Fin y => Fin (x + y)
  | PosInf, NegInf | NegInf, PosInf => NaN
  | PosInf, _ | _, PosInf => PosInf
  | NegInf, _ | _, NegInf => NegInf
  end.

Definition mul_fin (a : number) (k : Q) : number :=
  match a with
  | Fin x => Fin (x * k)
  | other => other
  end.

Definition of_Z (z : Z) : number := Fin (inject_Z z).

(** What [JSON.parse] can put in a property. An object or array is
    kept as the text its [toString] yields, which is all [ToNumber]
    looks at; [StringToNumber] of the language is a parameter of
    [ToNumber]. *)
Inductive value : Type :=
| Undefined
| Null
| Boolean (b : bool)
| Number (n : number)
| Str (s : string)
| Object (toString : string).

Definition number_truthy (n : number) : bool :=
  match n with
  | NaN => false
  | Fin q => negb (Qeq_bool q 0)
  | PosInf | NegInf => true
  end.

Definition truthy (v : value) : bool :=
  match v with
  | Undefined | Null => false
  | Boolean b => b
  | Number n => number_truthy n
  | Str s => negb (String.eqb s "")
  | Object _ => true
  end.

(** [a || b] *)
Definition or_else (a b : value) : value := if truthy a then a else b.

Section ToNumber.
Variable StringToNumber : string -> number.

Definition ToNumber (v : value) : number :=
  match v with
  | Undefined => NaN
  | Null => of_Z 0
  | Boolean true => of_Z 1
  | Boolean false => of_Z 0
  | Number n => n
  | Str s => StringToNumber s
  | Object s => StringToNumber s
  end.
End ToNumber.

(** [lo <= n <= hi] for a finite [n]. *)
Definition between (lo hi : Z) (n : number) : Prop :=
  match n with
  | Fin q => (inject_Z lo <= q /\ q <= inject_Z hi)%Q
  | _ => False
  end.

(** A [number] as a JSON body carries it and a numeric column holds
    it: [JSON.stringify] turns NaN and the infinities into [null]
    ([None]). *)
Definition JSON_number (n : number) : option number :=
  match n with
  | Fin q => Some (Fin q)
  | _ => None
  end.

(** [ToNumber] of a value that is a number or [null]. *)
Definition of_nullable (v : option number) : number :=
  match v with
  | Some n => n
  | None => of_Z 0
  end.

(** [lo <= v <= hi] for a value that is a finite number, not [null]. *)
Definition nullable_between (lo hi : Z) (v : option number) : Prop :=
  match v with
  | Some n => between lo hi n
  | None => False
  end.

End JS.

(* ------------------------------------------------------------------ *)
(** ** Data model (the interfaces of [useAppStore.ts]) *)

Definition Id := string.
Definition Timestamp := Z.
Definition Json := string.

Inductive MessageType : Type := type_user | type_ai | type_system.

Definition MessageType_eqb (a b : MessageType) : bool :=
  match a, b with
  | type_user, type_user | type_ai, type_ai | type_system, type_system => true
  | _, _ => false
  end.

Inductive Language : Type := python | javascript.

Definition Language_tag (l : Language) : string :=
  match l with python => "python" | javascript => "javascript" end.

Inductive Role : Type := owner | developer | designer | qa | viewer.

Module User.
Record t : Type := mk { id : Id }.
End User.

Module Message.
Record t : Type := mk {
  id : Id;
  session_id : Id;
  user_id : Id;
  content : string;
  type : MessageType;
  created_at : Timestamp;
  metadata : option Json
}.
End Message.

Module CodeFile.
Record t : Type := mk {
  id : Id;
  session_id : Id;
  filename : string;
  content : string;
  language : string;
  created_at : Timestamp;
  updated_at : Timestamp;
  health_score : option JS.number;   (* a numeric column: a number or null *)
  issues : option Json
}.
End CodeFile.

Module Session.
Record t : Type := mk {
  id : Id;
  name : string;
  description : option string;
  owner_id : Id;
  created_at : Timestamp;
  updated_at : Timestamp;
  is_public : bool;
  language : Language
}.
End Session.

Module SessionParticipant.
Record t : Type := mk {
  id : Id;
  session_id : Id;
  user_id : Id;
  role : Role;
  joined_at : Timestamp;
  last_active : Timestamp
}.
End SessionParticipant.

(** The zustand state. *)
Record AppState : Type := mkAppState {
  user : option User.t;
  currentSession : option Session.t;
  sessions : list Session.t;
  messages : list Message.t;
  codeFiles : list CodeFile.t;
  sessionParticipants : list SessionParticipant.t;
  isLoading : bool;
  error : option string;
  darkMode : bool;
  voiceInput : bool;
  sidebarCollapsed : bool
}.

Definition initialState : AppState :=
  {| user := None; currentSession := None; sessions := []; messages := [];
     codeFiles := []; sessionParticipants := []; isLoading := false;
     error := None; darkMode := true; voiceInput := false;
     sidebarCollapsed := false |}.

(** The partial updates [set({...})] the actions perform. *)
Definition set_user (v : option User.t) (s : AppState) : AppState :=
  mkAppState v (currentSession s) (sessions s) (messages s) (codeFiles s)
    (sessionParticipants s) (isLoading s) (error s) (darkMode s)
    (voiceInput s) (sidebarCollapsed s).

Definition set_currentSession (v : option Session.t) (s : AppState) : AppState :=
  mkAppState (user s) v (sessions s) (messages s) (codeFiles s)
    (sessionParticipants s) (isLoading s) (error s) (darkMode s)
    (voiceInput s) (sidebarCollapsed s).

Definition set_sessions (v : list Session.t) (s : AppState) : AppState :=
  mkAppState (user s) (currentSession s) v (messages s) (codeFiles s)
    (sessionParticipants s) (isLoading s) (error s) (darkMode s)
    (voiceInput s) (sidebarCollapsed s).

Definition set_messages (v : list Message.t) (s : AppState) : AppState :=
  mkAppState (user s) (currentSession s) (sessions s) v (codeFiles s)
    (sessionParticipants s) (isLoading s) (error s) (darkMode s)
    (voiceInput s) (sidebarCollapsed s).

Definition set_codeFiles (v : list CodeFile.t) (s : AppState) : AppState :=
  mkAppState (user s) (currentSession s) (sessions s) (messages s) v
    (sessionParticipants s) (isLoading s) (error s) (darkMode s)
    (voiceInput s) (sidebarCollapsed s).

Definition set_sessionParticipants (v : list SessionParticipant.t)
    (s : AppState) : AppState :=
  mkAppState (user s) (currentSession s) (sessions s) (messages s)
    (codeFiles s) v (isLoading s) (error s) (darkMode s)
    (voiceInput s) (sidebarCollapsed s).

Definition set_isLoading (v : bool) (s : AppState) : AppState :=
  mkAppState (user s) (currentSession s) (sessions s) (messages s)
    (codeFiles s) (sessionParticipants s) v (error s) (darkMode s)
    (voiceInput s) (sidebarCollapsed s).

Definition set_error (v : option string) (s : AppState) : AppState :=
  mkAppState (user s) (currentSession s) (sessions s) (messages s)
    (codeFiles s) (sessionParticipants s) (isLoading s) v (darkMode s)
    (voiceInput s) (sidebarCollapsed s).

(** What the user interface calls the "session view". *)
Record SessionView : Type := mkSessionView {
  view_session : option Session.t;
  view_messages : list Message.t;
  view_codeFiles : list CodeFile.t;
  view_participants : list SessionParticipant.t
}.

Definition view_of (s : AppState) : SessionView :=
  mkSessionView (currentSession s) (messages s) (codeFiles s)
    (sessionParticipants s).

(* ------------------------------------------------------------------ *)
(** ** The database (tables of the migration) *)

Record Database : Type := mkDatabase {
  tbl_sessions : list Session.t;
  tbl_messages : list Message.t;
  tbl_code_files : list CodeFile.t;
  tbl_session_participants : list SessionParticipant.t
}.

Definition with_messages (v : list Message.t) (d : Database) : Database :=
  mkDatabase (tbl_sessions d) v (tbl_code_files d) (tbl_session_participants d).

Definition with_code_files (v : list CodeFile.t) (d : Database) : Database :=
  mkDatabase (tbl_sessions d) (tbl_messages d) v (tbl_session_participants d).

Definition with_session_participants (v : list SessionParticipant.t)
    (d : Database) : Database :=
  mkDatabase (tbl_sessions d) (tbl_messages d) (tbl_code_files d) v.

(** [PRIMARY KEY] on [sessions.id] and
    [UNIQUE(session_id, user_id)] on [session_participants]. *)
Definition same_pair (sid uid : Id) (p : SessionParticipant.t) : bool :=
  String.eqb (SessionParticipant.session_id p) sid
  && String.eqb (SessionParticipant.user_id p) uid.

Definition rows_for (sid uid : Id) (d : Database) : list SessionParticipant.t :=
  filter (same_pair sid uid) (tbl_session_participants d).

Record constraints (d : Database) : Prop := {
  sessions_pkey : NoDup (map Session.id (tbl_sessions d));
  participants_unique :
    forall sid uid, (List.length (rows_for sid uid d) <= 1)%nat
}.

(** The requests the client and the edge functions send to the store. *)
Inductive Query : Type :=
| SelectOwnedSessions
| SelectParticipantSessions
| SelectSession
| SelectParticipant
| UpsertParticipant
| SelectMessages
| SelectCodeFiles
| SelectParticipants
| InsertSession
| InsertParticipant
| InsertMessage
| InsertCodeFile
| UpdateCodeFile.

(** A PostgREST answer [{ data, error }]. *)
Inductive Response (A : Type) : Type :=
| Data (a : A)
| Error (message : string).
Arguments Data {A} a.
Arguments Error {A} message.

(** [.single()]: exactly one row, or an error. *)
Definition single {A : Type} (r : Response (list A)) : Response A :=
  match r with
  | Error m => Error m
  | Data [x] => Data x
  | Data _ => Error "JSON object requested, multiple (or no) rows returned"
  end.

(** [data] of an answer whose error the caller does not look at. *)
Definition data_or_null {A : Type} (r : Response A) : option A :=
  match r with Data a => Some a | Error _ => None end.

(** Stable sort with a JavaScript comparator ([Array.prototype.sort],
    and the [ORDER BY] of a query, ties kept in table order). *)
Section Sort.
Context {A : Type}.
Variable cmp : A -> A -> Z.

Fixpoint insert_sorted (x : A) (l : list A) : list A :=
  match l with
  | [] => [x]
  | y :: l' => if cmp x y <=? 0 then x :: y :: l' else y :: insert_sorted x l'
  end.

Fixpoint sort (l : list A) : list A :=
  match l with
  | [] => []
  | x :: l' => insert_sorted x (sort l')
  end.
End Sort.

(* ------------------------------------------------------------------ *)
(** ** Strings: [toLowerCase] and [includes] *)

Definition lower_ascii (c : ascii) : ascii :=
  let n := nat_of_ascii c in
  if ((65 <=? n) && (n <=? 90))%nat then ascii_of_nat (n + 32) else c.

Fixpoint lower_ascii_text (s : string) : string :=
  match s with
  | EmptyString => EmptyString
  | String c s' => String (lower_ascii c) (lower_ascii_text s')
  end.

(** A text is held as the bytes of its UTF-8 encoding; it is ASCII
    when every byte is below 128. *)
Fixpoint is_ascii (s : string) : bool :=
  match s with
  | EmptyString => true
  | String c s' => (nat_of_ascii c <? 128)%nat && is_ascii s'
  end.

(** [String.prototype.toLowerCase]. On an ASCII text it lower-cases
    the letters A to Z and nothing else. On a text with other
    characters the case conversion of Unicode decides (it sends some of
    them to ASCII letters, the Kelvin sign to k for one); that
    conversion is the parameter [Unicode_toLowerCase]. *)
Section ToLowerCase.
Variable Unicode_toLowerCase : string -> string.

Definition toLowerCase (s : string) : string :=
  if is_ascii s then lower_ascii_text s else Unicode_toLowerCase s.
End ToLowerCase.

Fixpoint includes (s sub : string) : bool :=
  prefix sub s
  || match s with
     | EmptyString => false
     | String _ s' => includes s' sub
     end.

(** The double-quote character, for the texts that contain it. *)
Definition dq : string := String (ascii_of_nat 34) EmptyString.

(* ------------------------------------------------------------------ *)
(** ** The canned sources of the fallback generator *)

Module Templates.

Definition todo_js : string :=
  "// Todo App Implementation
class TodoApp {
  constructor() {
    this.todos = [];
    this.nextId = 1;
  }

  addTodo(text) {
    const todo = {
      id: this.nextId++,
      text,
      completed: false,
      createdAt: new Date()
    };
    this.todos.push(todo);
    return todo;
  }

  toggleTodo(id) {
    const todo = this.todos.find(t => t.id === id);
    if (todo) {
      todo.completed = !todo.completed;
    }
    return todo;
  }

  deleteTodo(id) {
    this.todos = this.todos.filter(t => t.id !== id);
  }

  getTodos() {
    return this.todos;
  }

  getCompletedTodos() {
    return this.todos.filter(t => t.completed);
  }

  getPendingTodos() {
    return this.todos.filter(t => !t.completed);
  }
}

export default TodoApp;".

Definition todo_py : string :=
  "# Todo App Implementation
from datetime import datetime
from typing import List, Dict, Optional

class TodoApp:
    def __init__(self):
        self.todos: List[Dict] = []
        self.next_id = 1
    
    def add_todo(self, text: str) -> Dict:
        todo = {
            'id': self.next_id,
            'text': text,
            'completed': False,
            'created_at': datetime.now()
        }
        self.todos.append(todo)
        self.next_id += 1
        return todo
    
    def toggle_todo(self, todo_id: int) -> Optional[Dict]:
        for todo in self.todos:
            if todo['id'] == todo_id:
                todo['completed'] = not todo['completed']
                return todo
        return None
    
    def delete_todo(self, todo_id: int) -> bool:
        self.todos = [t for t in self.todos if t['id'] != todo_id]
        return True
    
    def get_todos(self) -> List[Dict]:
        return self.todos
    
    def get_completed_todos(self) -> List[Dict]:
        return [t for t in self.todos if t['completed']]
    
    def get_pending_todos(self) -> List[Dict]:
        return [t for t in self.todos if not t['completed']]

if __name__ == " ++ dq ++ "__main__" ++ dq ++ ":
    app = TodoApp()
    app.add_todo(" ++ dq ++ "Learn Python" ++ dq ++ ")
    app.add_todo(" ++ dq ++ "Build a todo app" ++ dq ++ ")
    print(f" ++ dq ++ "Total todos: {len(app.get_todos())}" ++ dq ++ ")".

Definition calculator_js : string :=
  "// Advanced Calculator Implementation
class Calculator {
  constructor() {
    this.history = [];
  }

  add(a, b) {
    const result = a + b;
    this.history.push(`${a} + ${b} = ${result}`);
    return result;
  }

  subtract(a, b) {
    const result = a - b;
    this.history.push(`${a} - ${b} = ${result}`);
    return result;
  }

  multiply(a, b) {
    const result = a * b;
    this.history.push(`${a} × ${b} = ${result}`);
    return result;
  }

  divide(a, b) {
    if (b === 0) {
      throw new Error('Division by zero is not allowed');
    }
    const result = a / b;
    this.history.push(`${a} ÷ ${b} = ${result}`);
    return result;
  }

  power(base, exponent) {
    const result = Math.pow(base, exponent);
    this.history.push(`${base}^${exponent} = ${result}`);
    return result;
  }

  sqrt(number) {
    if (number < 0) {
      throw new Error('Cannot calculate square root of negative number');
    }
    const result = Math.sqrt(number);
    this.history.push(`√${number} = ${result}`);
    return result;
  }

  getHistory() {
    return this.history;
  }

  clearHistory() {
    this.history = [];
  }
}

export default Calculator;".

Definition calculator_py : string :=
  "# Advanced Calculator Implementation
import math
from typing import List

class Calculator:
    def __init__(self):
        self.history: List[str] = []
    
    def add(self, a: float, b: float) -> float:
        result = a + b
        self.history.append(f" ++ dq ++ "{a} + {b} = {result}" ++ dq ++ ")
        return result
    
    def subtract(self, a: float, b: float) -> float:
        result = a - b
        self.history.append(f" ++ dq ++ "{a} - {b} = {result}" ++ dq ++ ")
        return result
    
    def multiply(self, a: float, b: float) -> float:
        result = a * b
        self.history.append(f" ++ dq ++ "{a} × {b} = {result}" ++ dq ++ ")
        return result
    
    def divide(self, a: float, b: float) -> float:
        if b == 0:
            raise ValueError(" ++ dq ++ "Division by zero is not allowed" ++ dq ++ ")
        result = a / b
        self.history.append(f" ++ dq ++ "{a} ÷ {b} = {result}" ++ dq ++ ")
        return result
    
    def power(self, base: float, exponent: float) -> float:
        result = math.pow(base, exponent)
        self.history.append(f" ++ dq ++ "{base}^{exponent} = {result}" ++ dq ++ ")
        return result
    
    def sqrt(self, number: float) -> float:
        if number < 0:
            raise ValueError(" ++ dq ++ "Cannot calculate square root of negative number" ++ dq ++ ")
        result = math.sqrt(number)
        self.history.append(f" ++ dq ++ "√{number} = {result}" ++ dq ++ ")
        return result
    
    def get_history(self) -> List[str]:
        return self.history
    
    def clear_history(self) -> None:
        self.history = []

if __name__ == " ++ dq ++ "__main__" ++ dq ++ ":
    calc = Calculator()
    print(calc.add(10, 5))
    print(calc.multiply(3, 4))
    print(calc.get_history())".

Definition generic_js : string :=
  "// Generated JavaScript Application
console.log('Welcome to CodexOrb!');

class Application {
  constructor(name) {
    this.name = name;
    this.version = '1.0.0';
    this.initialized = false;
  }

  initialize() {
    console.log(`Initializing ${this.name} v${this.version}`);
    this.initialized = true;
    return this;
  }

  processInput(input) {
    if (!this.initialized) {
      throw new Error('Application not initialized');
    }
    
    return input.toString().toUpperCase();
  }

  getStatus() {
    return {
      name: this.name,
      version: this.version,
      initialized: this.initialized,
      timestamp: new Date().toISOString()
    };
  }
}

// Usage example
const app = new Application('CodexOrb Demo');
app.initialize();

console.log('Application Status:', app.getStatus());
console.log('Processed Input:', app.processInput('hello world'));

export default Application;".

Definition generic_py : string :=
  "# Generated Python Application
print('Welcome to CodexOrb!')

class Application:
    def __init__(self, name: str):
        self.name = name
        self.version = '1.0.0'
        self.initialized = False
    
    def initialize(self):
        print(f" ++ dq ++ "Initializing {self.name} v{self.version}" ++ dq ++ ")
        self.initialized = True
        return self
    
    def process_input(self, input_data):
        if not self.initialized:
            raise RuntimeError('Application not initialized')
        
        return str(input_data).upper()
    
    def get_status(self):
        from datetime import datetime
        return {
            'name': self.name,
            'version': self.version,
            'initialized': self.initialized,
            'timestamp': datetime.now().isoformat()
        }

# Usage example
if __name__ == " ++ dq ++ "__main__" ++ dq ++ ":
    app = Application('CodexOrb Demo')
    app.initialize()
    
    print('Application Status:', app.get_status())
    print('Processed Input:', app.process_input('hello world'))".

End Templates.

(* ------------------------------------------------------------------ *)
(** ** [generateMockCode(prompt, language)], the module-level helper *)

Module MockCode.
Record t : Type := mk {
  filename : string;
  content : string;
  description : string;
  issues : list Json
}.
End MockCode.

Module Mock.

Section Helper.
Variable Unicode_toLowerCase : string -> string.

Definition generateMockCode (prompt : string) (language : Language) : MockCode.t :=
  let isJavaScript :=
    match language with javascript => true | python => false end in
  let lowerPrompt := toLowerCase Unicode_toLowerCase prompt in
  if includes lowerPrompt "todo" || includes lowerPrompt "task" then
    MockCode.mk
      (if isJavaScript then "TodoApp.js" else "todo_app.py")
      (if isJavaScript then Templates.todo_js else Templates.todo_py)
      "a complete todo management system with add, toggle, delete, and filter functionality"
      []
  else if includes lowerPrompt "calculator" || includes lowerPrompt "math" then
    MockCode.mk
      (if isJavaScript then "Calculator.js" else "calculator.py")
      (if isJavaScript then Templates.calculator_js else Templates.calculator_py)
      "an advanced calculator with basic operations, power, square root, and calculation history"
      []
  else
    MockCode.mk
      (if isJavaScript then "app.js" else "app.py")
      (if isJavaScript then Templates.generic_js else Templates.generic_py)
      "a basic application structure with initialization and input processing"
      [].

End Helper.

End Mock.

(** [JSON.stringify] of an issue list, as the jsonb column receives it;
    only the empty list occurs in the fallback generator. *)
Definition issues_json (l : list Json) : Json :=
  "[" ++ String.concat "," l ++ "]".

(* ------------------------------------------------------------------ *)
(** ** Writes and reads on the tables *)

Definition eq_session_id_m (sid : Id) (m : Message.t) : bool :=
  String.eqb (Message.session_id m) sid.

Definition eq_session_id_f (sid : Id) (f : CodeFile.t) : bool :=
  String.eqb (CodeFile.session_id f) sid.

Definition eq_session_id_p (sid : Id) (p : SessionParticipant.t) : bool :=
  String.eqb (SessionParticipant.session_id p) sid.

(** [from('sessions').select('*').eq('owner_id', uid)
      .order('updated_at', { ascending: false })] *)
Definition select_owned_sessions (d : Database) (uid : Id) : list Session.t :=
  sort (fun a b => Session.updated_at b - Session.updated_at a)
    (filter (fun s => String.eqb (Session.owner_id s) uid) (tbl_sessions d)).

(** The policy "Users can view their own sessions and public sessions"
    on [sessions], [USING (owner_id = auth.uid() OR is_public = true)]:
    the rows of [sessions] a read by user [uid] gets to see. The reads
    of the owned sessions satisfy it by their own filter. *)
Definition can_view_session (uid : Id) (s : Session.t) : bool :=
  String.eqb (Session.owner_id s) uid || Session.is_public s.

(** [from('session_participants').select('sessions (...)').eq('user_id', uid)]:
    one row per membership, carrying the embedded session, or null
    when there is none the user may view. *)
Definition select_participant_sessions (d : Database) (uid : Id)
    : list (option Session.t) :=
  map (fun p =>
         find (fun s => String.eqb (Session.id s) (SessionParticipant.session_id p))
           (filter (can_view_session uid) (tbl_sessions d)))
    (filter (fun p => String.eqb (SessionParticipant.user_id p) uid)
       (tbl_session_participants d)).

(** [from('sessions').select('*').eq('id', sessionId)], read by user
    [uid]. *)
Definition select_session (d : Database) (uid sessionId : Id) : list Session.t :=
  filter (fun s => String.eqb (Session.id s) sessionId)
    (filter (can_view_session uid) (tbl_sessions d)).

(** [from('session_participants').select('id')
      .eq('session_id', sessionId).eq('user_id', uid)] *)
Definition select_participant (d : Database) (sessionId uid : Id) : list Id :=
  map SessionParticipant.id (rows_for sessionId uid d).

(** [from('messages').select('*').eq('session_id', sessionId)
      .order('created_at', { ascending: true })] *)
Definition select_messages (d : Database) (sessionId : Id) : list Message.t :=
  sort (fun a b => Message.created_at a - Message.created_at b)
    (filter (eq_session_id_m sessionId) (tbl_messages d)).

(** [from('code_files').select('*').eq('session_id', sessionId)
      .order('updated_at', { ascending: false })] *)
Definition select_code_files (d : Database) (sessionId : Id) : list CodeFile.t :=
  sort (fun a b => CodeFile.updated_at b - CodeFile.updated_at a)
    (filter (eq_session_id_f sessionId) (tbl_code_files d)).

(** [from('session_participants').select('*').eq('session_id', sessionId)] *)
Definition select_participants (d : Database) (sessionId : Id)
    : list SessionParticipant.t :=
  filter (eq_session_id_p sessionId) (tbl_session_participants d).

Definition set_role (r : Role) (p : SessionParticipant.t) : SessionParticipant.t :=
  SessionParticipant.mk (SessionParticipant.id p)
    (SessionParticipant.session_id p) (SessionParticipant.user_id p) r
    (SessionParticipant.joined_at p) (SessionParticipant.last_active p).

(** [.upsert({ session_id, user_id, role }, { onConflict: 'session_id,user_id' })]:
    the conflicting row takes the given columns, otherwise a row is
    inserted with the column defaults. *)
Definition upsert_participant (new_id : Id) (now : Timestamp)
    (sessionId uid : Id) (r : Role) (d : Database) : Database :=
  if existsb (same_pair sessionId uid) (tbl_session_participants d) then
    with_session_participants
      (map (fun p => if same_pair sessionId uid p then set_role r p else p)
         (tbl_session_participants d)) d
  else
    with_session_participants
      (tbl_session_participants d
       ++ [SessionParticipant.mk new_id sessionId uid r now now]) d.

(** [from('messages').insert([{ session_id, user_id, content, type }])
      .select().single()]: the row as stored. *)
Definition new_message (new_id : Id) (now : Timestamp)
    (sessionId uid : Id) (content : string) (type : MessageType) : Message.t :=
  Message.mk new_id sessionId uid content type now (Some "{}").

Definition insert_message (m : Message.t) (d : Database) : Database :=
  with_messages (tbl_messages d ++ [m]) d.

(** [from('code_files').insert([{ session_id, filename, content, language,
      health_score, issues }]).select().single()]: the row as stored,
    the score as the JSON body of the request carried it. *)
Definition new_code_file (new_id : Id) (now : Timestamp) (sessionId : Id)
    (filename content language : string) (health_score : JS.number)
    (issues : Json) : CodeFile.t :=
  CodeFile.mk new_id sessionId filename content language now now
    (JS.JSON_number health_score) (Some issues).

Definition insert_code_file (f : CodeFile.t) (d : Database) : Database :=
  with_code_files (tbl_code_files d ++ [f]) d.

(* ------------------------------------------------------------------ *)
(** ** The edge functions *)

(** How the completion API answers one [fetch]. *)
Inductive GroqReply : Type :=
| Thrown (message : string)
    (* the fetch rejects, or reading [choices[0]] of the body throws *)
| NotOk (status text : string)
    (* [!response.ok] *)
| Ok (content : option string).
    (* [choices[0]?.message?.content] of the body *)

(** How the quality analysis goes. *)
Inductive AnalysisReply : Type :=
| AnalysisThrown (message : string)
    (* the fetch itself rejects *)
| AnalysisNotOk
    (* [!analysisResponse.ok] *)
| AnalysisUnparseable
    (* [json()], [JSON.parse] or the property access throws *)
| AnalysisParsed (healthScore : JS.value) (issues : option Json).
    (* the object [JSON.parse] returned *)

Record EdgeEnv : Type := mkEdgeEnv {
  GROQ_API_KEY : bool;
  getUser : string -> option User.t;
  generation : GroqReply;
  analysis : AnalysisReply;
  ai_response : GroqReply;
  chat_completion : GroqReply;
  StringToNumber : string -> JS.number;
  edge_failure : Query -> option string;
  edge_uuid : Query -> Id;
  edge_now : Timestamp;
  Date_now : string;
  Deno_toLowerCase : string -> string
    (* [toLowerCase] of the runtime on texts that are not ASCII *)
}.

(** [s.slice(-4)] *)
Definition slice_last4 (s : string) : string :=
  substring (String.length s - 4) 4 s.

Module GenerateCode.

Record Request : Type := mkRequest {
  prompt : string;
  language : Language;
  context : string;
  sessionId : Id;
  existingFiles : list (string * string);
  Authorization : option string
}.

Inductive Reply : Type :=
| Success (codeFile : CodeFile.t) (aiMessage : string)
| Failure (error : string).

Definition generateFilename (e : EdgeEnv) (prompt : string) (language : Language)
    : string :=
  let lowerPrompt := toLowerCase (Deno_toLowerCase e) prompt in
  let ext := match language with javascript => "js" | python => "py" end in
  if includes lowerPrompt "todo" || includes lowerPrompt "task" then
    "todo-app." ++ ext
  else if includes lowerPrompt "calculator" || includes lowerPrompt "calc" then
    "calculator." ++ ext
  else if includes lowerPrompt "api" || includes lowerPrompt "server" then
    "api-server." ++ ext
  else if includes lowerPrompt "auth" || includes lowerPrompt "login" then
    "auth." ++ ext
  else if includes lowerPrompt "database" || includes lowerPrompt "db" then
    "database." ++ ext
  else if includes lowerPrompt "component" || includes lowerPrompt "ui" then
    "component." ++ ext
  else if includes lowerPrompt "util" || includes lowerPrompt "helper" then
    "utils." ++ ext
  else
    "generated-" ++ slice_last4 (Date_now e) ++ "." ++ ext.

(** [Math.max(60, Math.min(100, analysis.healthScore || 85))] *)
Definition clamp_health (e : EdgeEnv) (healthScore : JS.value) : JS.number :=
  JS.Math_max (JS.of_Z 60)
    (JS.Math_min (JS.of_Z 100)
       (JS.ToNumber (StringToNumber e)
          (JS.or_else healthScore (JS.Number (JS.of_Z 85))))).

(** The [healthScore] and [issues] in force after the analysis block;
    [None] when the analysis fetch rejects. *)
Definition analyse (e : EdgeEnv) : option (JS.number * Json) :=
  match analysis e with
  | AnalysisThrown _ => None
  | AnalysisNotOk => Some (JS.of_Z 85, "[]")
  | AnalysisUnparseable => Some (JS.of_Z 85, "[]")
  | AnalysisParsed healthScore issues =>
      Some (clamp_health e healthScore,
            match issues with Some j => j | None => "[]" end)
  end.

Definition analysis_error (e : EdgeEnv) : string :=
  match analysis e with AnalysisThrown m => m | _ => "" end.

Definition serve (e : EdgeEnv) (req : Request) (d : Database)
    : Database * Reply :=
  if negb (GROQ_API_KEY e) then (d, Failure "GROQ_API_KEY not configured")
  else
    match Authorization req with
    | None => (d, Failure "No authorization header")
    | Some token =>
      match getUser e token with
      | None => (d, Failure "Invalid authentication")
      | Some u =>
        match generation e with
        | Thrown m => (d, Failure m)
        | NotOk status text =>
            (d, Failure ("Groq API error: " ++ status ++ " - " ++ text))
        | Ok content =>
          let generatedCode :=
            match content with Some c => c | None => "" end in
          match analyse e with
          | None => (d, Failure (analysis_error e))
          | Some (healthScore, issues) =>
            let filename := generateFilename e (prompt req) (language req) in
            match edge_failure e InsertCodeFile with
            | Some m => (d, Failure ("Database error: " ++ m))
            | None =>
              let codeFile :=
                new_code_file (edge_uuid e InsertCodeFile) (edge_now e)
                  (sessionId req) filename generatedCode
                  (Language_tag (language req)) healthScore issues in
              let d1 := insert_code_file codeFile d in
              let default :=
                "I've generated " ++ filename
                ++ " for you! The code includes everything you requested." in
              match ai_response e with
              | Thrown m => (d1, Failure m)
              | reply =>
                let aiMessage :=
                  match reply with
                  | Ok (Some c) => if String.eqb c "" then default else c
                  | _ => default
                  end in
                let d2 :=
                  match edge_failure e InsertMessage with
                  | Some _ => d1
                  | None =>
                      insert_message
                        (new_message (edge_uuid e InsertMessage) (edge_now e)
                           (sessionId req) (User.id u) aiMessage type_ai) d1
                  end in
                (d2, Success codeFile aiMessage)
              end
            end
          end
        end
      end
    end.

End GenerateCode.

Module ChatResponse.

Record Request : Type := mkRequest {
  message : string;
  sessionId : Id;
  context : option string;
  Authorization : option string
}.

Inductive Reply : Type :=
| Success (message : Message.t)
| Failure (error : string).

Definition serve (e : EdgeEnv) (req : Request) (d : Database)
    : Database * Reply :=
  if negb (GROQ_API_KEY e) then (d, Failure "GROQ_API_KEY not configured")
  else
    match Authorization req with
    | None => (d, Failure "No authorization header")
    | Some token =>
      match getUser e token with
      | None => (d, Failure "Invalid authentication")
      | Some u =>
        match chat_completion e with
        | Thrown m => (d, Failure m)
        | NotOk status text =>
            (d, Failure ("Groq API error: " ++ status ++ " - " ++ text))
        | Ok content =>
          let aiResponse :=
            match content with
            | Some c =>
                if String.eqb c ""
                then "I apologize, but I encountered an issue. Please try again."
                else c
            | None => "I apologize, but I encountered an issue. Please try again."
            end in
          match edge_failure e InsertMessage with
          | Some m => (d, Failure ("Database error: " ++ m))
          | None =>
            let aiMessage :=
              new_message (edge_uuid e InsertMessage) (edge_now e)
                (sessionId req) (User.id u) aiResponse type_ai in
            (insert_message aiMessage d, Success aiMessage)
          end
        end
      end
    end.

End ChatResponse.

(* ------------------------------------------------------------------ *)
(** ** The client's surroundings *)

(** What the outside answers while one action of the store runs. *)
Record Env : Type := mkEnv {
  failure : Query -> option string;   (* the error of a failing query *)
  uuid : Query -> Id;                 (* [gen_random_uuid()] of an insert *)
  now : Timestamp;                    (* [now()] of the database *)
  getSession : option string;         (* access token of the auth session *)
  Math_random : Q;                    (* in [0, 1) *)
  invoke_failure : option string;     (* the edge function is unreachable *)
  edge : EdgeEnv;
  browser_toLowerCase : string -> string
    (* [toLowerCase] of the runtime on texts that are not ASCII *)
}.

Definition query {A : Type} (env : Env) (q : Query) (rows : A) : Response A :=
  match failure env q with
  | Some m => Error m
  | None => Data rows
  end.

Inductive Toast : Type :=
| toast_error (text : string)
| toast_success (text : string).

(** A realtime channel: its topic, the [postgres_changes] binding with
    the [session_id=eq.…] filter, and the [user] its callback closed over. *)
Inductive Binding : Type :=
| INSERT_messages
| INSERT_code_files
| UPDATE_code_files.

Record Channel : Type := mkChannel {
  ref : nat;
  topic : string;
  binding : Binding;
  filter_session_id : Id;
  closure_user : User.t
}.

Record World : Type := mkWorld {
  state : AppState;
  db : Database;
  channels : list Channel;                        (* open on the client *)
  next_ref : nat;
  supabaseSubscriptions : option (list Channel);  (* on [window] *)
  toasts : list Toast
}.

Definition initialWorld (d : Database) : World :=
  mkWorld initialState d [] 0 None [].

Definition set (f : AppState -> AppState) (w : World) : World :=
  mkWorld (f (state w)) (db w) (channels w) (next_ref w)
    (supabaseSubscriptions w) (toasts w).

Definition with_db (d : Database) (w : World) : World :=
  mkWorld (state w) d (channels w) (next_ref w)
    (supabaseSubscriptions w) (toasts w).

Definition toast (t : Toast) (w : World) : World :=
  mkWorld (state w) (db w) (channels w) (next_ref w)
    (supabaseSubscriptions w) (toasts w ++ [t]).

(** A change the database pushes to the subscribers. *)
Inductive Notification : Type :=
| NewMessage (new : Message.t)
| NewCodeFile (new : CodeFile.t)
| UpdatedCodeFile (new : CodeFile.t).

Definition notification_session (n : Notification) : Id :=
  match n with
  | NewMessage m => Message.session_id m
  | NewCodeFile f | UpdatedCodeFile f => CodeFile.session_id f
  end.

(* ------------------------------------------------------------------ *)
(** ** The store [useAppStore] *)

Module useAppStore.

(** *** Realtime *)

(** [supabase.removeChannel(subscription)] *)
Definition removeChannel (c : Channel) (open : list Channel) : list Channel :=
  filter (fun c' => negb (Nat.eqb (ref c') (ref c))) open.

Definition cleanupSubscriptions (w : World) : World :=
  match supabaseSubscriptions w with
  | Some subscriptions =>
      mkWorld (state w) (db w)
        (fold_left (fun open c => removeChannel c open) subscriptions (channels w))
        (next_ref w) (Some []) (toasts w)
  | None => w
  end.

(** The three callbacks. *)
Definition on_new_message (u : User.t) (newMessage : Message.t)
    (s : AppState) : AppState :=
  if negb (String.eqb (Message.user_id newMessage) (User.id u))
  then set_messages (messages s ++ [newMessage]) s
  else s.

Definition on_new_file (newFile : CodeFile.t) (s : AppState) : AppState :=
  match find (fun f => String.eqb (CodeFile.id f) (CodeFile.id newFile))
          (codeFiles s) with
  | None => set_codeFiles (newFile :: codeFiles s) s
  | Some _ => s
  end.

Definition on_file_update (updatedFile : CodeFile.t) (s : AppState) : AppState :=
  set_codeFiles
    (map (fun file =>
            if String.eqb (CodeFile.id file) (CodeFile.id updatedFile)
            then updatedFile else file)
       (codeFiles s)) s.

Definition setupRealtimeSubscriptions (w : World) : World :=
  match currentSession (state w), user (state w) with
  | Some cs, Some u =>
      let w1 := cleanupSubscriptions w in
      let n := next_ref w1 in
      let messagesSubscription :=
        mkChannel n ("messages:" ++ Session.id cs) INSERT_messages
          (Session.id cs) u in
      let filesSubscription :=
        mkChannel (n + 1) ("code_files:" ++ Session.id cs) INSERT_code_files
          (Session.id cs) u in
      let fileUpdatesSubscription :=
        mkChannel (n + 2) ("code_files_updates:" ++ Session.id cs)
          UPDATE_code_files (Session.id cs) u in
      let subs :=
        [messagesSubscription; filesSubscription; fileUpdatesSubscription] in
      mkWorld (state w1) (db w1) (channels w1 ++ subs) (n + 3)
        (Some subs) (toasts w1)
  | _, _ => w
  end.

(** The callback of channel [c] on a change it is subscribed to. *)
Definition callback (c : Channel) (n : Notification) (s : AppState) : AppState :=
  match binding c, n with
  | INSERT_messages, NewMessage m => on_new_message (closure_user c) m s
  | INSERT_code_files, NewCodeFile f => on_new_file f s
  | UPDATE_code_files, UpdatedCodeFile f => on_file_update f s
  | _, _ => s
  end.

(** The realtime server hands a change to every open channel whose
    filter matches the row. *)
Definition deliver (n : Notification) (w : World) : World :=
  set (fun s =>
         fold_left
           (fun s c =>
              if String.eqb (filter_session_id c) (notification_session n)
              then callback c n s else s)
           (channels w) s) w.

Definition deliver_all (ns : list Notification) (w : World) : World :=
  fold_left (fun w n => deliver n w) ns w.

(** *** [loadSessions] *)

(** The [forEach] that pushes the sessions not yet listed. *)
Definition push_participant_session (allSessions : list Session.t)
    (participant : option Session.t) : list Session.t :=
  match participant with
  | Some ps =>
      match find (fun s => String.eqb (Session.id s) (Session.id ps)) allSessions with
      | None => allSessions ++ [ps]
      | Some _ => allSessions
      end
  | None => allSessions
  end.

Definition combine_sessions (ownedSessions : list Session.t)
    (participantSessions : list (option Session.t)) : list Session.t :=
  sort (fun a b => Session.updated_at b - Session.updated_at a)
    (fold_left push_participant_session participantSessions ownedSessions).

Definition loadSessions_failed (message : string) (w : World) : World :=
  toast (toast_error "Failed to load sessions")
    (set (fun s => set_isLoading false (set_error (Some message) s)) w).

Definition loadSessions (env : Env) (w : World) : World :=
  match user (state w) with
  | None => w
  | Some u =>
    let w1 := set (fun s => set_error None (set_isLoading true s)) w in
    match query env SelectOwnedSessions
            (select_owned_sessions (db w1) (User.id u)) with
    | Error m => loadSessions_failed m w1
    | Data ownedSessions =>
      match query env SelectParticipantSessions
              (select_participant_sessions (db w1) (User.id u)) with
      | Error m => loadSessions_failed m w1
      | Data participantSessions =>
          set (fun s =>
                 set_isLoading false
                   (set_sessions
                      (combine_sessions ownedSessions participantSessions) s))
            w1
      end
    end
  end.

(** *** [joinSession] *)

Definition joinSession_failed (message : string) (w : World) : World :=
  toast (toast_error (if String.eqb message "" then "Failed to join session"
                      else message))
    (set (fun s => set_isLoading false (set_error (Some message) s)) w).

Definition or_empty {A : Type} (r : Response (list A)) : list A :=
  match r with Data l => l | Error _ => [] end.

Definition joinSession (env : Env) (sessionId : Id) (w : World) : World :=
  match user (state w) with
  | None => toast (toast_error "You must be logged in to join a session") w
  | Some u =>
    let w1 := set (fun s => set_error None (set_isLoading true s)) w in
    match single (query env SelectSession
                    (select_session (db w1) (User.id u) sessionId)) with
    | Error _ => joinSession_failed "Session not found or access denied" w1
    | Data session =>
      let canAccess :=
        String.eqb (Session.owner_id session) (User.id u)
        || Session.is_public session in
      let participant :=
        data_or_null
          (single (query env SelectParticipant
                     (select_participant (db w1) sessionId (User.id u)))) in
      if negb canAccess
         && match participant with None => true | Some _ => false end
      then joinSession_failed "You do not have access to this session" w1
      else
        let d1 :=
          if negb (String.eqb (Session.owner_id session) (User.id u)) then
            match failure env UpsertParticipant with
            | Some _ => db w1
            | None =>
                upsert_participant (uuid env UpsertParticipant) (now env)
                  sessionId (User.id u) developer (db w1)
            end
          else db w1 in
        let loaded_messages :=
          or_empty (query env SelectMessages (select_messages d1 sessionId)) in
        let loaded_codeFiles :=
          or_empty (query env SelectCodeFiles (select_code_files d1 sessionId)) in
        let participants :=
          or_empty (query env SelectParticipants (select_participants d1 sessionId)) in
        let w2 := cleanupSubscriptions (with_db d1 w1) in
        let w3 :=
          set (fun s =>
                 set_error None
                   (set_isLoading false
                      (set_sessionParticipants participants
                         (set_codeFiles loaded_codeFiles
                            (set_messages loaded_messages
                               (set_currentSession (Some session) s))))))
            w2 in
        let w4 := setupRealtimeSubscriptions w3 in
        toast (toast_success ("Joined session: " ++ Session.name session)) w4
    end
  end.

(** *** [sendMessage] *)

(** The call of the [chat-response] function after a user message; its
    failures are logged and nothing else. *)
Definition call_chat_response (env : Env) (content : string)
    (cs : Session.t) (w : World) : World :=
  match getSession env with
  | None => w
  | Some access_token =>
      match invoke_failure env with
      | Some _ => w
      | None =>
          with_db
            (fst (ChatResponse.serve (edge env)
                    (ChatResponse.mkRequest content (Session.id cs)
                       (Some ("Session: " ++ Session.name cs))
                       (Some access_token))
                    (db w)))
            w
      end
  end.

Definition sendMessage (env : Env) (content : string) (type : MessageType)
    (w : World) : World :=
  match user (state w), currentSession (state w) with
  | Some u, Some cs =>
    match failure env InsertMessage with
    | Some m =>
        toast (toast_error "Failed to send message")
          (set (set_error (Some m)) w)
    | None =>
        let data :=
          new_message (uuid env InsertMessage) (now env) (Session.id cs)
            (User.id u) content type in
        let w1 := with_db (insert_message data (db w)) w in
        let w2 :=
          if MessageType_eqb type type_user
          then set (fun s => set_messages (messages s ++ [data]) s) w1
          else w1 in
        if MessageType_eqb type type_user
        then call_chat_response env content cs w2
        else w2
    end
  | _, _ => toast (toast_error "No active session") w
  end.

(** *** [generateMockCode], the action, and [generateCode] *)

(** [Math.floor(Math.random() * 40) + 60] *)
Definition mock_health_score (env : Env) : JS.number :=
  JS.add (JS.Math_floor (JS.mul_fin (JS.Fin (Math_random env)) (inject_Z 40)))
    (JS.of_Z 60).

Definition generateMockCode (env : Env) (prompt : string) (w : World) : World :=
  match currentSession (state w), user (state w) with
  | Some cs, Some u =>
    let w1 := set (set_isLoading true) w in
    let mockCode :=
      Mock.generateMockCode (browser_toLowerCase env) prompt
        (Session.language cs) in
    let w2 :=
      match failure env InsertCodeFile with
      | Some m =>
          toast (toast_error "Failed to generate code")
            (set (set_error (Some m)) w1)
      | None =>
          let data :=
            new_code_file (uuid env InsertCodeFile) (now env) (Session.id cs)
              (MockCode.filename mockCode) (MockCode.content mockCode)
              (Language_tag (Session.language cs)) (mock_health_score env)
              (issues_json (MockCode.issues mockCode)) in
          let w' := with_db (insert_code_file data (db w1)) w1 in
          let w'' :=
            sendMessage env
              ("I've generated " ++ MockCode.filename mockCode
               ++ " for you. The code includes " ++ MockCode.description mockCode)
              type_ai w' in
          toast (toast_success
                   ("Generated " ++ MockCode.filename mockCode ++ " (Mock Mode)"))
            w''
      end in
    set (set_isLoading false) w2
  | _, _ => w
  end.

(** The [try] block of [generateCode]: the world it leaves and the
    message of the error it throws, if any. *)
Definition invoke_generate_code (env : Env) (prompt : string)
    (cs : Session.t) (w : World) : World * option string :=
  match getSession env with
  | None => (w, Some "No auth session")
  | Some access_token =>
      match invoke_failure env with
      | Some m => (w, Some m)
      | None =>
          let req :=
            GenerateCode.mkRequest prompt (Session.language cs)
              ("Session: " ++ Session.name cs) (Session.id cs)
              (map (fun f => (CodeFile.filename f, CodeFile.content f))
                 (codeFiles (state w)))
              (Some access_token) in
          match GenerateCode.serve (edge env) req (db w) with
          | (d, GenerateCode.Success codeFile _) =>
              (toast (toast_success ("Generated " ++ CodeFile.filename codeFile))
                 (with_db d w), None)
          | (d, GenerateCode.Failure _) =>
              (with_db d w, Some "Edge Function returned a non-2xx status code")
          end
      end
  end.

Definition generateCode (env : Env) (prompt : string) (w : World) : World :=
  match currentSession (state w), user (state w) with
  | Some cs, Some u =>
    let w1 := set (set_isLoading true) w in
    let w3 :=
      match invoke_generate_code env prompt cs w1 with
      | (w2, None) => w2
      | (w2, Some m) =>
          generateMockCode env prompt (set (set_error (Some m)) w2)
      end in
    set (set_isLoading false) w3
  | _, _ => toast (toast_error "No active session") w
  end.

End useAppStore.

(* ------------------------------------------------------------------ *)
(** ** The other actions of the store, and the components calling them *)

Definition with_sessions (v : list Session.t) (d : Database) : Database :=
  mkDatabase v (tbl_messages d) (tbl_code_files d) (tbl_session_participants d).

(** The row [insert([{ name, description, owner_id, language,
    is_public: false }])] stores, with the column defaults. *)
Definition new_session (new_id : Id) (now : Timestamp) (name description : string)
    (owner_id : Id) (language : Language) : Session.t :=
  Session.mk new_id name (Some description) owner_id now now false language.

Definition duplicate_key : string :=
  "duplicate key value violates unique constraint".

(** An insert into [sessions]: refused on a primary-key conflict. *)
Definition insert_session (env : Env) (s : Session.t) (d : Database)
    : Response Database :=
  match failure env InsertSession with
  | Some m => Error m
  | None =>
      if existsb (fun s' => String.eqb (Session.id s') (Session.id s))
           (tbl_sessions d)
      then Error duplicate_key
      else Data (with_sessions (tbl_sessions d ++ [s]) d)
  end.

(** An insert into [session_participants]: refused on a conflict with
    the primary key or with [UNIQUE(session_id, user_id)]. *)
Definition insert_participant (env : Env) (p : SessionParticipant.t)
    (d : Database) : Response Database :=
  match failure env InsertParticipant with
  | Some m => Error m
  | None =>
      if existsb (fun p' => String.eqb (SessionParticipant.id p')
                              (SessionParticipant.id p))
           (tbl_session_participants d)
         || existsb (same_pair (SessionParticipant.session_id p)
                       (SessionParticipant.user_id p))
              (tbl_session_participants d)
      then Error duplicate_key
      else Data (with_session_participants
                   (tbl_session_participants d ++ [p]) d)
  end.

(** [createSession(name, description = '', language = 'javascript')]:
    the world it leaves and the session it resolves to ([None] is
    [null]). *)
Definition createSession (env : Env) (name description : string)
    (language : Language) (w : World) : World * option Session.t :=
  match user (state w) with
  | None =>
      (toast (toast_error "You must be logged in to create a session") w, None)
  | Some u =>
    let w1 := set (fun s => set_error None (set_isLoading true s)) w in
    let data :=
      new_session (uuid env InsertSession) (now env) name description
        (User.id u) language in
    match insert_session env data (db w1) with
    | Error m =>
        (toast (toast_error "Failed to create session")
           (set (fun s => set_isLoading false (set_error (Some m) s)) w1),
         None)
    | Data d1 =>
      let d2 :=
        match insert_participant env
                (SessionParticipant.mk (uuid env InsertParticipant)
                   (Session.id data) (User.id u) owner (now env) (now env))
                d1 with
        | Error _ => d1
        | Data d => d
        end in
      let w2 := set (set_isLoading false) (with_db d2 w1) in
      let w3 := toast (toast_success "Session created successfully!") w2 in
      (useAppStore.loadSessions env w3, Some data)
    end
  end.

(** [{ ...file, content }] *)
Definition with_content (content : string) (file : CodeFile.t) : CodeFile.t :=
  CodeFile.mk (CodeFile.id file) (CodeFile.session_id file)
    (CodeFile.filename file) content (CodeFile.language file)
    (CodeFile.created_at file) (CodeFile.updated_at file)
    (CodeFile.health_score file) (CodeFile.issues file).

(** The row after [update({ content })]: the trigger
    [update_code_files_updated_at] stamps [updated_at]. *)
Definition updated_row (content : string) (now : Timestamp) (file : CodeFile.t)
    : CodeFile.t :=
  CodeFile.mk (CodeFile.id file) (CodeFile.session_id file)
    (CodeFile.filename file) content (CodeFile.language file)
    (CodeFile.created_at file) now
    (CodeFile.health_score file) (CodeFile.issues file).

Definition update_code_file (fileId : Id) (content : string) (now : Timestamp)
    (d : Database) : Database :=
  with_code_files
    (map (fun file => if String.eqb (CodeFile.id file) fileId
                      then updated_row content now file else file)
       (tbl_code_files d)) d.

(** [updateCodeFile(fileId, content)]: the world it leaves, and the row
    it resolves to or the message of the error it throws. A
    [.single()] that does not get exactly one row rejects the request
    as a whole. *)
Definition updateCodeFile (env : Env) (fileId : Id) (content : string)
    (w : World) : World * Response CodeFile.t :=
  match user (state w) with
  | None => (w, Error "User not authenticated")
  | Some _ =>
    let d1 := update_code_file fileId content (now env) (db w) in
    match single (query env UpdateCodeFile
                    (filter (fun file => String.eqb (CodeFile.id file) fileId)
                       (tbl_code_files d1))) with
    | Error m => (w, Error m)
    | Data data =>
        (set (fun s =>
                set_codeFiles
                  (map (fun file => if String.eqb (CodeFile.id file) fileId
                                    then with_content content file else file)
                     (codeFiles s)) s)
           (with_db d1 w),
         Data data)
    end
  end.

(** The handlers of the components. [String.prototype.trim] is a
    parameter: what it strips is not fixed here. *)
Section Components.
Variable trim : string -> string.

(** [Sidebar]: [handleCreateSession] on the name typed in. *)
Definition handleCreateSession (env env' : Env) (newSessionName : string)
    (w : World) : World :=
  if String.eqb (trim newSessionName) "" then w
  else
    match createSession env newSessionName "" javascript w with
    | (w1, Some session) => useAppStore.joinSession env' (Session.id session) w1
    | (w1, None) => w1
    end.

(** [Chat]: [handleSubmit] on the text typed in. *)
Definition handleSubmit (env env' : Env) (message : string) (w : World) : World :=
  if String.eqb (trim message) ""
     || match currentSession (state w) with None => true | Some _ => false end
  then w
  else
    let userMessage := trim message in
    useAppStore.generateCode env' userMessage
      (useAppStore.sendMessage env userMessage type_user w).

(** [CodeEditor]: [handleSave] of the edited text of the selected file. *)
Definition handleSave (env : Env) (selectedFile : option Id)
    (editedContent : string) (w : World) : World :=
  let currentFile :=
    match selectedFile with
    | Some i => find (fun f => String.eqb (CodeFile.id f) i) (codeFiles (state w))
    | None => None
    end in
  match currentFile with
  | None => w
  | Some file =>
    if String.eqb (trim editedContent) "" then w
    else
      match updateCodeFile env (CodeFile.id file) editedContent w with
      | (w1, Data _) => toast (toast_success "File updated successfully!") w1
      | (w1, Error _) => toast (toast_error "Failed to update file") w1
      end
  end.

End Components.

(** ** The figures of the [Dashboard] *)

(** The counts of the [stats] object. Its [averageHealth], a mean in
    floating point, is not among them. *)
Module Dashboard.

(** [a < b] on numbers. *)
Definition ltb (a b : JS.number) : bool :=
  match a, b with
  | JS.NaN, _ | _, JS.NaN => false
  | _, _ => negb (JS.leb b a)
  end.

(** [s.split('\n').length] *)
Fixpoint lines (s : string) : nat :=
  match s with
  | EmptyString => 1
  | String c s' =>
      if Ascii.eqb c (ascii_of_nat 10) then S (lines s') else lines s'
  end.

Definition totalFiles (codeFiles : list CodeFile.t) : nat :=
  List.length codeFiles.

Definition totalLines (codeFiles : list CodeFile.t) : nat :=
  fold_left (fun sum file => (sum + lines (CodeFile.content file))%nat)
    codeFiles 0%nat.

(** The score as the comparisons see it: a [null] counts as 0. *)
Definition score (file : CodeFile.t) : JS.number :=
  JS.of_nullable (CodeFile.health_score file).

Definition healthyFiles (codeFiles : list CodeFile.t) : nat :=
  List.length
    (filter (fun file => JS.leb (JS.of_Z 80) (score file)) codeFiles).

Definition warningFiles (codeFiles : list CodeFile.t) : nat :=
  List.length
    (filter (fun file => JS.leb (JS.of_Z 60) (score file)
                         && ltb (score file) (JS.of_Z 80))
       codeFiles).

Definition issueFiles (codeFiles : list CodeFile.t) : nat :=
  List.length
    (filter (fun file => ltb (score file) (JS.of_Z 60)) codeFiles).

Definition totalMessages (messages : list Message.t) : nat :=
  List.length messages.

Definition aiMessages (messages : list Message.t) : nat :=
  List.length
    (filter (fun msg => MessageType_eqb (Message.type msg) type_ai) messages).

End Dashboard.

(* ================================================================== *)
(** * Properties *)

Import useAppStore.

(* ------------------------------------------------------------------ *)
(** ** A concrete scenario, used to run the store on actual inputs *)

Module Scenario.

Definition alice : User.t := User.mk "u-alice".
Definition bob : User.t := User.mk "u-bob".

Definition private_session : Session.t :=
  Session.mk "s-private" "Alice's room" (Some "") "u-alice" 10 40 false javascript.

Definition public_session : Session.t :=
  Session.mk "s-public" "Open room" (Some "") "u-alice" 20 30 true python.

Definition old_message : Message.t :=
  Message.mk "m-1" "s-public" "u-alice" "welcome" type_user 21 (Some "{}").

Definition other_session : Session.t :=
  Session.mk "s-other" "Carol's room" (Some "") "u-carol" 25 35 true javascript.

Definition database : Database :=
  mkDatabase [private_session; public_session; other_session] [old_message] []
    [SessionParticipant.mk "p-1" "s-private" "u-alice" owner 10 10;
     SessionParticipant.mk "p-2" "s-public" "u-alice" owner 20 20].

(** An edge function whose completion API is down. *)
Definition edge_down : EdgeEnv :=
  mkEdgeEnv true (fun _ => Some bob)
    (NotOk "503" "unavailable") AnalysisNotOk (NotOk "503" "unavailable")
    (NotOk "503" "unavailable") (fun _ => JS.NaN) (fun _ => None)
    (fun _ => "e-1") 100 "1700000001234" (fun s => s).

(** An edge function whose completion API answers, the analysis
    reporting a score of 250. *)
Definition edge_up : EdgeEnv :=
  mkEdgeEnv true (fun _ => Some bob)
    (Ok (Some "print(1)")) (AnalysisParsed (JS.Number (JS.Fin (250 # 1))) None)
    (Ok (Some "Here is your file.")) (Ok (Some "Hello!"))
    (fun _ => JS.NaN) (fun _ => None)
    (fun q => match q with InsertMessage => "m-edge" | _ => "f-edge" end)
    100 "1700000001234" (fun s => s).

Definition request : GenerateCode.Request :=
  GenerateCode.mkRequest "sort a list" python "Session: Open room" "s-public"
    [] (Some "token").

(** Nothing fails on the client side. *)
Definition env : Env :=
  mkEnv (fun _ => None)
    (fun q => match q with
              | InsertMessage => "m-new"
              | InsertCodeFile => "f-new"
              | _ => "p-new"
              end)
    50 (Some "token") (1 # 2) None edge_down (fun s => s).

(** The same surroundings a moment later. *)
Definition env2 : Env :=
  mkEnv (fun _ => None)
    (fun q => match q with
              | InsertMessage => "m-new2"
              | InsertCodeFile => "f-new2"
              | _ => "p-new2"
              end)
    55 (Some "token") (1 # 4) None edge_down (fun s => s).

(** Messages other users post in the two public sessions. *)
Definition message_in_public : Message.t :=
  Message.mk "m-8" "s-public" "u-alice" "still there?" type_user 60 (Some "{}").

Definition message_in_other : Message.t :=
  Message.mk "m-9" "s-other" "u-carol" "hi Bob" type_user 61 (Some "{}").

(** Bob, signed in, with nothing joined yet. *)
Definition signed_in : World :=
  set (set_user (Some bob)) (initialWorld database).

(** Alice, signed in. *)
Definition alice_signed_in : World :=
  set (set_user (Some alice)) (initialWorld database).

(** Bob after joining the public session. *)
Definition joined : World := joinSession env "s-public" signed_in.

(** A file of the public session that Bob's client has not seen. *)
Definition remote_file : CodeFile.t :=
  CodeFile.mk "f-7" "s-public" "main.py" "print(1)" "python" 60 70
    (Some (JS.of_Z 90)) (Some "[]").

End Scenario.

Example scenario_joined_view :
  view_of (state Scenario.joined)
  = mkSessionView (Some Scenario.public_session) [Scenario.old_message] []
      [SessionParticipant.mk "p-2" "s-public" "u-alice" owner 20 20;
       SessionParticipant.mk "p-new" "s-public" "u-bob" developer 50 50].
Proof. reflexivity. Qed.

Example scenario_joined_channels :
  map (fun c => (binding c, filter_session_id c)) (channels Scenario.joined)
  = [(INSERT_messages, "s-public"); (INSERT_code_files, "s-public");
     (UPDATE_code_files, "s-public")].
Proof. reflexivity. Qed.

(* ------------------------------------------------------------------ *)
(** ** C7: [sendMessage] without an active session *)

(** C7. Called with no authenticated user or no active session,
    [sendMessage] only reports "No active session": the zustand state,
    the database (no write is issued) and the open channels are exactly
    what they were, and no message is appended. *)
Theorem C7_sendMessage_requires_session :
  forall (env : Env) (content : string) (type : MessageType) (w : World),
    user (state w) = None \/ currentSession (state w) = None ->
    let w' := sendMessage env content type w in
    state w' = state w
    /\ db w' = db w
    /\ channels w' = channels w
    /\ supabaseSubscriptions w' = supabaseSubscriptions w
    /\ toasts w' = (toasts w ++ [toast_error "No active session"])%list.
Proof.
  intros env content type w H.
  unfold sendMessage.
  destruct (user (state w)) as [u|] eqn:Hu;
    destruct (currentSession (state w)) as [cs|] eqn:Hcs; cbn.
  - destruct H; discriminate.
  - repeat split.
  - repeat split.
  - repeat split.
Qed.

Lemma C7_sendMessage_requires_session_witness :
  let w' := sendMessage Scenario.env "hello" type_user Scenario.signed_in in
  state w' = state Scenario.signed_in
  /\ db w' = db Scenario.signed_in
  /\ channels w' = channels Scenario.signed_in
  /\ supabaseSubscriptions w' = supabaseSubscriptions Scenario.signed_in
  /\ toasts w' = (toasts Scenario.signed_in ++ [toast_error "No active session"])%list.
Proof.
  apply (C7_sendMessage_requires_session Scenario.env "hello" type_user
           Scenario.signed_in).
  right. reflexivity.
Defined.

(* ------------------------------------------------------------------ *)
(** ** C1: a private session refuses a stranger *)

Lemma filter_unique_key {A : Type} (key : A -> string) (l : list A) (x : A) :
  NoDup (map key l) -> In x l ->
  filter (fun y => String.eqb (key y) (key x)) l = [x].
Proof.
  induction l as [|y l IH]; cbn; intros Hnd Hin; [contradiction|].
  inversion Hnd as [|? ? Hnotin Hnd']; subst.
  destruct Hin as [->|Hin].
  - rewrite String.eqb_refl. f_equal.
    clear IH Hnd Hnd'. induction l as [|z l IH]; cbn in *; [reflexivity|].
    destruct (String.eqb (key z) (key x)) eqn:E.
    + apply String.eqb_eq in E. exfalso. apply Hnotin. left. exact E.
    + apply IH. intros H. apply Hnotin. right. exact H.
  - destruct (String.eqb (key y) (key x)) eqn:E.
    + apply String.eqb_eq in E. exfalso. apply Hnotin. rewrite E.
      apply in_map. exact Hin.
    + apply IH; assumption.
Qed.

(** Selecting rows keeps their keys distinct. *)
Lemma selected_keys_distinct {Row : Type} (key : Row -> string)
    (keep : Row -> bool) (rows : list Row) :
  NoDup (map key rows) -> NoDup (map key (filter keep rows)).
Proof.
  intros Hnd. induction rows as [|r rows IH]; cbn in *; [exact Hnd|].
  apply NoDup_cons_iff in Hnd. destruct Hnd as [Hfresh Hrest].
  destruct (keep r); cbn; [|exact (IH Hrest)].
  apply NoDup_cons_iff. split; [|exact (IH Hrest)].
  intros Hin. apply Hfresh. apply in_map_iff in Hin.
  destruct Hin as [r' [Hkey Hsel]]. apply filter_In in Hsel.
  apply in_map_iff. exists r'. split; [exact Hkey|exact (proj1 Hsel)].
Qed.

Lemma NoDup_map_injective {A B : Type} (f : A -> B) (l : list A) (x y : A) :
  NoDup (map f l) -> In x l -> In y l -> f x = f y -> x = y.
Proof.
  induction l as [|z l IH]; cbn; intros Hnd Hx Hy Hf; [contradiction|].
  inversion Hnd as [|? ? Hnotin Hnd']; subst.
  destruct Hx as [->|Hx], Hy as [->|Hy].
  - reflexivity.
  - exfalso. apply Hnotin. rewrite Hf. apply in_map, Hy.
  - exfalso. apply Hnotin. rewrite <- Hf. apply in_map, Hx.
  - apply IH; assumption.
Qed.

Lemma no_element {A : Type} (l : list A) : (forall x, ~ In x l) -> l = [].
Proof.
  destruct l as [|x l]; [reflexivity|]. intros H. exfalso.
  apply (H x). left. reflexivity.
Qed.

(** A read by identifier gets the session when the user may view it,
    and no row when not. *)
Lemma select_session_pkey (d : Database) (uid : Id) (s : Session.t) :
  NoDup (map Session.id (tbl_sessions d)) -> In s (tbl_sessions d) ->
  can_view_session uid s = true ->
  select_session d uid (Session.id s) = [s].
Proof.
  intros Hnd Hin Hv. apply (filter_unique_key Session.id).
  - apply selected_keys_distinct, Hnd.
  - apply filter_In. split; assumption.
Qed.

Lemma select_session_hidden (d : Database) (uid : Id) (s : Session.t) :
  NoDup (map Session.id (tbl_sessions d)) -> In s (tbl_sessions d) ->
  can_view_session uid s = false ->
  select_session d uid (Session.id s) = [].
Proof.
  intros Hnd Hin Hv. apply no_element. intros x Hx.
  unfold select_session in Hx. apply filter_In in Hx. destruct Hx as [Hx Hid].
  apply filter_In in Hx. destruct Hx as [Hx Hvx]. apply String.eqb_eq in Hid.
  rewrite (NoDup_map_injective Session.id _ x s Hnd Hx Hin Hid) in Hvx.
  congruence.
Qed.

Lemma can_view_own_or_public (uid : Id) (s : Session.t) :
  Session.owner_id s = uid \/ Session.is_public s = true ->
  can_view_session uid s = true.
Proof.
  unfold can_view_session. intros [H|H].
  - rewrite H, String.eqb_refl. reflexivity.
  - rewrite H. apply orb_true_r.
Qed.

(** The message a refused join ends with: the session is not among
    the rows the user may view, so the fetch itself reports it. *)
Definition denial : string := "Session not found or access denied".

(** C1. A signed-in user who neither owns a private session nor has a
    participant row for it cannot join it: [joinSession] ends in the
    access error, writes nothing to the database (so no participant row
    appears) and leaves the active session, its messages, code files and
    participants, and the open channels as they were. *)
Theorem C1_private_session_denied :
  forall (env : Env) (w : World) (u : User.t) (s : Session.t),
    user (state w) = Some u ->
    NoDup (map Session.id (tbl_sessions (db w))) ->
    In s (tbl_sessions (db w)) ->
    Session.is_public s = false ->
    Session.owner_id s <> User.id u ->
    rows_for (Session.id s) (User.id u) (db w) = [] ->
    let w' := joinSession env (Session.id s) w in
    error (state w') = Some denial
    /\ toasts w' = (toasts w ++ [toast_error denial])%list
    /\ db w' = db w
    /\ view_of (state w') = view_of (state w)
    /\ channels w' = channels w
    /\ supabaseSubscriptions w' = supabaseSubscriptions w.
Proof.
  intros env w u s Hu Hpk Hin Hpriv Hown Hrows.
  assert (Hv : can_view_session (User.id u) s = false).
  { unfold can_view_session. apply String.eqb_neq in Hown.
    rewrite Hown, Hpriv. reflexivity. }
  unfold joinSession, denial, query. rewrite Hu. cbn [db set].
  rewrite (select_session_hidden (db w) (User.id u) s Hpk Hin Hv).
  destruct (failure env SelectSession); cbn; repeat split; reflexivity.
Qed.

Lemma C1_private_session_denied_witness :
  let w' := joinSession Scenario.env "s-private" Scenario.signed_in in
  error (state w') = Some "Session not found or access denied"
  /\ toasts w'
     = (toasts Scenario.signed_in
        ++ [toast_error "Session not found or access denied"])%list
  /\ db w' = db Scenario.signed_in
  /\ view_of (state w') = view_of (state Scenario.signed_in)
  /\ channels w' = channels Scenario.signed_in
  /\ supabaseSubscriptions w' = supabaseSubscriptions Scenario.signed_in.
Proof.
  apply (C1_private_session_denied Scenario.env Scenario.signed_in
           Scenario.bob Scenario.private_session).
  - reflexivity.
  - cbn. repeat constructor; cbn; intuition discriminate.
  - left. reflexivity.
  - reflexivity.
  - cbn. discriminate.
  - reflexivity.
Defined.

(* ------------------------------------------------------------------ *)
(** ** C4: the handler of code-file updates *)

(** The client holds exactly the three channels of session [sid]. *)
Definition subscribed_to (sid : Id) (w : World) : Prop :=
  map (fun c => (binding c, filter_session_id c)) (channels w)
  = [(INSERT_messages, sid); (INSERT_code_files, sid); (UPDATE_code_files, sid)].

Lemma deliver_update_subscribed (sid : Id) (w : World) (f : CodeFile.t) :
  subscribed_to sid w -> CodeFile.session_id f = sid ->
  state (deliver (UpdatedCodeFile f) w) = on_file_update f (state w).
Proof.
  unfold subscribed_to, deliver. intros Hsub Hsid.
  destruct (channels w) as [|c1 [|c2 [|c3 [|c4 l]]]]; try discriminate.
  cbn in Hsub. injection Hsub as Hb1 Hf1 Hb2 Hf2 Hb3 Hf3.
  cbn. unfold callback. rewrite Hb1, Hb2, Hb3, Hf1, Hf2, Hf3, Hsid.
  rewrite String.eqb_refl. reflexivity.
Qed.

Lemma nth_error_replace (f : CodeFile.t) (l : list CodeFile.t) (i : nat) (g : CodeFile.t) :
  nth_error l i = Some g ->
  nth_error
    (map (fun file => if String.eqb (CodeFile.id file) (CodeFile.id f)
                      then f else file) l) i
  = Some (if String.eqb (CodeFile.id g) (CodeFile.id f) then f else g).
Proof. intros H. rewrite nth_error_map, H. reflexivity. Qed.

Lemma replace_absent (f : CodeFile.t) (l : list CodeFile.t) :
  (forall g, In g l -> CodeFile.id g <> CodeFile.id f) ->
  map (fun file => if String.eqb (CodeFile.id file) (CodeFile.id f)
                   then f else file) l = l.
Proof.
  induction l as [|g l IH]; cbn; intros H; [reflexivity|].
  destruct (String.eqb (CodeFile.id g) (CodeFile.id f)) eqn:E.
  - apply String.eqb_eq in E. exfalso. apply (H g); [left; reflexivity|exact E].
  - f_equal. apply IH. intros g' Hg'. apply H. right. exact Hg'.
Qed.

(** C4 (counterexample). An update for a file the client does not hold
    is not inserted: Bob's client holds no file with the identifier of
    [remote_file], an update for it arrives on the channel of the joined
    session, and the file is not in the collection afterwards. *)
Lemma C4_update_without_match_is_dropped :
  let w := Scenario.joined in
  let f := Scenario.remote_file in
  subscribed_to (CodeFile.session_id f) w
  /\ (forall g, In g (codeFiles (state w)) -> CodeFile.id g <> CodeFile.id f)
  /\ ~ In f (codeFiles (state (deliver (UpdatedCodeFile f) w))).
Proof.
  cbv zeta. split; [reflexivity|]. split.
  - intros g Hg. vm_compute in Hg. contradiction.
  - intros H. vm_compute in H. exact H.
Qed.

(** C4 (amended). On an inbound "updated code file" for the joined
    session the collection is rewritten in place: every entry whose
    identifier equals the update's is replaced by the updated record and
    every other entry stays where it is; when no entry has that
    identifier the collection is unchanged (the update is not inserted). *)
Theorem C4_update_replaces_in_place :
  forall (sid : Id) (w : World) (f : CodeFile.t),
    subscribed_to sid w ->
    CodeFile.session_id f = sid ->
    let files := codeFiles (state w) in
    let files' := codeFiles (state (deliver (UpdatedCodeFile f) w)) in
    List.length files' = List.length files
    /\ (forall i g, nth_error files i = Some g ->
          nth_error files' i
          = Some (if String.eqb (CodeFile.id g) (CodeFile.id f) then f else g))
    /\ ((exists g, In g files /\ CodeFile.id g = CodeFile.id f) -> In f files')
    /\ ((forall g, In g files -> CodeFile.id g <> CodeFile.id f) ->
          files' = files).
Proof.
  intros sid w f Hsub Hsid files files'.
  assert (E : files'
              = map (fun file => if String.eqb (CodeFile.id file) (CodeFile.id f)
                                 then f else file) files).
  { unfold files'. rewrite (deliver_update_subscribed sid w f Hsub Hsid).
    reflexivity. }
  rewrite E. repeat split.
  - apply length_map.
  - intros i g H. apply nth_error_replace. exact H.
  - intros [g [Hin Hid]]. apply in_map_iff. exists g. split; [|exact Hin].
    rewrite Hid, String.eqb_refl. reflexivity.
  - apply replace_absent.
Qed.

Lemma C4_update_replaces_in_place_witness :
  let w := deliver (NewCodeFile Scenario.remote_file) Scenario.joined in
  let f := Scenario.remote_file in
  let files := codeFiles (state w) in
  let files' := codeFiles (state (deliver (UpdatedCodeFile f) w)) in
  List.length files' = List.length files
  /\ (forall i g, nth_error files i = Some g ->
        nth_error files' i
        = Some (if String.eqb (CodeFile.id g) (CodeFile.id f) then f else g))
  /\ ((exists g, In g files /\ CodeFile.id g = CodeFile.id f) -> In f files')
  /\ ((forall g, In g files -> CodeFile.id g <> CodeFile.id f) ->
        files' = files).
Proof.
  apply (C4_update_replaces_in_place "s-public"
           (deliver (NewCodeFile Scenario.remote_file) Scenario.joined)
           Scenario.remote_file).
  - reflexivity.
  - reflexivity.
Defined.

(* ------------------------------------------------------------------ *)
(** ** C8: the health score that gets stored *)

Example clamp_above (e : EdgeEnv) :
  GenerateCode.clamp_health e (JS.Number (JS.Fin (250 # 1))) = JS.of_Z 100.
Proof. reflexivity. Qed.

Example clamp_below (e : EdgeEnv) :
  GenerateCode.clamp_health e (JS.Number (JS.Fin (-5 # 1))) = JS.of_Z 60.
Proof. reflexivity. Qed.

Example clamp_low_but_valid (e : EdgeEnv) :
  GenerateCode.clamp_health e (JS.Number (JS.Fin (30 # 1))) = JS.of_Z 60.
Proof. reflexivity. Qed.

Example clamp_missing (e : EdgeEnv) :
  GenerateCode.clamp_health e JS.Undefined = JS.of_Z 85.
Proof. reflexivity. Qed.

Example clamp_zero (e : EdgeEnv) :
  GenerateCode.clamp_health e (JS.Number (JS.Fin 0)) = JS.of_Z 85.
Proof. reflexivity. Qed.

Example clamp_text (e : EdgeEnv) :
  StringToNumber e "high" = JS.NaN ->
  GenerateCode.clamp_health e (JS.Str "high") = JS.NaN.
Proof. intros H. unfold GenerateCode.clamp_health. cbn. rewrite H. reflexivity. Qed.

Lemma between_85 : JS.between 60 100 (JS.of_Z 85).
Proof. cbn. split; discriminate. Qed.

Lemma clamp_number (n : JS.number) :
  n <> JS.NaN ->
  JS.between 60 100
    (JS.Math_max (JS.of_Z 60) (JS.Math_min (JS.of_Z 100) n)).
Proof.
  intros Hn. destruct n as [|q| |]; [contradiction| |cbn; split; discriminate..].
  cbn. destruct (Qle_bool (inject_Z 100) q) eqn:Hhi; cbn.
  - split; discriminate.
  - destruct (Qle_bool (inject_Z 60) q) eqn:Hlo; cbn.
    + split.
      * apply Qle_bool_iff. exact Hlo.
      * apply Qlt_le_weak. apply Qnot_le_lt. intros H.
        apply Qle_bool_iff in H. congruence.
    + split; discriminate.
Qed.

(** A value that is no text, or whose text denotes a number. *)
Definition denotes_number (e : EdgeEnv) (v : JS.value) : Prop :=
  match v with
  | JS.Str s => s <> "" -> StringToNumber e s <> JS.NaN
  | JS.Object s => StringToNumber e s <> JS.NaN
  | _ => True
  end.

(** The score the analysis reports, if it reports one, is of that kind. *)
Definition score_denotes_number (e : EdgeEnv) : Prop :=
  forall healthScore issues,
    analysis e = AnalysisParsed healthScore issues ->
    denotes_number e healthScore.

Lemma clamp_health_between (e : EdgeEnv) (v : JS.value) :
  denotes_number e v ->
  JS.between 60 100 (GenerateCode.clamp_health e v).
Proof.
  intros Hs. unfold GenerateCode.clamp_health, JS.or_else.
  destruct (JS.truthy v) eqn:Ht; [|exact between_85].
  destruct v as [| |b|n|s|s]; cbn in Ht; try discriminate.
  - subst b. cbn. split; discriminate.
  - cbn [JS.ToNumber]. apply clamp_number. intros ->. discriminate.
  - cbn [JS.ToNumber]. apply clamp_number. apply Hs.
    intros ->. discriminate.
  - cbn [JS.ToNumber]. apply clamp_number. exact Hs.
Qed.

Lemma analyse_between (e : EdgeEnv) (h : JS.number) (i : Json) :
  score_denotes_number e ->
  GenerateCode.analyse e = Some (h, i) -> JS.between 60 100 h.
Proof.
  unfold GenerateCode.analyse, score_denotes_number. intros Hs H.
  destruct (analysis e) as [m| | |v issues] eqn:Ha; try discriminate;
    injection H as <- _; try exact between_85.
  apply clamp_health_between. exact (Hs v issues eq_refl).
Qed.

Lemma mock_health_between (env : Env) :
  (0 <= Math_random env)%Q -> (Math_random env < 1)%Q ->
  JS.between 60 100 (mock_health_score env).
Proof.
  intros H0 H1.
  unfold mock_health_score, JS.add, JS.Math_floor, JS.mul_fin, JS.of_Z, JS.between.
  set (r := Math_random env) in *.
  assert (Hlo : Qfloor (inject_Z 0) <= Qfloor (r * inject_Z 40)).
  { apply Qfloor_resp_le. change (inject_Z 40) with (40 # 1)%Q.
    change (inject_Z 0) with (0 # 1)%Q. lra. }
  assert (Hhi : Qfloor (r * inject_Z 40) <= Qfloor (inject_Z 40)).
  { apply Qfloor_resp_le. change (inject_Z 40) with (40 # 1)%Q. lra. }
  rewrite Qfloor_Z in Hlo, Hhi.
  rewrite <- inject_Z_plus. split; rewrite <- Zle_Qle; lia.
Qed.

Lemma between_stored (lo hi : Z) (h : JS.number) :
  JS.between lo hi h -> JS.nullable_between lo hi (JS.JSON_number h).
Proof. destruct h; cbn; try contradiction. intros H. exact H. Qed.

(** The file the generation function stores, when it gets that far. *)
Definition generated_file (e : EdgeEnv) (req : GenerateCode.Request)
    (content : option string) (h : JS.number) (i : Json) : CodeFile.t :=
  new_code_file (edge_uuid e InsertCodeFile) (edge_now e)
    (GenerateCode.sessionId req)
    (GenerateCode.generateFilename e (GenerateCode.prompt req)
       (GenerateCode.language req))
    match content with Some c => c | None => "" end
    (Language_tag (GenerateCode.language req)) h i.

(** What the function adds to [code_files], and the file it answers
    with, is that file with the score and issues of the analysis. *)
Lemma serve_code_files (e : EdgeEnv) (req : GenerateCode.Request)
    (d : Database) :
  (forall f,
      In f (tbl_code_files (fst (GenerateCode.serve e req d))) ->
      In f (tbl_code_files d)
      \/ exists content h i,
           generation e = Ok content
           /\ GenerateCode.analyse e = Some (h, i)
           /\ f = generated_file e req content h i)
  /\ (forall f aiMessage,
         snd (GenerateCode.serve e req d) = GenerateCode.Success f aiMessage ->
         In f (tbl_code_files (fst (GenerateCode.serve e req d)))
         /\ exists content h i,
              generation e = Ok content
              /\ GenerateCode.analyse e = Some (h, i)
              /\ f = generated_file e req content h i).
Proof.
  unfold GenerateCode.serve.
  destruct (GROQ_API_KEY e); cbn [negb];
    [|split; [left; assumption|discriminate]].
  destruct (GenerateCode.Authorization req) as [token|];
    [|split; [left; assumption|discriminate]].
  destruct (getUser e token) as [u|];
    [|split; [left; assumption|discriminate]].
  destruct (generation e) as [m|st tx|content];
    try (split; [left; assumption|discriminate]).
  destruct (GenerateCode.analyse e) as [[h i]|];
    [|split; [left; assumption|discriminate]].
  destruct (edge_failure e InsertCodeFile);
    [split; [left; assumption|discriminate]|].
  fold (generated_file e req content h i).
  assert (Hin : forall d' f,
             tbl_code_files d'
             = (tbl_code_files d ++ [generated_file e req content h i])%list ->
             In f (tbl_code_files d') ->
             In f (tbl_code_files d)
             \/ exists content0 h0 i0,
                  Ok content = Ok content0
                  /\ Some (h, i) = Some (h0, i0)
                  /\ f = generated_file e req content0 h0 i0).
  { intros d' f -> Hf. apply in_app_or in Hf.
    destruct Hf as [Hf|[<-|[]]]; [left; exact Hf|].
    right. exists content, h, i. repeat split. }
  assert (Hlast : forall d',
             tbl_code_files d'
             = (tbl_code_files d ++ [generated_file e req content h i])%list ->
             In (generated_file e req content h i) (tbl_code_files d')).
  { intros d' ->. apply in_or_app. right. left. reflexivity. }
  destruct (ai_response e) as [m|st tx|c]; cbn [fst snd].
  - split; [intros f; apply Hin; reflexivity|discriminate].
  - destruct (edge_failure e InsertMessage); cbn [fst snd];
      (split; [intros f; apply Hin; reflexivity|]);
      intros f a H; injection H as <- _;
      (split; [apply Hlast; reflexivity|]);
      exists content, h, i; repeat split.
  - destruct (edge_failure e InsertMessage); cbn [fst snd];
      (split; [intros f; apply Hin; reflexivity|]);
      intros f a H; injection H as <- _;
      (split; [apply Hlast; reflexivity|]);
      exists content, h, i; repeat split.
Qed.

(** Where the clamp works: whenever the score the analysis reports is
    a number of any size, is missing, or is a text that denotes a
    number, and when the analysis does not parse or is answered with a
    non-2xx status, a code file the generation function stores carries
    a health score in [60, 100]; so does the file the fallback
    generator stores, for any [Math.random()] in [0, 1). *)
Lemma numeric_score_stored_in_range :
  forall (e : EdgeEnv) (req : GenerateCode.Request) (d : Database) (env : Env),
    score_denotes_number e ->
    (0 <= Math_random env)%Q -> (Math_random env < 1)%Q ->
    (forall f,
        In f (tbl_code_files (fst (GenerateCode.serve e req d))) ->
        In f (tbl_code_files d)
        \/ JS.nullable_between 60 100 (CodeFile.health_score f))
    /\ (forall f aiMessage,
           snd (GenerateCode.serve e req d) = GenerateCode.Success f aiMessage ->
           JS.nullable_between 60 100 (CodeFile.health_score f))
    /\ JS.between 60 100 (mock_health_score env).
Proof.
  intros e req d env Hs H0 H1.
  destruct (serve_code_files e req d) as [Hin Hok].
  split; [|split; [|apply mock_health_between; assumption]].
  - intros f Hf. destruct (Hin f Hf) as [Hold|[c [h [i [_ [Ha ->]]]]]];
      [left; exact Hold|right].
    apply between_stored. exact (analyse_between e h i Hs Ha).
  - intros f a Hf. destruct (Hok f a Hf) as [_ [c [h [i [_ [Ha ->]]]]]].
    apply between_stored. exact (analyse_between e h i Hs Ha).
Qed.

Example edge_function_stores_clamped_score :
  map (fun f => (CodeFile.filename f, CodeFile.health_score f))
    (tbl_code_files
       (fst (GenerateCode.serve Scenario.edge_up Scenario.request Scenario.database)))
  = [("generated-1234.py", Some (JS.of_Z 100))].
Proof. reflexivity. Qed.

Lemma numeric_score_stored_in_range_witness :
  (forall f,
      In f (tbl_code_files
              (fst (GenerateCode.serve Scenario.edge_up Scenario.request
                      Scenario.database))) ->
      In f (tbl_code_files Scenario.database)
      \/ JS.nullable_between 60 100 (CodeFile.health_score f))
  /\ (forall f aiMessage,
         snd (GenerateCode.serve Scenario.edge_up Scenario.request
                Scenario.database)
         = GenerateCode.Success f aiMessage ->
         JS.nullable_between 60 100 (CodeFile.health_score f))
  /\ JS.between 60 100 (mock_health_score Scenario.env).
Proof.
  apply (numeric_score_stored_in_range Scenario.edge_up Scenario.request
           Scenario.database Scenario.env).
  - intros v issues H. injection H as <- _. exact I.
  - cbn. discriminate.
  - reflexivity.
Defined.

(** Where it does not: a truthy score whose conversion to a number
    is NaN passes through [Math.min] and [Math.max] as NaN, and the
    row is stored with no score at all. *)
Lemma unreadable_score_stored_as_null (e : EdgeEnv)
    (req : GenerateCode.Request) (d : Database) (v : JS.value)
    (issues : option Json) (f : CodeFile.t) (aiMessage : string) :
  analysis e = AnalysisParsed v issues ->
  JS.truthy v = true ->
  JS.ToNumber (StringToNumber e) v = JS.NaN ->
  snd (GenerateCode.serve e req d) = GenerateCode.Success f aiMessage ->
  CodeFile.health_score f = None.
Proof.
  intros Ha Ht Hn Hok.
  destruct (serve_code_files e req d) as [_ H].
  destruct (H f aiMessage Hok) as [_ [c [h [i [_ [Hh ->]]]]]].
  unfold GenerateCode.analyse in Hh. rewrite Ha in Hh. injection Hh as <- _.
  unfold GenerateCode.clamp_health, JS.or_else. rewrite Ht, Hn. reflexivity.
Qed.

Module Scenario6.

(** The completion API answers every request; the analysis reports the
    score as the text "high". *)
Definition edge_high : EdgeEnv :=
  mkEdgeEnv true (fun _ => Some Scenario.bob)
    (Ok (Some "print(1)")) (AnalysisParsed (JS.Str "high") (Some "[]"))
    (Ok (Some "Here is your file.")) (Ok (Some "Hello!"))
    (fun _ => JS.NaN) (fun _ => None)
    (fun q => match q with InsertMessage => "m-edge" | _ => "f-edge" end)
    100 "1700000001234" (fun s => s).

End Scenario6.

(** C8. The analysis answering [{"healthScore": "high", "issues": []}]:
    the score the function computes is NaN, the file is stored, and
    returned to the caller, with [health_score] null, which is not a
    number of [60, 100]. *)
Theorem C8_text_score_is_stored_as_null :
  let r := GenerateCode.serve Scenario6.edge_high Scenario.request
             Scenario.database in
  GenerateCode.clamp_health Scenario6.edge_high (JS.Str "high") = JS.NaN
  /\ map (fun f => (CodeFile.filename f, CodeFile.health_score f))
       (tbl_code_files (fst r))
     = [("generated-1234.py", None)]
  /\ (exists f aiMessage,
         snd r = GenerateCode.Success f aiMessage
         /\ CodeFile.health_score f = None
         /\ ~ JS.nullable_between 60 100 (CodeFile.health_score f)).
Proof.
  cbv zeta. split; [reflexivity|]. split; [reflexivity|].
  eexists. eexists. split; [reflexivity|]. split; [reflexivity|].
  intros H. exact H.
Qed.

(* ------------------------------------------------------------------ *)
(** ** C2 and C10: the sender's own messages *)

(** How often the record with identifier [i] occurs in a sequence. *)
Definition occurrences (i : Id) (l : list Message.t) : nat :=
  List.length (filter (fun m => String.eqb (Message.id m) i) l).

Lemma occurrences_app (i : Id) (l1 l2 : list Message.t) :
  occurrences i (l1 ++ l2) = (occurrences i l1 + occurrences i l2)%nat.
Proof. unfold occurrences. rewrite filter_app, length_app. reflexivity. Qed.

Lemma occurrences_fresh (i : Id) (l : list Message.t) :
  (forall m, In m l -> Message.id m <> i) -> occurrences i l = 0%nat.
Proof.
  unfold occurrences. induction l as [|m l IH]; cbn; intros H; [reflexivity|].
  destruct (String.eqb (Message.id m) i) eqn:E.
  - apply String.eqb_eq in E. exfalso. apply (H m); [left; reflexivity|exact E].
  - apply IH. intros m' Hm'. apply H. right. exact Hm'.
Qed.

Lemma set_same (w : World) (f : AppState -> AppState) :
  f (state w) = state w -> set f w = w.
Proof. intros H. unfold set. rewrite H. destruct w; reflexivity. Qed.

(** A change authored by the user every callback closed over is
    dropped by the message handler. *)
Lemma deliver_own_message (w : World) (m : Message.t) :
  (forall c, In c (channels w) ->
             User.id (closure_user c) = Message.user_id m) ->
  deliver (NewMessage m) w = w.
Proof.
  intros Hc. unfold deliver. apply set_same.
  generalize (state w) as s.
  induction (channels w) as [|c l IH]; intros s; cbn; [reflexivity|].
  assert (Hs : (if String.eqb (filter_session_id c) (Message.session_id m)
                then callback c (NewMessage m) s else s) = s).
  { destruct (String.eqb (filter_session_id c) (Message.session_id m));
      [|reflexivity].
    unfold callback, on_new_message.
    destruct (binding c); try reflexivity.
    rewrite (Hc c (or_introl eq_refl)), String.eqb_refl. reflexivity. }
  rewrite Hs. apply IH. intros c' Hc'. apply Hc. right. exact Hc'.
Qed.

Lemma call_chat_response_client (env : Env) (content : string)
    (cs : Session.t) (w : World) :
  let w' := call_chat_response env content cs w in
  state w' = state w /\ channels w' = channels w.
Proof.
  unfold call_chat_response.
  destruct (getSession env); [|split; reflexivity].
  destruct (invoke_failure env); split; reflexivity.
Qed.

Lemma call_chat_response_keeps (env : Env) (content : string)
    (cs : Session.t) (w : World) (m : Message.t) :
  In m (tbl_messages (db w)) ->
  In m (tbl_messages (db (call_chat_response env content cs w))).
Proof.
  intros H. unfold call_chat_response.
  destruct (getSession env); [|exact H].
  destruct (invoke_failure env); [exact H|].
  cbn [db with_db]. unfold ChatResponse.serve.
  destruct (GROQ_API_KEY (edge env)); cbn [negb ChatResponse.Authorization];
    [|exact H].
  destruct (getUser (edge env) s) as [u|]; [|exact H].
  destruct (chat_completion (edge env)); try exact H.
  destruct (edge_failure (edge env) InsertMessage); [exact H|].
  cbn. apply in_or_app. left. exact H.
Qed.

(** As long as the open channels were set up for the sender: a user
    message sent through [sendMessage] is appended once to the sender's
    sequence, taken from the row the insert returned; when the same row
    comes back on the message channel, the handler drops it, so the
    record occurs exactly once. *)
Lemma own_message_appears_once :
  forall (env : Env) (content : string) (w : World) (u : User.t) (cs : Session.t),
    user (state w) = Some u ->
    currentSession (state w) = Some cs ->
    failure env InsertMessage = None ->
    (forall c, In c (channels w) -> User.id (closure_user c) = User.id u) ->
    (forall m, In m (messages (state w)) ->
               Message.id m <> uuid env InsertMessage) ->
    let data :=
      new_message (uuid env InsertMessage) (now env) (Session.id cs)
        (User.id u) content type_user in
    let w1 := sendMessage env content type_user w in
    let w2 := deliver (NewMessage data) w1 in
    In data (tbl_messages (db w1))
    /\ messages (state w1) = (messages (state w) ++ [data])%list
    /\ state w2 = state w1
    /\ occurrences (Message.id data) (messages (state w2)) = 1%nat.
Proof.
  intros env content w u cs Hu Hcs Hf Hc Hfresh data w1 w2.
  assert (E1 : w1 = call_chat_response env content cs
                      (set (fun s => set_messages (messages s ++ [data]) s)
                         (with_db (insert_message data (db w)) w))).
  { unfold w1, sendMessage. rewrite Hu, Hcs, Hf. reflexivity. }
  assert (Hst : state w1
                = set_messages (messages (state w) ++ [data]) (state w)).
  { rewrite E1. rewrite (proj1 (call_chat_response_client _ _ _ _)).
    reflexivity. }
  assert (Hch : channels w1 = channels w).
  { rewrite E1. rewrite (proj2 (call_chat_response_client _ _ _ _)).
    reflexivity. }
  assert (Hd : w2 = w1).
  { unfold w2. apply deliver_own_message. rewrite Hch. exact Hc. }
  split; [|split; [|split]].
  - rewrite E1. apply call_chat_response_keeps. cbn.
    apply in_or_app. right. left. reflexivity.
  - rewrite Hst. reflexivity.
  - rewrite Hd. reflexivity.
  - rewrite Hd, Hst. cbn [messages set_messages].
    change (Message.id data) with (uuid env InsertMessage).
    rewrite occurrences_app, (occurrences_fresh _ _ Hfresh).
    unfold occurrences. cbn. rewrite String.eqb_refl. reflexivity.
Qed.

Lemma own_message_appears_once_witness :
  let data :=
    new_message (uuid Scenario.env InsertMessage) (now Scenario.env)
      (Session.id Scenario.public_session) (User.id Scenario.bob)
      "hello" type_user in
  let w1 := sendMessage Scenario.env "hello" type_user Scenario.joined in
  let w2 := deliver (NewMessage data) w1 in
  In data (tbl_messages (db w1))
  /\ messages (state w1) = (messages (state Scenario.joined) ++ [data])%list
  /\ state w2 = state w1
  /\ occurrences (Message.id data) (messages (state w2)) = 1%nat.
Proof.
  apply (own_message_appears_once Scenario.env "hello" Scenario.joined
           Scenario.bob Scenario.public_session).
  - vm_compute. reflexivity.
  - vm_compute. reflexivity.
  - reflexivity.
  - vm_compute. intros c [<-|[<-|[<-|[]]]]; reflexivity.
  - vm_compute. intros m [<-|[]]. discriminate.
Defined.

(** What the message handlers do with a row in general. A channel
    takes the row when it listens for messages of the row's session and
    the user its callback closed over, when the channel was opened, is
    not the author. That user need not be the one signed in now:
    [setUser] changes the user and leaves the channels as they are. *)
Definition takes_message (m : Message.t) (c : Channel) : bool :=
  match binding c with
  | INSERT_messages =>
      String.eqb (filter_session_id c) (Message.session_id m)
      && negb (String.eqb (Message.user_id m) (User.id (closure_user c)))
  | _ => false
  end.

Lemma set_messages_same (s : AppState) : set_messages (messages s) s = s.
Proof. destruct s; reflexivity. Qed.

(** Delivering a row appends one copy per channel that takes it. *)
Lemma deliver_message_copies (m : Message.t) (w : World) :
  state (deliver (NewMessage m) w)
  = set_messages
      (messages (state w)
       ++ repeat m (List.length (filter (takes_message m) (channels w))))
      (state w).
Proof.
  unfold deliver. cbn [state set]. generalize (state w) as s.
  induction (channels w) as [|c l IH]; intros s.
  - cbn. rewrite app_nil_r. symmetry. apply set_messages_same.
  - cbn [fold_left filter]. rewrite IH. clear IH.
    unfold takes_message at 2, callback, on_new_message.
    cbn [notification_session].
    destruct (binding c);
      destruct (String.eqb (filter_session_id c) (Message.session_id m));
      cbn [andb]; try reflexivity.
    destruct (negb (String.eqb (Message.user_id m) (User.id (closure_user c))));
      [|reflexivity].
    cbn [messages set_messages List.length repeat].
    rewrite <- app_assoc. reflexivity.
Qed.

Module Scenario9.

(** Bob has joined the public session; then the signed-in user changes
    to Alice ([setUser], as a change of the auth state does it) and
    nobody joins again: the three channels are still the ones opened
    for Bob. *)
Definition alice_on_bobs_channels : World :=
  set (set_user (Some Scenario.alice)) Scenario.joined.



End Scenario9.


Lemma sendMessage_ai_messages (env : Env) (content : string) (w : World) :
  messages (state (sendMessage env content type_ai w)) = messages (state w).
Proof.
  unfold sendMessage.
  destruct (user (state w)); [|reflexivity].
  destruct (currentSession (state w)); [|reflexivity].
  destruct (failure env InsertMessage); reflexivity.
Qed.

Lemma generateMockCode_messages (env : Env) (prompt : string) (w : World) :
  messages (state (useAppStore.generateMockCode env prompt w))
  = messages (state w).
Proof.
  unfold useAppStore.generateMockCode.
  destruct (currentSession (state w)); [|reflexivity].
  destruct (user (state w)); [|reflexivity].
  destruct (failure env InsertCodeFile); [reflexivity|].
  cbn [state set toast messages set_isLoading].
  rewrite sendMessage_ai_messages. reflexivity.
Qed.

Lemma redelivery_of_own_message (w : World) (m : Message.t) (k : nat) :
  (forall c, In c (channels w) ->
             User.id (closure_user c) = Message.user_id m) ->
  deliver_all (repeat (NewMessage m) k) w = w.
Proof.
  intros Hc. induction k as [|k IH]; cbn; [reflexivity|].
  rewrite (deliver_own_message w m Hc). exact IH.
Qed.

(** As long as the open channels were set up for the sender: an 'ai'
    message the local user sends through [sendMessage] (the fallback
    generator does so) is stored but never reaches the sender's own
    sequence: the optimistic append does not apply to it and every
    later delivery of the stored row is dropped; its occurrence count
    stays zero. *)
Lemma own_ai_message_never_shown :
  forall (env : Env) (content prompt : string) (w : World) (u : User.t)
         (cs : Session.t) (k : nat),
    user (state w) = Some u ->
    currentSession (state w) = Some cs ->
    failure env InsertMessage = None ->
    (forall c, In c (channels w) -> User.id (closure_user c) = User.id u) ->
    (forall m, In m (messages (state w)) ->
               Message.id m <> uuid env InsertMessage) ->
    let data :=
      new_message (uuid env InsertMessage) (now env) (Session.id cs)
        (User.id u) content type_ai in
    let w1 := sendMessage env content type_ai w in
    let w2 := deliver_all (repeat (NewMessage data) k) w1 in
    In data (tbl_messages (db w1))
    /\ state w1 = state w
    /\ state w2 = state w
    /\ occurrences (Message.id data) (messages (state w2)) = 0%nat
    /\ messages (state (useAppStore.generateMockCode env prompt w))
       = messages (state w).
Proof.
  intros env content prompt w u cs k Hu Hcs Hf Hc Hfresh data w1 w2.
  assert (E1 : w1 = with_db (insert_message data (db w)) w).
  { unfold w1, sendMessage. rewrite Hu, Hcs, Hf. reflexivity. }
  assert (E2 : w2 = w1).
  { unfold w2. apply redelivery_of_own_message. rewrite E1. exact Hc. }
  split; [|split; [|split; [|split]]].
  - rewrite E1. cbn. apply in_or_app. right. left. reflexivity.
  - rewrite E1. reflexivity.
  - rewrite E2, E1. reflexivity.
  - rewrite E2, E1. cbn [state with_db].
    apply occurrences_fresh. exact Hfresh.
  - apply generateMockCode_messages.
Qed.

Lemma own_ai_message_never_shown_witness :
  let data :=
    new_message (uuid Scenario.env InsertMessage) (now Scenario.env)
      (Session.id Scenario.public_session) (User.id Scenario.bob)
      "done" type_ai in
  let w1 := sendMessage Scenario.env "done" type_ai Scenario.joined in
  let w2 := deliver_all (repeat (NewMessage data) 2) w1 in
  In data (tbl_messages (db w1))
  /\ state w1 = state Scenario.joined
  /\ state w2 = state Scenario.joined
  /\ occurrences (Message.id data) (messages (state w2)) = 0%nat
  /\ messages (state (useAppStore.generateMockCode Scenario.env "build a todo app"
                        Scenario.joined))
     = messages (state Scenario.joined).
Proof.
  apply (own_ai_message_never_shown Scenario.env "done" "build a todo app"
           Scenario.joined Scenario.bob Scenario.public_session 2).
  - vm_compute. reflexivity.
  - vm_compute. reflexivity.
  - reflexivity.
  - vm_compute. intros c [<-|[<-|[<-|[]]]]; reflexivity.
  - vm_compute. intros m [<-|[]]. discriminate.
Defined.


(* ------------------------------------------------------------------ *)
(** ** C9: the fallback generator *)











Example upper_case_prompt (L : string -> string) :
  MockCode.filename (Mock.generateMockCode L "A MATH quiz" python)
  = "calculator.py".
Proof. vm_compute. reflexivity. Qed.

Example todo_wins_over_calculator (L : string -> string) :
  MockCode.filename
    (Mock.generateMockCode L "calculator for my tasks" javascript)
  = "TodoApp.js".
Proof. vm_compute. reflexivity. Qed.

Example no_keyword_prompt (L : string -> string) :
  MockCode.filename (Mock.generateMockCode L "draw a circle" javascript)
  = "app.js".
Proof. vm_compute. reflexivity. Qed.

(** A prompt with the Kelvin sign (U+212A, bytes E2 84 AA) in the place
    of the K of TASK: the runtime lower-cases it to "task", and the
    todo template is picked. *)
Example kelvin_sign_prompt :
  let K := String (ascii_of_nat 226)
             (String (ascii_of_nat 132) (String (ascii_of_nat 170) "")) in
  let L := fun s => if String.eqb s ("TAS" ++ K) then "task" else s in
  MockCode.filename (Mock.generateMockCode L ("TAS" ++ K) javascript)
  = "TodoApp.js".
Proof. vm_compute. reflexivity. Qed.

(** The request [generateCode] sends to the generation function. *)
Definition function_request (prompt : string) (cs : Session.t) (w : World)
    (access_token : string) : GenerateCode.Request :=
  GenerateCode.mkRequest prompt (Session.language cs)
    ("Session: " ++ Session.name cs) (Session.id cs)
    (map (fun f => (CodeFile.filename f, CodeFile.content f))
       (codeFiles (state w)))
    (Some access_token).

(** The generation function fails for the caller: there is no auth
    session to call it with, it cannot be reached, or it answers with a
    non-2xx status and [success: false]. *)
Definition generation_fails (env : Env) (prompt : string) (cs : Session.t)
    (w : World) : Prop :=
  match getSession env with
  | None => True
  | Some access_token =>
      invoke_failure env <> None
      \/ exists m, snd (GenerateCode.serve (edge env)
                          (function_request prompt cs w access_token) (db w))
                   = GenerateCode.Failure m
  end.

(** The special case in which the function has not got anywhere: no
    API key is configured, or its first completion request gets a
    non-2xx status or no answer at all. *)
Definition completion_fails (env : Env) : Prop :=
  GROQ_API_KEY (edge env) = false
  \/ match generation (edge env) with
     | NotOk _ _ | Thrown _ => True
     | Ok _ => False
     end.




Lemma completion_fails_is_a_failure (env : Env) (prompt : string)
    (cs : Session.t) (w : World) :
  completion_fails env -> generation_fails env prompt cs w.
Proof.
  unfold completion_fails, generation_fails. intros Hg.
  destruct (getSession env) as [token|]; [|exact I].
  right. unfold GenerateCode.serve.
  destruct (GROQ_API_KEY (edge env)); cbn [negb]; [|eexists; reflexivity].
  destruct (GenerateCode.Authorization _); [|eexists; reflexivity].
  destruct (getUser (edge env) _); [|eexists; reflexivity].
  destruct Hg as [Hkey|Hg]; [discriminate Hkey|].
  destruct (generation (edge env)); [| |contradiction]; eexists; reflexivity.
Qed.

Module Scenario7.

(** The generation function stores its file and then breaks off: its
    last completion request gets no answer. It answers with status 500
    and [success: false]. *)
Definition edge_breaks_off : EdgeEnv :=
  mkEdgeEnv true (fun _ => Some Scenario.bob) (Ok (Some "print(1)"))
    AnalysisNotOk (Thrown "connection reset") (Ok None) (fun _ => JS.NaN)
    (fun _ => None) (fun _ => "f-edge") 100 "1700000001234" (fun s => s).

Definition env : Env :=
  mkEnv (failure Scenario.env) (uuid Scenario.env) (now Scenario.env)
    (getSession Scenario.env) (Math_random Scenario.env) None edge_breaks_off
    (fun s => s).

End Scenario7.



Example fallback_in_scenario :
  let w' := generateCode Scenario.env "build a todo app" Scenario.joined in
  map (fun f => (CodeFile.filename f, CodeFile.health_score f))
    (tbl_code_files (db w'))
  = [("todo_app.py", Some (JS.Fin (80 # 1)))]
  /\ map (fun m => (Message.id m, Message.type m)) (tbl_messages (db w'))
     = [("m-1", type_user); ("m-new", type_ai)].
Proof. vm_compute. split; reflexivity. Qed.


(* ------------------------------------------------------------------ *)
(** ** Sorting by a timestamp *)

Section SortFacts.
Context {A : Type}.
Variable cmp : A -> A -> Z.

Lemma insert_sorted_perm (x : A) (l : list A) :
  Permutation (insert_sorted cmp x l) (x :: l).
Proof.
  induction l as [|y l IH]; cbn; [apply Permutation_refl|].
  destruct (cmp x y <=? 0); [apply Permutation_refl|].
  eapply Permutation_trans; [apply perm_skip, IH|apply perm_swap].
Qed.

Lemma sort_perm (l : list A) : Permutation (sort cmp l) l.
Proof.
  induction l as [|x l IH]; cbn; [apply perm_nil|].
  eapply Permutation_trans; [apply insert_sorted_perm|].
  apply perm_skip, IH.
Qed.

Lemma sort_In (l : list A) (x : A) : In x (sort cmp l) <-> In x l.
Proof.
  split; apply Permutation_in;
    [apply sort_perm|apply Permutation_sym, sort_perm].
Qed.

Lemma sort_NoDup_map {B : Type} (f : A -> B) (l : list A) :
  NoDup (map f l) -> NoDup (map f (sort cmp l)).
Proof.
  apply Permutation_NoDup, Permutation_map, Permutation_sym, sort_perm.
Qed.
End SortFacts.

Section SortByKey.
Context {A : Type}.
Variable key : A -> Z.

(** Most recent first. *)
Definition newer_first (a b : A) : Prop := key b <= key a.

Lemma insert_sorted_desc (x : A) (l : list A) :
  StronglySorted newer_first l ->
  StronglySorted newer_first (insert_sorted (fun a b => key b - key a) x l).
Proof.
  induction l as [|y l IH]; cbn; intros Hs.
  - constructor; constructor.
  - apply StronglySorted_inv in Hs. destruct Hs as [Hs Hy].
    destruct (key y - key x <=? 0) eqn:E.
    + apply Z.leb_le in E. constructor.
      * constructor; assumption.
      * constructor; [unfold newer_first; lia|].
        rewrite Forall_forall in *. intros z Hz.
        specialize (Hy z Hz). unfold newer_first in *. lia.
    + apply Z.leb_gt in E. constructor; [apply IH; exact Hs|].
      rewrite Forall_forall in *. intros z Hz.
      apply (Permutation_in _ (insert_sorted_perm _ x l)) in Hz.
      destruct Hz as [<-|Hz]; [unfold newer_first; lia|apply Hy, Hz].
Qed.

Lemma sort_desc (l : list A) :
  StronglySorted newer_first (sort (fun a b => key b - key a) l).
Proof.
  induction l as [|x l IH]; cbn; [constructor|].
  apply insert_sorted_desc, IH.
Qed.
End SortByKey.

Example sort_is_stable :
  sort (fun a b => snd b - snd a) [("a", 1); ("b", 3); ("c", 1); ("d", 3)]
  = [("b", 3); ("d", 3); ("a", 1); ("c", 1)].
Proof. reflexivity. Qed.

(* ------------------------------------------------------------------ *)
(** ** C6: the list of visible sessions *)

Lemma find_unique_key {A : Type} (key : A -> string) (l : list A) (x : A) (k : string) :
  NoDup (map key l) -> In x l -> key x = k ->
  find (fun y => String.eqb (key y) k) l = Some x.
Proof.
  intros Hnd Hin Hk.
  destruct (find (fun y => String.eqb (key y) k) l) as [y|] eqn:E.
  - apply find_some in E. destruct E as [Hy Hyk]. apply String.eqb_eq in Hyk.
    f_equal. apply (NoDup_map_injective key l); congruence.
  - apply (find_none _ _ E) in Hin. rewrite Hk, String.eqb_refl in Hin.
    discriminate.
Qed.

Section CombineSessions.

Lemma fold_push_keeps (ps : list (option Session.t)) (acc : list Session.t)
    (x : Session.t) :
  In x acc -> In x (fold_left push_participant_session ps acc).
Proof.
  revert acc. induction ps as [|p ps IH]; cbn; intros acc H; [exact H|].
  apply IH. unfold push_participant_session. destruct p as [s|]; [|exact H].
  destruct (find _ acc); [exact H|]. apply in_or_app. left. exact H.
Qed.

Lemma fold_push_origin (ps : list (option Session.t)) (acc : list Session.t)
    (x : Session.t) :
  In x (fold_left push_participant_session ps acc) ->
  In x acc \/ In (Some x) ps.
Proof.
  revert acc. induction ps as [|p ps IH]; cbn; intros acc H; [left; exact H|].
  apply IH in H. destruct H as [H|H]; [|right; right; exact H].
  unfold push_participant_session in H. destruct p as [s|]; [|left; exact H].
  destruct (find _ acc); [left; exact H|].
  apply in_app_or in H. destruct H as [H|[<-|[]]]; [left; exact H|].
  right. left. reflexivity.
Qed.

Lemma fold_push_listed (ps : list (option Session.t)) (acc : list Session.t)
    (x : Session.t) :
  In (Some x) ps ->
  exists y, In y (fold_left push_participant_session ps acc)
            /\ Session.id y = Session.id x.
Proof.
  revert acc. induction ps as [|p ps IH]; cbn; intros acc H; [contradiction|].
  destruct H as [->|H]; [|apply IH, H].
  cbn [push_participant_session].
  destruct (find (fun s => String.eqb (Session.id s) (Session.id x)) acc)
    as [y|] eqn:E.
  - apply find_some in E. destruct E as [Hy Hid]. apply String.eqb_eq in Hid.
    exists y. split; [apply fold_push_keeps, Hy|exact Hid].
  - exists x. split; [|reflexivity].
    apply fold_push_keeps, in_or_app. right. left. reflexivity.
Qed.

Lemma fold_push_NoDup (ps : list (option Session.t)) (acc : list Session.t) :
  NoDup (map Session.id acc) ->
  NoDup (map Session.id (fold_left push_participant_session ps acc)).
Proof.
  revert acc. induction ps as [|p ps IH]; cbn; intros acc H; [exact H|].
  apply IH. unfold push_participant_session. destruct p as [s|]; [|exact H].
  destruct (find (fun s0 => String.eqb (Session.id s0) (Session.id s)) acc)
    eqn:E; [exact H|].
  rewrite map_app. apply NoDup_app; [exact H|repeat constructor; intros []|].
  intros i Hi [<-|[]]. apply in_map_iff in Hi. destruct Hi as [y [Hy Hin]].
  apply (find_none _ _ E) in Hin. rewrite Hy, String.eqb_refl in Hin.
  discriminate.
Qed.

End CombineSessions.

(** The sessions user [uid] owns or takes part in. *)
Definition owned_or_joined (uid : Id) (d : Database) (s : Session.t) : Prop :=
  In s (tbl_sessions d)
  /\ (Session.owner_id s = uid
      \/ exists p, In p (tbl_session_participants d)
                   /\ SessionParticipant.user_id p = uid
                   /\ SessionParticipant.session_id p = Session.id s).

(** Those of them the user may view: the owned ones, and the public
    ones among those the user takes part in. *)
Definition listed_for (uid : Id) (d : Database) (s : Session.t) : Prop :=
  owned_or_joined uid d s /\ can_view_session uid s = true.

Lemma combine_sessions_origin (d : Database) (uid : Id) (s : Session.t) :
  In s (combine_sessions (select_owned_sessions d uid)
          (select_participant_sessions d uid)) ->
  listed_for uid d s.
Proof.
  unfold combine_sessions. rewrite sort_In. intros H.
  apply fold_push_origin in H. destruct H as [H|H].
  - unfold select_owned_sessions in H. rewrite sort_In in H.
    apply filter_In in H. destruct H as [Hin Ho].
    split; [|unfold can_view_session; rewrite Ho; reflexivity].
    apply String.eqb_eq in Ho. split; [exact Hin|left; exact Ho].
  - unfold select_participant_sessions in H. apply in_map_iff in H.
    destruct H as [p [Hfind Hp]]. apply find_some in Hfind.
    destruct Hfind as [Hin Hid]. apply String.eqb_eq in Hid.
    apply filter_In in Hin. destruct Hin as [Hin Hv].
    apply filter_In in Hp. destruct Hp as [Hp Hu]. apply String.eqb_eq in Hu.
    split; [|exact Hv].
    split; [exact Hin|]. right. exists p. repeat split; auto.
Qed.

Lemma combine_sessions_complete (d : Database) (uid : Id) (s : Session.t) :
  NoDup (map Session.id (tbl_sessions d)) ->
  listed_for uid d s ->
  In s (combine_sessions (select_owned_sessions d uid)
          (select_participant_sessions d uid)).
Proof.
  intros Hpk [[Hin [Ho|[p [Hp [Hu Hsid]]]]] Hv].
  - unfold combine_sessions. rewrite sort_In. apply fold_push_keeps.
    unfold select_owned_sessions. rewrite sort_In. apply filter_In.
    split; [exact Hin|]. apply String.eqb_eq. exact Ho.
  - assert (Hl : In (Some s) (select_participant_sessions d uid)).
    { unfold select_participant_sessions. apply in_map_iff. exists p. split.
      - apply (find_unique_key Session.id).
        + apply selected_keys_distinct, Hpk.
        + apply filter_In. split; assumption.
        + symmetry. exact Hsid.
      - apply filter_In. split; [exact Hp|]. apply String.eqb_eq. exact Hu. }
    destruct (fold_push_listed _ (select_owned_sessions d uid) s Hl)
      as [y [Hy Hid]].
    assert (Hy' : In y (combine_sessions (select_owned_sessions d uid)
                          (select_participant_sessions d uid))).
    { unfold combine_sessions. rewrite sort_In. exact Hy. }
    apply combine_sessions_origin in Hy'. destruct Hy' as [[Hyin _] _].
    rewrite <- (NoDup_map_injective Session.id _ y s Hpk Hyin Hin Hid).
    unfold combine_sessions. rewrite sort_In. exact Hy.
Qed.

Lemma combine_sessions_NoDup (d : Database) (uid : Id) :
  NoDup (map Session.id (tbl_sessions d)) ->
  NoDup (map Session.id
           (combine_sessions (select_owned_sessions d uid)
              (select_participant_sessions d uid))).
Proof.
  intros Hpk. unfold combine_sessions. apply sort_NoDup_map, fold_push_NoDup.
  unfold select_owned_sessions. apply sort_NoDup_map, selected_keys_distinct, Hpk.
Qed.

Module Scenario8.

(** The database of [Scenario] in which Bob takes part in Alice's
    private session and in her public one. *)
Definition database : Database :=
  with_session_participants
    (tbl_session_participants Scenario.database
     ++ [SessionParticipant.mk "p-4" "s-private" "u-bob" developer 41 41;
         SessionParticipant.mk "p-5" "s-public" "u-bob" developer 42 42])
    Scenario.database.

Definition signed_in : World :=
  set (set_user (Some Scenario.bob)) (initialWorld database).

End Scenario8.

(** C6 (counterexample). Bob is a participant of Alice's private
    session, but the policy on [sessions] does not let him view it: the
    embedded session of his participant row comes back null and
    [loadSessions] skips it. The session is among those he takes part
    in, and it is not in his list. *)
Theorem C6_private_session_of_a_participant_is_not_listed :
  let w := Scenario8.signed_in in
  let w' := loadSessions Scenario.env w in
  owned_or_joined (User.id Scenario.bob) (db w) Scenario.private_session
  /\ select_participant_sessions (db w) (User.id Scenario.bob)
     = [None; Some Scenario.public_session]
  /\ map Session.id (sessions (state w')) = ["s-public"]
  /\ error (state w') = None
  /\ ~ In Scenario.private_session (sessions (state w')).
Proof.
  cbv zeta. split; [|split; [|split; [|split]]].
  - split; [left; reflexivity|]. right. eexists. split.
    + right. right. left. reflexivity.
    + split; reflexivity.
  - reflexivity.
  - reflexivity.
  - reflexivity.
  - vm_compute. intros [H|[]]. discriminate H.
Qed.

(** C6. For a signed-in user [loadSessions] installs the sessions the
    user owns together with those the user is a participant of and may
    view (the public ones), each identifier once (also when the user is
    owner and participant of one session), most recently updated
    first; when either of the two queries fails the call ends in an
    error and the session list is the one that was there before. *)
Theorem C6_loadSessions_viewable_union_sorted :
  forall (env : Env) (w : World) (u : User.t),
    user (state w) = Some u ->
    NoDup (map Session.id (tbl_sessions (db w))) ->
    let w' := loadSessions env w in
    (failure env SelectOwnedSessions = None ->
     failure env SelectParticipantSessions = None ->
     (forall s, In s (sessions (state w'))
                <-> owned_or_joined (User.id u) (db w) s
                    /\ (Session.owner_id s = User.id u
                        \/ Session.is_public s = true))
     /\ NoDup (map Session.id (sessions (state w')))
     /\ StronglySorted (newer_first Session.updated_at) (sessions (state w'))
     /\ error (state w') = None)
    /\ (failure env SelectOwnedSessions <> None
        \/ failure env SelectParticipantSessions <> None ->
        sessions (state w') = sessions (state w)
        /\ (exists m, error (state w') = Some m)
        /\ toasts w' = (toasts w ++ [toast_error "Failed to load sessions"])%list)
    /\ db w' = db w.
Proof.
  intros env w u Hu Hpk w'. unfold w', loadSessions, query. rewrite Hu.
  cbn [db set].
  destruct (failure env SelectOwnedSessions) as [m1|] eqn:F1;
    [|destruct (failure env SelectParticipantSessions) as [m2|] eqn:F2].
  - split; [discriminate|]. split; [|reflexivity].
    intros _. cbn. split; [reflexivity|]. split; [eexists|]; reflexivity.
  - split; [discriminate|]. split; [|reflexivity].
    intros _. cbn. split; [reflexivity|]. split; [eexists|]; reflexivity.
  - split; [|split; [|reflexivity]].
    + intros _ _. cbn [state set sessions set_sessions set_isLoading error
                         set_error].
      split; [|split; [|split]].
      * intros s. split.
        -- intros H. apply combine_sessions_origin in H.
           destruct H as [H Hv]. split; [exact H|].
           unfold can_view_session in Hv. apply orb_true_iff in Hv.
           destruct Hv as [Hv|Hv]; [left; apply String.eqb_eq, Hv|right; exact Hv].
        -- intros [H Hv]. apply combine_sessions_complete; [exact Hpk|].
           split; [exact H|]. unfold can_view_session. apply orb_true_iff.
           destruct Hv as [Hv|Hv]; [left; apply String.eqb_eq, Hv|right; exact Hv].
      * apply combine_sessions_NoDup, Hpk.
      * unfold combine_sessions. apply sort_desc.
      * reflexivity.
    + intros [H|H]; exfalso; apply H; reflexivity.
Qed.

Example alice_sessions :
  map Session.id (sessions (state (loadSessions Scenario.env Scenario.alice_signed_in)))
  = ["s-private"; "s-public"].
Proof. reflexivity. Qed.

Lemma C6_loadSessions_viewable_union_sorted_witness :
  let w := Scenario.alice_signed_in in
  let w' := loadSessions Scenario.env w in
  (failure Scenario.env SelectOwnedSessions = None ->
   failure Scenario.env SelectParticipantSessions = None ->
   (forall s, In s (sessions (state w'))
              <-> owned_or_joined (User.id Scenario.alice) (db w) s
                  /\ (Session.owner_id s = User.id Scenario.alice
                      \/ Session.is_public s = true))
   /\ NoDup (map Session.id (sessions (state w')))
   /\ StronglySorted (newer_first Session.updated_at) (sessions (state w'))
   /\ error (state w') = None)
  /\ (failure Scenario.env SelectOwnedSessions <> None
      \/ failure Scenario.env SelectParticipantSessions <> None ->
      sessions (state w') = sessions (state w)
      /\ (exists m, error (state w') = Some m)
      /\ toasts w' = (toasts w ++ [toast_error "Failed to load sessions"])%list)
  /\ db w' = db w.
Proof.
  apply (C6_loadSessions_viewable_union_sorted Scenario.env
           Scenario.alice_signed_in Scenario.alice).
  - reflexivity.
  - cbn. repeat constructor; cbn; intuition discriminate.
Defined.

(* ------------------------------------------------------------------ *)
(** ** The course of a join *)

Lemma cleanupSubscriptions_client (w : World) :
  state (cleanupSubscriptions w) = state w
  /\ db (cleanupSubscriptions w) = db w
  /\ toasts (cleanupSubscriptions w) = toasts w.
Proof.
  unfold cleanupSubscriptions.
  destruct (supabaseSubscriptions w); repeat split; reflexivity.
Qed.

Lemma setupRealtimeSubscriptions_client (w : World) :
  state (setupRealtimeSubscriptions w) = state w
  /\ db (setupRealtimeSubscriptions w) = db w
  /\ toasts (setupRealtimeSubscriptions w) = toasts w.
Proof.
  unfold setupRealtimeSubscriptions.
  destruct (currentSession (state w)); [|repeat split; reflexivity].
  destruct (user (state w)); [|repeat split; reflexivity].
  cbn [state db toasts]. apply cleanupSubscriptions_client.
Qed.

(** The database a join leaves: the participant upsert for a user who
    is not the owner, when it goes through. *)
Definition join_db (env : Env) (sessionId : Id) (u : User.t)
    (session : Session.t) (d : Database) : Database :=
  if negb (String.eqb (Session.owner_id session) (User.id u)) then
    match failure env UpsertParticipant with
    | Some _ => d
    | None =>
        upsert_participant (uuid env UpsertParticipant) (now env)
          sessionId (User.id u) developer d
    end
  else d.

(** The fields a successful join writes from the database [d]. *)
Definition installing (env : Env) (sessionId : Id) (session : Session.t)
    (d : Database) (s : AppState) : AppState :=
  set_error None
    (set_isLoading false
       (set_sessionParticipants
          (or_empty (query env SelectParticipants (select_participants d sessionId)))
          (set_codeFiles
             (or_empty (query env SelectCodeFiles (select_code_files d sessionId)))
             (set_messages
                (or_empty (query env SelectMessages (select_messages d sessionId)))
                (set_currentSession (Some session) s))))).

(** Whether the access check of [joinSession] lets the user through. *)
Definition admitted (env : Env) (sessionId : Id) (u : User.t)
    (session : Session.t) (d : Database) : bool :=
  String.eqb (Session.owner_id session) (User.id u)
  || Session.is_public session
  || match data_or_null
             (single (query env SelectParticipant
                        (select_participant d sessionId (User.id u)))) with
     | Some _ => true
     | None => false
     end.

Lemma access_check (env : Env) (sessionId : Id) (u : User.t)
    (session : Session.t) (d : Database) :
  negb (String.eqb (Session.owner_id session) (User.id u)
        || Session.is_public session)
  && match data_or_null
             (single (query env SelectParticipant
                        (select_participant d sessionId (User.id u)))) with
     | None => true
     | Some _ => false
     end
  = negb (admitted env sessionId u session d).
Proof.
  unfold admitted.
  destruct (String.eqb (Session.owner_id session) (User.id u));
    destruct (Session.is_public session);
    destruct (data_or_null _); reflexivity.
Qed.

(** The world a join that got through the access check ends in:
    detach, install, attach, in this order. *)
Definition entered (env : Env) (sessionId : Id) (u : User.t)
    (session : Session.t) (w : World) : World :=
  toast (toast_success ("Joined session: " ++ Session.name session))
    (setupRealtimeSubscriptions
       (set (installing env sessionId session
               (join_db env sessionId u session (db w)))
          (cleanupSubscriptions
             (with_db (join_db env sessionId u session (db w))
                (set (fun s => set_error None (set_isLoading true s)) w))))).

(** A join by a signed-in user either fails, touching neither the
    database nor the channels, or ends in [entered]. *)
Lemma joinSession_shape (env : Env) (sessionId : Id) (w : World) (u : User.t) :
  user (state w) = Some u ->
  (exists m,
      joinSession env sessionId w
      = joinSession_failed m
          (set (fun s => set_error None (set_isLoading true s)) w))
  \/ (exists session,
         single (query env SelectSession
                   (select_session (db w) (User.id u) sessionId))
         = Data session
         /\ admitted env sessionId u session (db w) = true
         /\ joinSession env sessionId w = entered env sessionId u session w).
Proof.
  intros Hu. unfold joinSession. rewrite Hu. cbv zeta.
  change (db (set (fun s => set_error None (set_isLoading true s)) w))
    with (db w).
  destruct (single (query env SelectSession
                      (select_session (db w) (User.id u) sessionId)))
    as [session|m] eqn:Hs; [|left; eexists; reflexivity].
  rewrite access_check.
  destruct (admitted env sessionId u session (db w)) eqn:Hadm; cbn [negb].
  - right. exists session. split; [reflexivity|]. split; [exact Hadm|].
    reflexivity.
  - left. eexists. reflexivity.
Qed.

(** And it ends in [entered] whenever the session is found and the
    access check passes. *)
Lemma joinSession_enters (env : Env) (sessionId : Id) (w : World)
    (u : User.t) (session : Session.t) :
  user (state w) = Some u ->
  single (query env SelectSession
            (select_session (db w) (User.id u) sessionId))
  = Data session ->
  admitted env sessionId u session (db w) = true ->
  joinSession env sessionId w = entered env sessionId u session w.
Proof.
  intros Hu Hs Hadm. unfold joinSession. rewrite Hu. cbv zeta.
  change (db (set (fun s => set_error None (set_isLoading true s)) w))
    with (db w).
  rewrite Hs, access_check, Hadm. reflexivity.
Qed.

Lemma joinSession_failed_client (m : string) (w : World) :
  let w' :=
    joinSession_failed m
      (set (fun s => set_error None (set_isLoading true s)) w) in
  error (state w') = Some m
  /\ db w' = db w
  /\ view_of (state w') = view_of (state w)
  /\ channels w' = channels w
  /\ supabaseSubscriptions w' = supabaseSubscriptions w
  /\ next_ref w' = next_ref w.
Proof. repeat split. Qed.

Lemma attach_after_install_client (F : AppState -> AppState) (D : Database)
    (t : Toast) (w : World) :
  let w' :=
    toast t
      (setupRealtimeSubscriptions
         (set F (cleanupSubscriptions (with_db D w)))) in
  db w' = D /\ state w' = F (state w).
Proof.
  cbv zeta. cbn [db state toast].
  rewrite (proj1 (proj2 (setupRealtimeSubscriptions_client _))).
  rewrite (proj1 (setupRealtimeSubscriptions_client _)).
  cbn [db state set].
  rewrite (proj1 (proj2 (cleanupSubscriptions_client _))).
  rewrite (proj1 (cleanupSubscriptions_client _)).
  split; reflexivity.
Qed.

Lemma entered_client (env : Env) (sessionId : Id) (u : User.t)
    (session : Session.t) (w : World) :
  let w' := entered env sessionId u session w in
  db w' = join_db env sessionId u session (db w)
  /\ state w'
     = installing env sessionId session
         (join_db env sessionId u session (db w))
         (set_error None (set_isLoading true (state w))).
Proof. unfold entered. apply attach_after_install_client. Qed.

(* ------------------------------------------------------------------ *)
(** ** C3: joining twice *)

Lemma set_role_same_pair (sid uid : Id) (r : Role) (p : SessionParticipant.t) :
  same_pair sid uid (set_role r p) = same_pair sid uid p.
Proof. reflexivity. Qed.

Lemma set_role_same (p : SessionParticipant.t) :
  set_role (SessionParticipant.role p) p = p.
Proof. destruct p; reflexivity. Qed.

Lemma filter_map_length {A : Type} (q : A -> bool) (g : A -> A) (l : list A) :
  (forall x, q (g x) = q x) ->
  List.length (filter q (map g l)) = List.length (filter q l).
Proof.
  intros H. induction l as [|x l IH]; cbn; [reflexivity|].
  rewrite H. destruct (q x); cbn; rewrite IH; reflexivity.
Qed.

Lemma existsb_false_filter {A : Type} (q : A -> bool) (l : list A) :
  existsb q l = false -> filter q l = [].
Proof.
  induction l as [|x l IH]; cbn; [reflexivity|].
  destruct (q x); cbn; [discriminate|exact IH].
Qed.

Lemma existsb_true_filter {A : Type} (q : A -> bool) (l : list A) :
  existsb q l = true -> filter q l <> [].
Proof.
  induction l as [|x l IH]; cbn; [discriminate|].
  destruct (q x); cbn; [discriminate|exact IH].
Qed.

Lemma same_pair_eq (sid uid sid' uid' : Id) (p : SessionParticipant.t) :
  same_pair sid uid p = true -> same_pair sid' uid' p = true ->
  sid' = sid /\ uid' = uid.
Proof.
  unfold same_pair. rewrite !andb_true_iff, !String.eqb_eq.
  intros [H1 H2] [H3 H4]. split; congruence.
Qed.

(** The upsert respects the key of the table. *)
Lemma upsert_participant_constraints (i : Id) (t : Timestamp) (sid uid : Id)
    (r : Role) (d : Database) :
  constraints d -> constraints (upsert_participant i t sid uid r d).
Proof.
  intros [Hpk Hun]. unfold upsert_participant.
  destruct (existsb (same_pair sid uid) (tbl_session_participants d)) eqn:E;
    split; cbn; try exact Hpk; intros sid' uid'; unfold rows_for; cbn.
  - rewrite filter_map_length; [apply Hun|].
    intros p. destruct (same_pair sid uid p); reflexivity.
  - rewrite filter_app, length_app. cbn.
    destruct (same_pair sid' uid' (SessionParticipant.mk i sid uid r t t)) eqn:E';
      cbn.
    + apply (same_pair_eq sid' uid' sid uid) in E'.
      * destruct E' as [-> ->]. rewrite (existsb_false_filter _ _ E). cbn. lia.
      * unfold same_pair. cbn. rewrite !String.eqb_refl. reflexivity.
    + specialize (Hun sid' uid'). unfold rows_for in Hun. lia.
Qed.

(** After the upsert the pair has a row, and its rows carry the role. *)
Lemma upsert_participant_present (i : Id) (t : Timestamp) (sid uid : Id)
    (r : Role) (d : Database) :
  let d' := upsert_participant i t sid uid r d in
  existsb (same_pair sid uid) (tbl_session_participants d') = true
  /\ (forall p, In p (tbl_session_participants d') ->
                same_pair sid uid p = true -> SessionParticipant.role p = r)
  /\ tbl_sessions d' = tbl_sessions d
  /\ tbl_messages d' = tbl_messages d
  /\ tbl_code_files d' = tbl_code_files d.
Proof.
  unfold upsert_participant.
  destruct (existsb (same_pair sid uid) (tbl_session_participants d)) eqn:E;
    cbn; (split; [|split; [|repeat split]]).
  - apply existsb_exists in E. destruct E as [p [Hin Hp]].
    apply existsb_exists. exists (set_role r p). split.
    + apply in_map_iff. exists p. rewrite Hp. split; [reflexivity|exact Hin].
    + exact Hp.
  - intros p Hin Hp. apply in_map_iff in Hin. destruct Hin as [p0 [<- Hin]].
    destruct (same_pair sid uid p0) eqn:E0; [reflexivity|congruence].
  - rewrite existsb_app. cbn. unfold same_pair at 2. cbn.
    rewrite !String.eqb_refl. cbn. apply orb_true_r.
  - intros p Hin Hp. apply in_app_or in Hin. destruct Hin as [Hin|[<-|[]]].
    + exfalso. assert (Hex : existsb (same_pair sid uid)
                               (tbl_session_participants d) = true).
      { apply existsb_exists. exists p. split; assumption. }
      congruence.
    + reflexivity.
Qed.

Lemma map_same {A : Type} (g : A -> A) (l : list A) :
  (forall x, In x l -> g x = x) -> map g l = l.
Proof.
  induction l as [|x l IH]; cbn; intros H; [reflexivity|].
  rewrite H by (left; reflexivity). f_equal. apply IH.
  intros y Hy. apply H. right. exact Hy.
Qed.

(** Upserting the same pair with the same role again changes nothing. *)
Lemma upsert_participant_idempotent (i1 i2 : Id) (t1 t2 : Timestamp)
    (sid uid : Id) (r : Role) (d : Database) :
  upsert_participant i2 t2 sid uid r (upsert_participant i1 t1 sid uid r d)
  = upsert_participant i1 t1 sid uid r d.
Proof.
  destruct (upsert_participant_present i1 t1 sid uid r d) as [Hex [Hrole _]].
  set (d' := upsert_participant i1 t1 sid uid r d) in *.
  unfold upsert_participant at 1. rewrite Hex.
  rewrite map_same.
  - destruct d'; reflexivity.
  - intros p Hin. destruct (same_pair sid uid p) eqn:E; [|reflexivity].
    rewrite <- (Hrole p Hin E). apply set_role_same.
Qed.

Lemma join_db_constraints (env : Env) (sid : Id) (u : User.t) (s : Session.t)
    (d : Database) :
  constraints d -> constraints (join_db env sid u s d).
Proof.
  intros H. unfold join_db.
  destruct (negb (String.eqb (Session.owner_id s) (User.id u))); [|exact H].
  destruct (failure env UpsertParticipant); [exact H|].
  apply upsert_participant_constraints, H.
Qed.

(** A join keeps the keys of the tables, whatever fails on the way. *)
Lemma joinSession_constraints (env : Env) (sid : Id) (w : World) :
  constraints (db w) -> constraints (db (joinSession env sid w)).
Proof.
  intros H. destruct (user (state w)) as [u|] eqn:Hu.
  - destruct (joinSession_shape env sid w u Hu) as [[m ->]|[s [_ [_ ->]]]].
    + exact H.
    + rewrite (proj1 (entered_client env sid u s w)).
      apply join_db_constraints, H.
  - unfold joinSession. rewrite Hu. exact H.
Qed.

Lemma join_db_sessions (env : Env) (sid : Id) (u : User.t) (s : Session.t)
    (d : Database) :
  tbl_sessions (join_db env sid u s d) = tbl_sessions d.
Proof.
  unfold join_db.
  destruct (negb (String.eqb (Session.owner_id s) (User.id u))); [|reflexivity].
  destruct (failure env UpsertParticipant); [reflexivity|].
  apply upsert_participant_present.
Qed.

(** Once a user who is not the owner has joined, the pair has exactly
    one row. *)
Lemma join_db_one_row (env : Env) (sid : Id) (u : User.t) (s : Session.t)
    (d : Database) :
  constraints d ->
  failure env UpsertParticipant = None ->
  String.eqb (Session.owner_id s) (User.id u) = false ->
  exists p, rows_for sid (User.id u) (join_db env sid u s d) = [p].
Proof.
  intros Hc Hf Ho.
  pose proof (participants_unique _ (join_db_constraints env sid u s d Hc)
                sid (User.id u)) as Hle.
  unfold join_db in *. rewrite Ho, Hf in *. cbn [negb] in *.
  destruct (upsert_participant_present (uuid env UpsertParticipant) (now env)
              sid (User.id u) developer d) as [Hex _].
  apply existsb_true_filter in Hex. unfold rows_for in *.
  destruct (filter (same_pair sid (User.id u))
              (tbl_session_participants
                 (upsert_participant (uuid env UpsertParticipant) (now env)
                    sid (User.id u) developer d))) as [|p [|p' l]].
  - contradiction.
  - exists p. reflexivity.
  - cbn in Hle. lia.
Qed.

Lemma join_db_idempotent (env1 env2 : Env) (sid : Id) (u : User.t)
    (s : Session.t) (d : Database) :
  failure env1 UpsertParticipant = None ->
  join_db env2 sid u s (join_db env1 sid u s d) = join_db env1 sid u s d.
Proof.
  intros Hf. unfold join_db.
  destruct (negb (String.eqb (Session.owner_id s) (User.id u))); [|reflexivity].
  rewrite Hf. destruct (failure env2 UpsertParticipant); [reflexivity|].
  apply upsert_participant_idempotent.
Qed.

Lemma installing_fields (env : Env) (sid : Id) (s : Session.t) (d : Database)
    (st : AppState) :
  user (installing env sid s d st) = user st
  /\ error (installing env sid s d st) = None
  /\ currentSession (installing env sid s d st) = Some s
  /\ view_of (installing env sid s d st)
     = mkSessionView (Some s)
         (or_empty (query env SelectMessages (select_messages d sid)))
         (or_empty (query env SelectCodeFiles (select_code_files d sid)))
         (or_empty (query env SelectParticipants (select_participants d sid))).
Proof. repeat split. Qed.

Lemma query_ok {A : Type} (env : Env) (q : Query) (rows : A) :
  failure env q = None -> query env q rows = Data rows.
Proof. intros H. unfold query. rewrite H. reflexivity. Qed.

(** C3. Joining a session twice in a row with the same user: whatever
    fails on the way, the pair (session, user) has at most one
    participant row afterwards, given the table's unique key held
    before; and when no query fails and the first join succeeds, the
    second join succeeds too, installs the same session view (session,
    messages, code files, participants) and leaves the database as the
    first join left it, with exactly one row for a user who is not the
    owner. *)
Theorem C3_join_twice_is_idempotent :
  forall (env1 env2 : Env) (sessionId : Id) (w : World) (u : User.t),
    user (state w) = Some u ->
    constraints (db w) ->
    let w1 := joinSession env1 sessionId w in
    let w2 := joinSession env2 sessionId w1 in
    (List.length (rows_for sessionId (User.id u) (db w2)) <= 1)%nat
    /\ ((forall q, failure env1 q = None) ->
        (forall q, failure env2 q = None) ->
        error (state w1) = None ->
        view_of (state w2) = view_of (state w1)
        /\ error (state w2) = None
        /\ db w2 = db w1
        /\ (forall s, currentSession (state w1) = Some s ->
                      Session.owner_id s <> User.id u ->
                      List.length (rows_for sessionId (User.id u) (db w2)) = 1%nat)).
Proof.
  intros env1 env2 sid w u Hu Hc w1 w2. split.
  - apply participants_unique.
    unfold w2, w1. apply joinSession_constraints, joinSession_constraints, Hc.
  - intros F1 F2 Hok.
    destruct (joinSession_shape env1 sid w u Hu) as [[m E1]|[s [Hs [Hadm E1]]]].
    + exfalso. unfold w1 in Hok. rewrite E1 in Hok. discriminate Hok.
    + destruct (entered_client env1 sid u s w) as [Hdb Hst].
      rewrite <- E1 in Hdb, Hst. fold w1 in Hdb, Hst.
      set (d1 := join_db env1 sid u s (db w)) in *.
      destruct (installing_fields env1 sid s d1
                  (set_error None (set_isLoading true (state w))))
        as [Iu [_ [Ics Iv]]].
      assert (Hu1 : user (state w1) = Some u).
      { rewrite Hst, Iu. exact Hu. }
      assert (Hs2 : single (query env2 SelectSession
                              (select_session (db w1) (User.id u) sid))
                    = Data s).
      { rewrite (query_ok env2 _ _ (F2 _)).
        rewrite (query_ok env1 _ _ (F1 _)) in Hs.
        rewrite Hdb. unfold select_session in *. unfold d1.
        rewrite join_db_sessions. exact Hs. }
      assert (Hadm2 : admitted env2 sid u s (db w1) = true).
      { unfold admitted.
        destruct (String.eqb (Session.owner_id s) (User.id u)) eqn:Ho;
          [reflexivity|].
        destruct (Session.is_public s); [reflexivity|]. cbn [orb].
        destruct (join_db_one_row env1 sid u s (db w) Hc (F1 _) Ho) as [p Hp].
        rewrite (query_ok env2 _ _ (F2 _)). unfold select_participant.
        rewrite Hdb. unfold d1. rewrite Hp. reflexivity. }
      pose proof (joinSession_enters env2 sid w1 u s Hu1 Hs2 Hadm2) as E2.
      fold w2 in E2.
      destruct (entered_client env2 sid u s w1) as [Hdb2 Hst2].
      rewrite <- E2 in Hdb2, Hst2. rewrite Hdb in Hdb2, Hst2.
      unfold d1 in Hdb2, Hst2.
      rewrite (join_db_idempotent env1 env2 sid u s (db w) (F1 _)) in Hdb2, Hst2.
      fold d1 in Hdb2, Hst2.
      destruct (installing_fields env2 sid s d1
                  (set_error None (set_isLoading true (state w1))))
        as [_ [Ie2 [_ Iv2]]].
      split; [|split; [|split]].
      * rewrite Hst2, Iv2, Hst, Iv.
        rewrite !(query_ok env1 _ _ (F1 _)), !(query_ok env2 _ _ (F2 _)).
        reflexivity.
      * rewrite Hst2. exact Ie2.
      * rewrite Hdb2, Hdb. reflexivity.
      * intros s' Hcur Hown. rewrite Hst, Ics in Hcur.
        injection Hcur as <-. apply String.eqb_neq in Hown.
        destruct (join_db_one_row env1 sid u s (db w) Hc (F1 _) Hown) as [p Hp].
        rewrite Hdb2. unfold d1. rewrite Hp. reflexivity.
Qed.

Definition pair_of (p : SessionParticipant.t) : Id * Id :=
  (SessionParticipant.session_id p, SessionParticipant.user_id p).

Lemma same_pair_pair_of (sid uid : Id) (p : SessionParticipant.t) :
  same_pair sid uid p = true <-> pair_of p = (sid, uid).
Proof.
  unfold same_pair, pair_of. rewrite andb_true_iff, !String.eqb_eq. split.
  - intros [-> ->]. reflexivity.
  - intros H. injection H as -> ->. split; reflexivity.
Qed.

(** A table without two rows for one pair satisfies the unique key. *)
Lemma unique_pairs (l : list SessionParticipant.t) (sid uid : Id) :
  NoDup (map pair_of l) ->
  (List.length (filter (same_pair sid uid) l) <= 1)%nat.
Proof.
  induction l as [|p l IH]; cbn; intros Hnd; [lia|].
  inversion Hnd as [|? ? Hnotin Hnd']; subst.
  destruct (same_pair sid uid p) eqn:E; [|apply IH, Hnd'].
  apply same_pair_pair_of in E. cbn.
  destruct (filter (same_pair sid uid) l) as [|q l'] eqn:Hf; [cbn; lia|].
  exfalso. apply Hnotin. rewrite E.
  assert (Hq : In q (filter (same_pair sid uid) l)) by (rewrite Hf; left; reflexivity).
  apply filter_In in Hq. destruct Hq as [Hq Hsp].
  apply same_pair_pair_of in Hsp. rewrite <- Hsp. apply in_map, Hq.
Qed.

Lemma scenario_constraints : constraints Scenario.database.
Proof.
  split.
  - cbn. repeat constructor; cbn; intuition discriminate.
  - intros sid uid. apply unique_pairs.
    cbn. repeat constructor; cbn; intuition discriminate.
Qed.

Example bob_joins_twice :
  let w1 := Scenario.joined in
  let w2 := joinSession Scenario.env2 "s-public" w1 in
  state w2 = state w1 /\ db w2 = db w1
  /\ map SessionParticipant.id (rows_for "s-public" "u-bob" (db w2)) = ["p-new"].
Proof. vm_compute. repeat split; reflexivity. Qed.

Lemma C3_join_twice_is_idempotent_witness :
  let w1 := joinSession Scenario.env "s-public" Scenario.signed_in in
  let w2 := joinSession Scenario.env2 "s-public" w1 in
  (List.length (rows_for "s-public" (User.id Scenario.bob) (db w2)) <= 1)%nat
  /\ ((forall q, failure Scenario.env q = None) ->
      (forall q, failure Scenario.env2 q = None) ->
      error (state w1) = None ->
      view_of (state w2) = view_of (state w1)
      /\ error (state w2) = None
      /\ db w2 = db w1
      /\ (forall s, currentSession (state w1) = Some s ->
                    Session.owner_id s <> User.id Scenario.bob ->
                    List.length (rows_for "s-public" (User.id Scenario.bob) (db w2))
                    = 1%nat)).
Proof.
  apply (C3_join_twice_is_idempotent Scenario.env Scenario.env2 "s-public"
           Scenario.signed_in Scenario.bob).
  - reflexivity.
  - exact scenario_constraints.
Defined.

(* ------------------------------------------------------------------ *)
(** ** C5: one set of channels, for the active session *)

(** Every channel open on the client is recorded in
    [window.supabaseSubscriptions]. *)
Definition tracked (w : World) : Prop :=
  forall c, In c (channels w) ->
    exists subs, supabaseSubscriptions w = Some subs /\ In (ref c) (map ref subs).

(** [w'] has the channels, the counter and the recorded subscriptions of [w]. *)
Definition same_realtime (w w' : World) : Prop :=
  channels w' = channels w
  /\ supabaseSubscriptions w' = supabaseSubscriptions w
  /\ next_ref w' = next_ref w.

Lemma same_realtime_refl (w : World) : same_realtime w w.
Proof. repeat split. Qed.

Lemma same_realtime_trans (w1 w2 w3 : World) :
  same_realtime w1 w2 -> same_realtime w2 w3 -> same_realtime w1 w3.
Proof.
  unfold same_realtime. intros [A [B C]] [A' [B' C']]. repeat split; congruence.
Qed.

Lemma tracked_same_realtime (w w' : World) :
  same_realtime w w' -> tracked w -> tracked w'.
Proof.
  unfold same_realtime, tracked. intros [A [B _]] H c Hc.
  rewrite A in Hc. rewrite B. apply H, Hc.
Qed.

Lemma In_fold_removeChannel (subs open : list Channel) (c : Channel) :
  In c (fold_left (fun open c => removeChannel c open) subs open)
  <-> In c open /\ ~ In (ref c) (map ref subs).
Proof.
  revert open. induction subs as [|s subs IH]; intros open; cbn.
  - tauto.
  - rewrite IH. unfold removeChannel. rewrite filter_In, negb_true_iff.
    rewrite Nat.eqb_neq. split.
    + intros [[Hin Hne] Hn]. split; [exact Hin|]. intros [E|E]; auto.
    + intros [Hin Hn]. repeat split; auto.
Qed.

(** Detaching leaves no channel open. *)
Lemma cleanupSubscriptions_detaches (w : World) :
  tracked w -> channels (cleanupSubscriptions w) = [].
Proof.
  intros Ht. apply no_element. intros c Hc.
  unfold cleanupSubscriptions in Hc.
  destruct (supabaseSubscriptions w) as [subs|] eqn:E.
  - cbn in Hc. apply In_fold_removeChannel in Hc. destruct Hc as [Hin Hn].
    destruct (Ht c Hin) as [subs' [E' Hr]]. rewrite E in E'.
    injection E' as <-. contradiction.
  - destruct (Ht c Hc) as [subs' [E' _]]. congruence.
Qed.

Lemma cleanupSubscriptions_tracked (w : World) :
  tracked w -> tracked (cleanupSubscriptions w).
Proof.
  intros Ht c Hc. rewrite (cleanupSubscriptions_detaches w Ht) in Hc.
  contradiction.
Qed.

(** Attaching after that leaves exactly the three channels of the
    current session. *)
Lemma setupRealtimeSubscriptions_attaches (w : World) (cs : Session.t)
    (u : User.t) :
  tracked w ->
  currentSession (state w) = Some cs ->
  user (state w) = Some u ->
  let w' := setupRealtimeSubscriptions w in
  subscribed_to (Session.id cs) w'
  /\ supabaseSubscriptions w' = Some (channels w')
  /\ (forall c, In c (channels w') -> closure_user c = u).
Proof.
  intros Ht Hcs Hu. unfold setupRealtimeSubscriptions, subscribed_to.
  rewrite Hcs, Hu. cbn [channels supabaseSubscriptions].
  rewrite (cleanupSubscriptions_detaches w Ht). cbn.
  repeat split. intros c [<-|[<-|[<-|[]]]]; reflexivity.
Qed.

Lemma setupRealtimeSubscriptions_tracked (w : World) :
  tracked w -> tracked (setupRealtimeSubscriptions w).
Proof.
  intros Ht.
  destruct (currentSession (state w)) as [cs|] eqn:Hcs;
    [destruct (user (state w)) as [u|] eqn:Hu|].
  - destruct (setupRealtimeSubscriptions_attaches w cs u Ht Hcs Hu)
      as [_ [Hs _]].
    intros c Hc. eexists. split; [exact Hs|]. apply in_map, Hc.
  - unfold setupRealtimeSubscriptions. rewrite Hcs, Hu. exact Ht.
  - unfold setupRealtimeSubscriptions. rewrite Hcs. exact Ht.
Qed.

(** Detach, install, attach: what is open afterwards. *)
Lemma attach_after_install_tracked (F : AppState -> AppState) (D : Database)
    (t : Toast) (w : World) :
  tracked w ->
  tracked (toast t
             (setupRealtimeSubscriptions
                (set F (cleanupSubscriptions (with_db D w))))).
Proof.
  intros Ht.
  apply (tracked_same_realtime
           (setupRealtimeSubscriptions
              (set F (cleanupSubscriptions (with_db D w)))));
    [repeat split|].
  apply setupRealtimeSubscriptions_tracked.
  apply (tracked_same_realtime (cleanupSubscriptions (with_db D w)));
    [repeat split|].
  apply cleanupSubscriptions_tracked.
  apply (tracked_same_realtime w); [repeat split|exact Ht].
Qed.

Lemma attach_after_install_channels (F : AppState -> AppState) (D : Database)
    (t : Toast) (w : World) (cs : Session.t) (u : User.t) :
  tracked w ->
  currentSession (F (state w)) = Some cs ->
  user (F (state w)) = Some u ->
  let w' :=
    toast t
      (setupRealtimeSubscriptions
         (set F (cleanupSubscriptions (with_db D w)))) in
  subscribed_to (Session.id cs) w'
  /\ (forall c, In c (channels w') -> closure_user c = u).
Proof.
  intros Ht Hcs Hu.
  set (w3 := set F (cleanupSubscriptions (with_db D w))).
  assert (Ht3 : tracked w3).
  { apply (tracked_same_realtime (cleanupSubscriptions (with_db D w)));
      [repeat split|].
    apply cleanupSubscriptions_tracked.
    apply (tracked_same_realtime w); [repeat split|exact Ht]. }
  assert (Hst3 : state w3 = F (state w)).
  { unfold w3. cbn [state set].
    rewrite (proj1 (cleanupSubscriptions_client _)). reflexivity. }
  rewrite <- Hst3 in Hcs, Hu.
  destruct (setupRealtimeSubscriptions_attaches w3 cs u Ht3 Hcs Hu)
    as [Hsub [_ Hcl]].
  split; [exact Hsub|exact Hcl].
Qed.

Lemma set_realtime (f : AppState -> AppState) (w : World) :
  same_realtime w (set f w).
Proof. repeat split. Qed.

Lemma toast_realtime (t : Toast) (w : World) : same_realtime w (toast t w).
Proof. repeat split. Qed.

Lemma with_db_realtime (d : Database) (w : World) :
  same_realtime w (with_db d w).
Proof. repeat split. Qed.

Ltac realtime_step lemma :=
  eapply same_realtime_trans; [|apply lemma].

Lemma call_chat_response_realtime (env : Env) (content : string)
    (cs : Session.t) (w : World) :
  same_realtime w (call_chat_response env content cs w).
Proof.
  unfold call_chat_response.
  destruct (getSession env); [|apply same_realtime_refl].
  destruct (invoke_failure env);
    [apply same_realtime_refl|apply with_db_realtime].
Qed.

Lemma sendMessage_realtime (env : Env) (content : string) (type : MessageType)
    (w : World) :
  same_realtime w (sendMessage env content type w).
Proof.
  unfold sendMessage.
  destruct (user (state w)); [|apply toast_realtime].
  destruct (currentSession (state w)); [|apply toast_realtime].
  destruct (failure env InsertMessage).
  - realtime_step toast_realtime. apply set_realtime.
  - destruct (MessageType_eqb type type_user).
    + realtime_step call_chat_response_realtime.
      realtime_step set_realtime. apply with_db_realtime.
    + apply with_db_realtime.
Qed.

Lemma generateMockCode_realtime (env : Env) (prompt : string) (w : World) :
  same_realtime w (useAppStore.generateMockCode env prompt w).
Proof.
  unfold useAppStore.generateMockCode.
  destruct (currentSession (state w)); [|apply same_realtime_refl].
  destruct (user (state w)); [|apply same_realtime_refl].
  realtime_step set_realtime.
  destruct (failure env InsertCodeFile).
  - realtime_step toast_realtime. realtime_step set_realtime.
    apply set_realtime.
  - realtime_step toast_realtime. realtime_step sendMessage_realtime.
    realtime_step with_db_realtime. apply set_realtime.
Qed.

Lemma invoke_generate_code_realtime (env : Env) (prompt : string)
    (cs : Session.t) (w : World) :
  same_realtime w (fst (invoke_generate_code env prompt cs w)).
Proof.
  unfold invoke_generate_code.
  destruct (getSession env); [|apply same_realtime_refl].
  destruct (invoke_failure env); [apply same_realtime_refl|].
  destruct (GenerateCode.serve _ _ _) as [d [f a|e]]; cbn [fst].
  - realtime_step toast_realtime. apply with_db_realtime.
  - apply with_db_realtime.
Qed.

Lemma generateCode_realtime (env : Env) (prompt : string) (w : World) :
  same_realtime w (generateCode env prompt w).
Proof.
  unfold generateCode.
  destruct (currentSession (state w)) as [cs|]; [|apply toast_realtime].
  destruct (user (state w)); [|apply toast_realtime].
  realtime_step set_realtime.
  pose proof (invoke_generate_code_realtime env prompt cs
                (set (set_isLoading true) w)) as H.
  destruct (invoke_generate_code env prompt cs (set (set_isLoading true) w))
    as [w2 [m|]]; cbn [fst] in H.
  - realtime_step generateMockCode_realtime. realtime_step set_realtime.
    eapply same_realtime_trans; [apply set_realtime|exact H].
  - eapply same_realtime_trans; [apply set_realtime|exact H].
Qed.

Lemma loadSessions_realtime (env : Env) (w : World) :
  same_realtime w (loadSessions env w).
Proof.
  unfold loadSessions, loadSessions_failed.
  destruct (user (state w)); [|apply same_realtime_refl].
  destruct (query env SelectOwnedSessions _).
  - destruct (query env SelectParticipantSessions _).
    + realtime_step set_realtime. apply set_realtime.
    + realtime_step toast_realtime. realtime_step set_realtime.
      apply set_realtime.
  - realtime_step toast_realtime. realtime_step set_realtime.
    apply set_realtime.
Qed.

Lemma joinSession_tracked (env : Env) (sessionId : Id) (w : World) :
  tracked w -> tracked (joinSession env sessionId w).
Proof.
  intros Ht. destruct (user (state w)) as [u|] eqn:Hu.
  - destruct (joinSession_shape env sessionId w u Hu)
      as [[m ->]|[s [_ [_ ->]]]].
    + exact Ht.
    + unfold entered. apply attach_after_install_tracked. exact Ht.
  - unfold joinSession. rewrite Hu. exact Ht.
Qed.

(** *** The client as a transition system *)

(** What can happen to a client: the actions of the store, any plain
    setter ([setUser], [setCurrentSession], the toggles, ...) as a state
    update, writes to the database from elsewhere, and the arrival of a
    change notification. [createSession] and [updateCodeFile] touch the
    state and the database only, so they are sequences of the first two
    kinds of event and [loadSessions]. *)
Inductive Event : Type :=
| ev_set (f : AppState -> AppState)
| ev_remote_write (f : Database -> Database)
| ev_loadSessions (env : Env)
| ev_joinSession (env : Env) (sessionId : Id)
| ev_sendMessage (env : Env) (content : string) (type : MessageType)
| ev_generateCode (env : Env) (prompt : string)
| ev_cleanupSubscriptions
| ev_setupRealtimeSubscriptions
| ev_notification (n : Notification).

Definition step (w : World) (e : Event) : World :=
  match e with
  | ev_set f => set f w
  | ev_remote_write f => with_db (f (db w)) w
  | ev_loadSessions env => loadSessions env w
  | ev_joinSession env sessionId => joinSession env sessionId w
  | ev_sendMessage env content type => sendMessage env content type w
  | ev_generateCode env prompt => generateCode env prompt w
  | ev_cleanupSubscriptions => cleanupSubscriptions w
  | ev_setupRealtimeSubscriptions => setupRealtimeSubscriptions w
  | ev_notification n => deliver n w
  end.

Definition run (events : list Event) (w : World) : World :=
  fold_left step events w.

Lemma step_tracked (w : World) (e : Event) : tracked w -> tracked (step w e).
Proof.
  intros Ht. destruct e; cbn [step].
  - exact Ht.
  - exact Ht.
  - apply (tracked_same_realtime w); [apply loadSessions_realtime|exact Ht].
  - apply joinSession_tracked, Ht.
  - apply (tracked_same_realtime w); [apply sendMessage_realtime|exact Ht].
  - apply (tracked_same_realtime w); [apply generateCode_realtime|exact Ht].
  - apply cleanupSubscriptions_tracked, Ht.
  - apply setupRealtimeSubscriptions_tracked, Ht.
  - exact Ht.
Qed.

Lemma run_tracked (events : list Event) (w : World) :
  tracked w -> tracked (run events w).
Proof.
  revert w. induction events as [|e events IH]; intros w Ht; [exact Ht|].
  cbn. apply IH, step_tracked, Ht.
Qed.

Lemma initialWorld_tracked (d : Database) : tracked (initialWorld d).
Proof. intros c []. Qed.

(** A notification for another session than the one every open channel
    filters on changes nothing. *)
Lemma deliver_foreign (sid : Id) (n : Notification) (w : World) :
  (forall c, In c (channels w) -> filter_session_id c = sid) ->
  notification_session n <> sid ->
  deliver n w = w.
Proof.
  intros Hf Hn. unfold deliver. apply set_same.
  generalize (state w) as s.
  induction (channels w) as [|c l IH]; intros s; cbn; [reflexivity|].
  rewrite (Hf c (or_introl eq_refl)).
  destruct (String.eqb sid (notification_session n)) eqn:E.
  - apply String.eqb_eq in E. congruence.
  - apply IH. intros c' Hc'. apply Hf. right. exact Hc'.
Qed.

Lemma deliver_channels (n : Notification) (w : World) :
  channels (deliver n w) = channels w.
Proof. reflexivity. Qed.

Lemma deliver_all_foreign (sid : Id) (ns : list Notification) (w : World) :
  (forall c, In c (channels w) -> filter_session_id c = sid) ->
  deliver_all ns w
  = deliver_all
      (filter (fun n => String.eqb (notification_session n) sid) ns) w.
Proof.
  revert w. induction ns as [|n ns IH]; intros w Hf; [reflexivity|].
  cbn [deliver_all fold_left filter].
  destruct (String.eqb (notification_session n) sid) eqn:E.
  - cbn [fold_left]. apply (IH (deliver n w)). exact Hf.
  - apply String.eqb_neq in E. rewrite (deliver_foreign sid n w Hf E).
    apply IH, Hf.
Qed.

Lemma subscribed_to_filters (sid : Id) (w : World) :
  subscribed_to sid w ->
  forall c, In c (channels w) -> filter_session_id c = sid.
Proof.
  unfold subscribed_to. intros H c Hc.
  apply (in_map (fun c => (binding c, filter_session_id c))) in Hc.
  rewrite H in Hc. cbn in Hc.
  destruct Hc as [E|[E|[E|[]]]]; injection E as _ E; symmetry; exact E.
Qed.

(** C5. In any world the client can reach, a successful [joinSession]
    of session B first detaches every open channel, then installs B, and
    leaves open exactly the three channels filtered on B's identifier.
    From then on a notification tagged with another session's
    identifier (the one left, for instance) changes nothing: delivering
    any sequence of notifications has the effect of delivering only
    those tagged with B. *)
Theorem C5_channel_exclusivity :
  forall (d : Database) (events : list Event) (env : Env) (sessionId : Id)
         (u : User.t) (ns : list Notification),
    let w := run events (initialWorld d) in
    user (state w) = Some u ->
    let w' := joinSession env sessionId w in
    error (state w') = None ->
    channels (cleanupSubscriptions w) = []
    /\ (exists s, currentSession (state w') = Some s /\ Session.id s = sessionId)
    /\ subscribed_to sessionId w'
    /\ (forall n, notification_session n <> sessionId -> deliver n w' = w')
    /\ deliver_all ns w'
       = deliver_all
           (filter (fun n => String.eqb (notification_session n) sessionId) ns)
           w'.
Proof.
  intros d events env sid u ns w Hu w' Hok.
  assert (Ht : tracked w) by apply run_tracked, initialWorld_tracked.
  split; [apply cleanupSubscriptions_detaches, Ht|].
  destruct (joinSession_shape env sid w u Hu) as [[m E]|[s [Hs [_ E]]]].
  - exfalso. unfold w' in Hok. rewrite E in Hok. discriminate Hok.
  - assert (Hid : Session.id s = sid).
    { unfold query in Hs. destruct (failure env SelectSession); [discriminate|].
      destruct (select_session (db w) (User.id u) sid) as [|s0 [|s1 l]] eqn:Hsel;
        try discriminate.
      injection Hs as <-.
      assert (Hin : In s0 (select_session (db w) (User.id u) sid))
        by (rewrite Hsel; left; reflexivity).
      apply filter_In in Hin. destruct Hin as [_ Hin].
      apply String.eqb_eq. exact Hin. }
    destruct (entered_client env sid u s w) as [_ Hst].
    destruct (installing_fields env sid s (join_db env sid u s (db w))
                (set_error None (set_isLoading true (state w))))
      as [Iu [_ [Ics _]]].
    assert (Hsub : subscribed_to sid w').
    { unfold w'. rewrite E. unfold entered. rewrite <- Hid at 1.
      apply (attach_after_install_channels _ _ _ _ s u).
      - apply (tracked_same_realtime w); [apply set_realtime|exact Ht].
      - exact Ics.
      - exact (eq_trans Iu Hu). }
    pose proof (subscribed_to_filters sid w' Hsub) as Hf.
    split; [|split; [exact Hsub|split]].
    + exists s. split; [|exact Hid]. unfold w'. rewrite E, Hst. exact Ics.
    + intros n Hn. apply (deliver_foreign sid n w' Hf Hn).
    + apply deliver_all_foreign, Hf.
Qed.

Example bob_switches_session :
  let w' := joinSession Scenario.env2 "s-other" Scenario.joined in
  map (fun c => (binding c, filter_session_id c)) (channels w')
  = [(INSERT_messages, "s-other"); (INSERT_code_files, "s-other");
     (UPDATE_code_files, "s-other")]
  /\ messages (state (deliver_all [NewMessage Scenario.message_in_public;
                                   NewMessage Scenario.message_in_other] w'))
     = [Scenario.message_in_other].
Proof. vm_compute. split; reflexivity. Qed.

Lemma C5_channel_exclusivity_witness :
  let ns := [NewMessage Scenario.message_in_public;
             NewMessage Scenario.message_in_other] in
  let w :=
    run [ev_set (set_user (Some Scenario.bob));
         ev_joinSession Scenario.env "s-public"]
      (initialWorld Scenario.database) in
  let w' := joinSession Scenario.env2 "s-other" w in
  channels (cleanupSubscriptions w) = []
  /\ (exists s, currentSession (state w') = Some s /\ Session.id s = "s-other")
  /\ subscribed_to "s-other" w'
  /\ (forall n, notification_session n <> "s-other" -> deliver n w' = w')
  /\ deliver_all ns w'
     = deliver_all
         (filter (fun n => String.eqb (notification_session n) "s-other") ns)
         w'.
Proof.
  apply (C5_channel_exclusivity Scenario.database
           [ev_set (set_user (Some Scenario.bob));
            ev_joinSession Scenario.env "s-public"]
           Scenario.env2 "s-other" Scenario.bob
           [NewMessage Scenario.message_in_public;
            NewMessage Scenario.message_in_other]).
  - vm_compute. reflexivity.
  - vm_compute. reflexivity.
Defined.

(* ================================================================== *)
(** * Further properties of the store, the edge functions and their callers *)

(* ------------------------------------------------------------------ *)
(** ** The handler of new code files *)

Lemma deliver_new_file_subscribed (sid : Id) (w : World) (f : CodeFile.t) :
  subscribed_to sid w -> CodeFile.session_id f = sid ->
  state (deliver (NewCodeFile f) w) = on_new_file f (state w).
Proof.
  unfold subscribed_to, deliver. intros Hsub Hsid.
  destruct (channels w) as [|c1 [|c2 [|c3 [|c4 l]]]]; try discriminate.
  cbn in Hsub. injection Hsub as Hb1 Hf1 Hb2 Hf2 Hb3 Hf3.
  cbn. unfold callback. rewrite Hb1, Hb2, Hb3, Hf1, Hf2, Hf3, Hsid.
  rewrite String.eqb_refl. reflexivity.
Qed.

Lemma find_by_id_absent (f : CodeFile.t) (l : list CodeFile.t) :
  (forall g, In g l -> CodeFile.id g <> CodeFile.id f) ->
  find (fun g => String.eqb (CodeFile.id g) (CodeFile.id f)) l = None.
Proof.
  intros H. destruct (find _ l) as [g|] eqn:E; [|reflexivity].
  apply find_some in E. destruct E as [Hin Hid]. apply String.eqb_eq in Hid.
  exfalso. exact (H g Hin Hid).
Qed.

Lemma find_by_id_present (f : CodeFile.t) (l : list CodeFile.t) :
  (exists g, In g l /\ CodeFile.id g = CodeFile.id f) ->
  exists g, find (fun g => String.eqb (CodeFile.id g) (CodeFile.id f)) l = Some g.
Proof.
  intros [g [Hin Hid]].
  destruct (find _ l) as [g'|] eqn:E; [exists g'; reflexivity|].
  apply (find_none _ _ E) in Hin. rewrite Hid, String.eqb_refl in Hin.
  discriminate.
Qed.

(** X1. On the channel of the joined session a "new code file" whose
    identifier the client does not hold yet is put at the head of the
    collection; one whose identifier is already held is discarded; so
    delivering the same notification a second time changes nothing. *)
Theorem new_file_prepended_once :
  forall (sid : Id) (w : World) (f : CodeFile.t),
    subscribed_to sid w ->
    CodeFile.session_id f = sid ->
    let files := codeFiles (state w) in
    let w1 := deliver (NewCodeFile f) w in
    ((forall g, In g files -> CodeFile.id g <> CodeFile.id f) ->
     codeFiles (state w1) = f :: files)
    /\ ((exists g, In g files /\ CodeFile.id g = CodeFile.id f) -> w1 = w)
    /\ deliver (NewCodeFile f) w1 = w1.
Proof.
  intros sid w f Hsub Hsid files w1. subst files.
  pose proof (deliver_new_file_subscribed sid w f Hsub Hsid) as E.
  split; [|split].
  - intros Habs. unfold w1. rewrite E. unfold on_new_file.
    rewrite (find_by_id_absent f _ Habs). reflexivity.
  - intros Hpres. unfold w1, deliver. apply set_same.
    change (state (deliver (NewCodeFile f) w) = state w). rewrite E.
    unfold on_new_file. destruct (find_by_id_present f _ Hpres) as [g ->].
    reflexivity.
  - unfold deliver at 1. apply set_same.
    change (state (deliver (NewCodeFile f) w1) = state w1).
    rewrite (deliver_new_file_subscribed sid w1 f Hsub Hsid).
    unfold on_new_file.
    assert (Hpres : exists g, In g (codeFiles (state w1))
                              /\ CodeFile.id g = CodeFile.id f).
    { unfold w1. rewrite E. unfold on_new_file.
      destruct (find (fun g => String.eqb (CodeFile.id g) (CodeFile.id f))
                  (codeFiles (state w))) as [g|] eqn:Hfind.
      - apply find_some in Hfind. destruct Hfind as [Hin Hid].
        apply String.eqb_eq in Hid. exists g. split; assumption.
      - exists f. split; [left; reflexivity|reflexivity]. }
    destruct (find_by_id_present f _ Hpres) as [g ->]. reflexivity.
Qed.

Lemma new_file_prepended_once_witness :
  let w := Scenario.joined in
  let f := Scenario.remote_file in
  let files := codeFiles (state w) in
  let w1 := deliver (NewCodeFile f) w in
  ((forall g, In g files -> CodeFile.id g <> CodeFile.id f) ->
   codeFiles (state w1) = f :: files)
  /\ ((exists g, In g files /\ CodeFile.id g = CodeFile.id f) -> w1 = w)
  /\ deliver (NewCodeFile f) w1 = w1.
Proof.
  apply (new_file_prepended_once "s-public" Scenario.joined Scenario.remote_file).
  - vm_compute. reflexivity.
  - reflexivity.
Defined.

(* ------------------------------------------------------------------ *)
(** ** What the three handlers keep *)

Definition file_ids (s : AppState) : list Id := map CodeFile.id (codeFiles s).

Lemma on_file_update_ids (f : CodeFile.t) (s : AppState) :
  file_ids (on_file_update f s) = file_ids s.
Proof.
  unfold file_ids, on_file_update. cbn [codeFiles set_codeFiles].
  rewrite map_map. apply map_ext_in. intros g _.
  destruct (String.eqb (CodeFile.id g) (CodeFile.id f)) eqn:E; [|reflexivity].
  apply String.eqb_eq in E. symmetry. exact E.
Qed.

Lemma on_new_file_distinct (f : CodeFile.t) (s : AppState) :
  NoDup (file_ids s) -> NoDup (file_ids (on_new_file f s)).
Proof.
  intros H. unfold on_new_file.
  destruct (find (fun g => String.eqb (CodeFile.id g) (CodeFile.id f))
              (codeFiles s)) eqn:E; [exact H|].
  unfold file_ids. cbn [codeFiles set_codeFiles map]. constructor; [|exact H].
  intros Hin. apply in_map_iff in Hin. destruct Hin as [g [Hid Hg]].
  apply (find_none _ _ E) in Hg. rewrite Hid, String.eqb_refl in Hg.
  discriminate.
Qed.

Lemma callback_distinct (c : Channel) (n : Notification) (s : AppState) :
  NoDup (file_ids s) -> NoDup (file_ids (callback c n s)).
Proof.
  intros H. unfold callback.
  destruct (binding c), n; try exact H.
  - unfold on_new_message. destruct (negb _); exact H.
  - apply on_new_file_distinct, H.
  - rewrite on_file_update_ids. exact H.
Qed.

Lemma deliver_distinct (n : Notification) (w : World) :
  NoDup (file_ids (state w)) -> NoDup (file_ids (state (deliver n w))).
Proof.
  unfold deliver. cbn [state set]. generalize (state w) as s.
  induction (channels w) as [|c l IH]; intros s H; cbn; [exact H|].
  apply IH.
  destruct (String.eqb (filter_session_id c) (notification_session n));
    [apply callback_distinct, H|exact H].
Qed.

(** X2. Whatever channels are open and whatever notifications arrive,
    in whatever order, the handlers never give two local code files the
    same identifier: identifiers that are pairwise distinct stay so. *)
Theorem handlers_keep_file_ids_distinct :
  forall (ns : list Notification) (w : World),
    NoDup (file_ids (state w)) ->
    NoDup (file_ids (state (deliver_all ns w))).
Proof.
  induction ns as [|n ns IH]; intros w H; [exact H|].
  cbn [deliver_all fold_left]. apply (IH (deliver n w)).
  apply deliver_distinct, H.
Qed.

Lemma handlers_keep_file_ids_distinct_witness :
  NoDup (file_ids
           (state (deliver_all [NewCodeFile Scenario.remote_file;
                                UpdatedCodeFile Scenario.remote_file;
                                NewCodeFile Scenario.remote_file]
                     Scenario.joined))).
Proof.
  apply (handlers_keep_file_ids_distinct
           [NewCodeFile Scenario.remote_file;
            UpdatedCodeFile Scenario.remote_file;
            NewCodeFile Scenario.remote_file] Scenario.joined).
  vm_compute. constructor.
Defined.

(** The callbacks of a world whose channels all closed over user [u]. *)
Lemma deliver_message_subscribed (sid : Id) (u : User.t) (w : World)
    (m : Message.t) :
  subscribed_to sid w ->
  (forall c, In c (channels w) -> closure_user c = u) ->
  Message.session_id m = sid ->
  state (deliver (NewMessage m) w) = on_new_message u m (state w).
Proof.
  unfold subscribed_to, deliver. intros Hsub Hcl Hsid.
  destruct (channels w) as [|c1 [|c2 [|c3 [|c4 l]]]]; try discriminate.
  cbn in Hsub. injection Hsub as Hb1 Hf1 Hb2 Hf2 Hb3 Hf3.
  cbn. unfold callback. rewrite Hb1, Hb2, Hb3, Hf1, Hf2, Hf3, Hsid.
  rewrite String.eqb_refl. rewrite (Hcl c1 (or_introl eq_refl)). reflexivity.
Qed.

(** X3. Messages other users post in the joined session are appended to
    the local sequence in the order their notifications arrive, each
    exactly once; the code files and the channels stay as they are. *)
Theorem foreign_messages_appended_in_arrival_order :
  forall (sid : Id) (u : User.t) (ms : list Message.t) (w : World),
    subscribed_to sid w ->
    (forall c, In c (channels w) -> closure_user c = u) ->
    (forall m, In m ms ->
       Message.session_id m = sid /\ Message.user_id m <> User.id u) ->
    let w' := deliver_all (map NewMessage ms) w in
    messages (state w') = (messages (state w) ++ ms)%list
    /\ codeFiles (state w') = codeFiles (state w)
    /\ channels w' = channels w.
Proof.
  intros sid u ms. induction ms as [|m ms IH]; intros w Hsub Hcl Hms.
  - cbn. rewrite app_nil_r. repeat split.
  - cbn [map deliver_all fold_left].
    destruct (Hms m (or_introl eq_refl)) as [Hsid Hauthor].
    pose proof (deliver_message_subscribed sid u w m Hsub Hcl Hsid) as E.
    assert (E' : state (deliver (NewMessage m) w)
                 = set_messages (messages (state w) ++ [m]) (state w)).
    { rewrite E. unfold on_new_message.
      apply String.eqb_neq in Hauthor. rewrite Hauthor. reflexivity. }
    destruct (IH (deliver (NewMessage m) w) Hsub Hcl
                (fun m' Hm' => Hms m' (or_intror Hm'))) as [Hm [Hf Hc]].
    cbv zeta in Hm, Hf, Hc. unfold deliver_all in Hm, Hf, Hc.
    cbv zeta. rewrite Hm, Hf, Hc, E'. cbn [messages codeFiles set_messages].
    rewrite <- app_assoc. repeat split.
Qed.

Lemma foreign_messages_appended_in_arrival_order_witness :
  let ms := [Scenario.message_in_public; Scenario.old_message] in
  let w' := deliver_all (map NewMessage ms) Scenario.joined in
  messages (state w') = (messages (state Scenario.joined) ++ ms)%list
  /\ codeFiles (state w') = codeFiles (state Scenario.joined)
  /\ channels w' = channels Scenario.joined.
Proof.
  apply (foreign_messages_appended_in_arrival_order "s-public" Scenario.bob
           [Scenario.message_in_public; Scenario.old_message] Scenario.joined).
  - vm_compute. reflexivity.
  - vm_compute. intros c [<-|[<-|[<-|[]]]]; reflexivity.
  - intros m [<-|[<-|[]]]; split; try reflexivity; discriminate.
Defined.

(* ------------------------------------------------------------------ *)
(** ** Detaching *)

(** X4. [cleanupSubscriptions] is safe to repeat: a second call changes
    nothing, a call with nothing recorded on [window] changes nothing at
    all, and a call never touches the state or the database and never
    opens a channel. *)
Theorem cleanupSubscriptions_idempotent :
  forall (w : World),
    cleanupSubscriptions (cleanupSubscriptions w) = cleanupSubscriptions w
    /\ (supabaseSubscriptions w = None -> cleanupSubscriptions w = w)
    /\ state (cleanupSubscriptions w) = state w
    /\ db (cleanupSubscriptions w) = db w
    /\ incl (channels (cleanupSubscriptions w)) (channels w).
Proof.
  intros w. split; [|split; [|split; [|split]]].
  - unfold cleanupSubscriptions.
    destruct (supabaseSubscriptions w) as [subs|] eqn:E; cbn.
    + reflexivity.
    + rewrite E. reflexivity.
  - intros E. unfold cleanupSubscriptions. rewrite E. reflexivity.
  - apply cleanupSubscriptions_client.
  - apply cleanupSubscriptions_client.
  - intros c Hc. unfold cleanupSubscriptions in Hc.
    destruct (supabaseSubscriptions w) as [subs|]; [|exact Hc].
    cbn in Hc. apply In_fold_removeChannel in Hc. exact (proj1 Hc).
Qed.

(* ------------------------------------------------------------------ *)
(** ** One set of channels at a time *)

(** The three channels [setupRealtimeSubscriptions] opens for session
    [sid] on behalf of user [u], numbered from [n]. *)
Definition session_channels (sid : Id) (u : User.t) (n : nat) : list Channel :=
  [mkChannel n ("messages:" ++ sid) INSERT_messages sid u;
   mkChannel (n + 1) ("code_files:" ++ sid) INSERT_code_files sid u;
   mkChannel (n + 2) ("code_files_updates:" ++ sid) UPDATE_code_files sid u].

(** No channel is open, or exactly the three channels of one session
    are, all recorded on [window]. *)
Definition one_subscription_set (w : World) : Prop :=
  channels w = []
  \/ exists sid u n,
       channels w = session_channels sid u n
       /\ supabaseSubscriptions w = Some (channels w)
       /\ (n + 3 <= next_ref w)%nat.

Lemma one_subscription_set_tracked (w : World) :
  one_subscription_set w -> tracked w.
Proof.
  intros [E|[sid [u [n [E [Hs _]]]]]] c Hc.
  - rewrite E in Hc. contradiction.
  - exists (channels w). split; [exact Hs|]. apply in_map, Hc.
Qed.

Lemma one_subscription_set_same_realtime (w w' : World) :
  same_realtime w w' -> one_subscription_set w -> one_subscription_set w'.
Proof.
  intros [A [B C]] [E|[sid [u [n [E [Hs Hn]]]]]].
  - left. rewrite A. exact E.
  - right. exists sid, u, n. rewrite A, B, C. repeat split; assumption.
Qed.

Lemma cleanupSubscriptions_next_ref (w : World) :
  next_ref (cleanupSubscriptions w) = next_ref w.
Proof.
  unfold cleanupSubscriptions. destruct (supabaseSubscriptions w); reflexivity.
Qed.

Lemma cleanupSubscriptions_one_set (w : World) :
  one_subscription_set w -> one_subscription_set (cleanupSubscriptions w).
Proof.
  intros H. left. apply cleanupSubscriptions_detaches.
  apply one_subscription_set_tracked, H.
Qed.

(** What a call with a session and a user leaves open. *)
Lemma setupRealtimeSubscriptions_exact (w : World) (cs : Session.t) (u : User.t) :
  tracked w ->
  currentSession (state w) = Some cs ->
  user (state w) = Some u ->
  let w' := setupRealtimeSubscriptions w in
  channels w' = session_channels (Session.id cs) u (next_ref w)
  /\ supabaseSubscriptions w' = Some (channels w')
  /\ next_ref w' = (next_ref w + 3)%nat.
Proof.
  intros Ht Hcs Hu. unfold setupRealtimeSubscriptions. rewrite Hcs, Hu.
  cbn [channels supabaseSubscriptions next_ref].
  rewrite (cleanupSubscriptions_detaches w Ht), cleanupSubscriptions_next_ref.
  repeat split.
Qed.

Lemma setupRealtimeSubscriptions_one_set (w : World) :
  one_subscription_set w -> one_subscription_set (setupRealtimeSubscriptions w).
Proof.
  intros H.
  destruct (currentSession (state w)) as [cs|] eqn:Hcs;
    [destruct (user (state w)) as [u|] eqn:Hu|].
  - destruct (setupRealtimeSubscriptions_exact w cs u
                (one_subscription_set_tracked w H) Hcs Hu) as [Hc [Hs Hn]].
    right. exists (Session.id cs), u, (next_ref w).
    split; [exact Hc|]. split; [exact Hs|]. rewrite Hn. lia.
  - unfold setupRealtimeSubscriptions. rewrite Hcs, Hu. exact H.
  - unfold setupRealtimeSubscriptions. rewrite Hcs. exact H.
Qed.

Lemma attach_after_install_one_set (F : AppState -> AppState) (D : Database)
    (t : Toast) (w : World) :
  one_subscription_set w ->
  one_subscription_set
    (toast t
       (setupRealtimeSubscriptions
          (set F (cleanupSubscriptions (with_db D w))))).
Proof.
  intros H.
  apply (one_subscription_set_same_realtime
           (setupRealtimeSubscriptions
              (set F (cleanupSubscriptions (with_db D w)))));
    [apply toast_realtime|].
  apply setupRealtimeSubscriptions_one_set.
  apply (one_subscription_set_same_realtime
           (cleanupSubscriptions (with_db D w))); [apply set_realtime|].
  apply cleanupSubscriptions_one_set.
  apply (one_subscription_set_same_realtime w);
    [apply with_db_realtime|exact H].
Qed.

Lemma joinSession_one_set (env : Env) (sessionId : Id) (w : World) :
  one_subscription_set w -> one_subscription_set (joinSession env sessionId w).
Proof.
  intros H. destruct (user (state w)) as [u|] eqn:Hu.
  - destruct (joinSession_shape env sessionId w u Hu)
      as [[m ->]|[s [_ [_ ->]]]].
    + apply (one_subscription_set_same_realtime w); [|exact H].
      unfold joinSession_failed. realtime_step toast_realtime.
      realtime_step set_realtime. apply set_realtime.
    + unfold entered. apply attach_after_install_one_set.
      apply (one_subscription_set_same_realtime w);
        [apply set_realtime|exact H].
  - unfold joinSession. rewrite Hu.
    apply (one_subscription_set_same_realtime w);
      [apply toast_realtime|exact H].
Qed.

Lemma step_one_set (w : World) (e : Event) :
  one_subscription_set w -> one_subscription_set (step w e).
Proof.
  intros H. destruct e; cbn [step].
  - apply (one_subscription_set_same_realtime w); [apply set_realtime|exact H].
  - apply (one_subscription_set_same_realtime w);
      [apply with_db_realtime|exact H].
  - apply (one_subscription_set_same_realtime w);
      [apply loadSessions_realtime|exact H].
  - apply joinSession_one_set, H.
  - apply (one_subscription_set_same_realtime w);
      [apply sendMessage_realtime|exact H].
  - apply (one_subscription_set_same_realtime w);
      [apply generateCode_realtime|exact H].
  - apply cleanupSubscriptions_one_set, H.
  - apply setupRealtimeSubscriptions_one_set, H.
  - apply (one_subscription_set_same_realtime w); [repeat split|exact H].
Qed.

Lemma run_one_set (events : list Event) (w : World) :
  one_subscription_set w -> one_subscription_set (run events w).
Proof.
  revert w. induction events as [|e events IH]; intros w H; [exact H|].
  cbn. apply IH, step_one_set, H.
Qed.

Lemma session_channels_refs (sid : Id) (u : User.t) (n : nat) :
  NoDup (map ref (session_channels sid u n)).
Proof.
  cbn. repeat constructor; cbn; intros H;
    repeat (destruct H as [H|H]; [lia|]); exact H.
Qed.

(** X5. Through any sequence of store actions, setters, database writes
    and notifications, the client holds at every moment either no
    channel at all or exactly the three channels of a single session,
    opened for a single user, with pairwise distinct references and all
    recorded on [window]: subscriptions are replaced, never piled up. *)
Theorem at_most_one_subscription_set :
  forall (d : Database) (events : list Event),
    let w := run events (initialWorld d) in
    one_subscription_set w
    /\ NoDup (map ref (channels w))
    /\ (List.length (channels w) <= 3)%nat.
Proof.
  intros d events w.
  assert (H : one_subscription_set w).
  { apply run_one_set. left. reflexivity. }
  split; [exact H|].
  destruct H as [E|[sid [u [n [E _]]]]]; rewrite E.
  - split; [constructor|cbn; lia].
  - split; [apply session_channels_refs|cbn; lia].
Qed.

(** X6. Called again in a reachable world, [setupRealtimeSubscriptions]
    leaves exactly the three channels of the current session, with fresh
    references, whatever was open before; without an active session or
    without a user it does nothing. *)
Theorem setupRealtimeSubscriptions_replaces :
  forall (d : Database) (events : list Event),
    let w := run events (initialWorld d) in
    (forall cs u,
        currentSession (state w) = Some cs -> user (state w) = Some u ->
        channels (setupRealtimeSubscriptions w)
        = session_channels (Session.id cs) u (next_ref w)
        /\ forall c c', In c (channels w) ->
                        In c' (channels (setupRealtimeSubscriptions w)) ->
                        ref c <> ref c')
    /\ (currentSession (state w) = None \/ user (state w) = None ->
        setupRealtimeSubscriptions w = w).
Proof.
  intros d events w.
  assert (H : one_subscription_set w).
  { apply run_one_set. left. reflexivity. }
  split.
  - intros cs u Hcs Hu.
    destruct (setupRealtimeSubscriptions_exact w cs u
                (one_subscription_set_tracked w H) Hcs Hu) as [Hc _].
    split; [exact Hc|]. intros c c' Hin Hin'. rewrite Hc in Hin'.
    destruct H as [E|[sid [u0 [n [E [_ Hn]]]]]]; rewrite E in Hin.
    + contradiction.
    + cbn in Hin, Hin'.
      destruct Hin as [<-|[<-|[<-|[]]]];
        destruct Hin' as [<-|[<-|[<-|[]]]]; cbn; lia.
  - intros [E|E]; unfold setupRealtimeSubscriptions; rewrite E;
      [reflexivity|destruct (currentSession (state w)); reflexivity].
Qed.

Example resubscribing_in_scenario :
  map (fun c => (ref c, binding c, filter_session_id c))
    (channels (setupRealtimeSubscriptions Scenario.joined))
  = [(3%nat, INSERT_messages, "s-public");
     (4%nat, INSERT_code_files, "s-public");
     (5%nat, UPDATE_code_files, "s-public")].
Proof. vm_compute. reflexivity. Qed.

(* ------------------------------------------------------------------ *)
(** ** More on [joinSession] *)

Lemma single_query_rows {A : Type} (env : Env) (q : Query) (rows : list A) (x : A) :
  single (query env q rows) = Data x -> rows = [x] /\ failure env q = None.
Proof.
  unfold query. destruct (failure env q); cbn; [discriminate|].
  destruct rows as [|y [|z l]]; cbn; try discriminate.
  intros H. injection H as ->. split; reflexivity.
Qed.

Lemma join_db_other_tables (env : Env) (sid : Id) (u : User.t) (s : Session.t)
    (d : Database) :
  tbl_sessions (join_db env sid u s d) = tbl_sessions d
  /\ tbl_messages (join_db env sid u s d) = tbl_messages d
  /\ tbl_code_files (join_db env sid u s d) = tbl_code_files d.
Proof.
  unfold join_db.
  destruct (negb (String.eqb (Session.owner_id s) (User.id u)));
    [|repeat split].
  destruct (failure env UpsertParticipant); [repeat split|].
  destruct (upsert_participant_present (uuid env UpsertParticipant) (now env)
              sid (User.id u) developer d) as [_ [_ [A [B C]]]].
  repeat split; assumption.
Qed.

(** X7. A join writes to no table but [session_participants], whatever
    happens; and a user who owns the session with the requested
    identifier writes nothing at all by joining it. *)
Theorem joinSession_writes_only_participants :
  forall (env : Env) (sessionId : Id) (w : World),
    let w' := joinSession env sessionId w in
    tbl_sessions (db w') = tbl_sessions (db w)
    /\ tbl_messages (db w') = tbl_messages (db w)
    /\ tbl_code_files (db w') = tbl_code_files (db w)
    /\ (forall u,
           user (state w) = Some u ->
           (forall s, In s (tbl_sessions (db w)) -> Session.id s = sessionId ->
                      Session.owner_id s = User.id u) ->
           db w' = db w).
Proof.
  intros env sid w w'. unfold w'.
  destruct (user (state w)) as [u|] eqn:Hu.
  - destruct (joinSession_shape env sid w u Hu) as [[m ->]|[s [Hs [_ ->]]]].
    + repeat split.
    + rewrite (proj1 (entered_client env sid u s w)).
      destruct (join_db_other_tables env sid u s (db w)) as [A [B C]].
      split; [exact A|]. split; [exact B|]. split; [exact C|].
      intros u' Hu' Hown. injection Hu' as <-.
      apply single_query_rows in Hs. destruct Hs as [Hrows _].
      assert (Hin : In s (select_session (db w) (User.id u) sid))
        by (rewrite Hrows; left; reflexivity).
      apply filter_In in Hin. destruct Hin as [Hin Hid].
      apply filter_In in Hin. destruct Hin as [Hin _].
      apply String.eqb_eq in Hid.
      unfold join_db. rewrite (Hown s Hin Hid), String.eqb_refl. reflexivity.
  - unfold joinSession. rewrite Hu. repeat split.
Qed.

Example owner_joins_without_writing :
  let w' := joinSession Scenario.env "s-private" Scenario.alice_signed_in in
  db w' = db Scenario.alice_signed_in
  /\ option_map Session.id (currentSession (state w')) = Some "s-private".
Proof. vm_compute. split; reflexivity. Qed.

Lemma upsert_participant_others (i : Id) (t : Timestamp) (sid uid : Id)
    (r : Role) (d : Database) :
  filter (fun p => negb (same_pair sid uid p))
    (tbl_session_participants (upsert_participant i t sid uid r d))
  = filter (fun p => negb (same_pair sid uid p)) (tbl_session_participants d).
Proof.
  unfold upsert_participant.
  destruct (existsb (same_pair sid uid) (tbl_session_participants d)); cbn.
  - induction (tbl_session_participants d) as [|p l IH]; cbn; [reflexivity|].
    destruct (same_pair sid uid p) eqn:E.
    + rewrite set_role_same_pair, E. cbn. exact IH.
    + rewrite E. cbn. rewrite IH. reflexivity.
  - rewrite filter_app. cbn. unfold same_pair at 2. cbn.
    rewrite !String.eqb_refl. cbn. apply app_nil_r.
Qed.

(** X8. A successful join by a user who is not the owner, with the
    upsert going through, leaves that user a participant with role
    developer, whatever role the user had before (the conflicting row
    takes the role of the upsert); the rows of every other pair are
    untouched. *)
Theorem joinSession_sets_role_developer :
  forall (env : Env) (sessionId : Id) (w : World) (u : User.t) (s : Session.t),
    user (state w) = Some u ->
    failure env UpsertParticipant = None ->
    let w' := joinSession env sessionId w in
    error (state w') = None ->
    currentSession (state w') = Some s ->
    Session.owner_id s <> User.id u ->
    (exists p, In p (tbl_session_participants (db w'))
               /\ same_pair sessionId (User.id u) p = true)
    /\ (forall p, In p (tbl_session_participants (db w')) ->
                  same_pair sessionId (User.id u) p = true ->
                  SessionParticipant.role p = developer)
    /\ filter (fun p => negb (same_pair sessionId (User.id u) p))
         (tbl_session_participants (db w'))
       = filter (fun p => negb (same_pair sessionId (User.id u) p))
           (tbl_session_participants (db w)).
Proof.
  intros env sid w u s Hu Hf w' Hok Hcur Hown. unfold w' in *.
  destruct (joinSession_shape env sid w u Hu) as [[m E]|[s0 [_ [_ E]]]].
  - rewrite E in Hok. discriminate Hok.
  - rewrite E in *. destruct (entered_client env sid u s0 w) as [Hdb Hst].
    rewrite Hst in Hcur.
    destruct (installing_fields env sid s0 (join_db env sid u s0 (db w))
                (set_error None (set_isLoading true (state w))))
      as [_ [_ [Ics _]]].
    rewrite Ics in Hcur. injection Hcur as ->.
    rewrite Hdb. unfold join_db. apply String.eqb_neq in Hown.
    rewrite Hown, Hf. cbn [negb].
    destruct (upsert_participant_present (uuid env UpsertParticipant) (now env)
                sid (User.id u) developer (db w)) as [Hex [Hrole _]].
    split; [|split].
    + apply existsb_exists in Hex. exact Hex.
    + exact Hrole.
    + apply upsert_participant_others.
Qed.

Module Scenario2.

(** The database of [Scenario] in which Bob is already a viewer of the
    public session. *)
Definition database : Database :=
  with_session_participants
    (tbl_session_participants Scenario.database
     ++ [SessionParticipant.mk "p-3" "s-public" "u-bob" viewer 22 22])
    Scenario.database.

Definition signed_in : World :=
  set (set_user (Some Scenario.bob)) (initialWorld database).

(** Every read fails, the upsert too; only the session itself is found. *)
Definition env_degraded : Env :=
  mkEnv (fun q => match q with
                  | SelectSession => None
                  | _ => Some "connection lost"
                  end)
    (uuid Scenario.env) 52 (Some "token") 0 None Scenario.edge_down
    (fun s => s).

End Scenario2.

Example viewer_becomes_developer :
  map (fun p => (SessionParticipant.id p, SessionParticipant.role p))
    (rows_for "s-public" "u-bob"
       (db (joinSession Scenario.env "s-public" Scenario2.signed_in)))
  = [("p-3", developer)].
Proof. vm_compute. reflexivity. Qed.

Lemma joinSession_sets_role_developer_witness :
  let w' := joinSession Scenario.env "s-public" Scenario2.signed_in in
  (exists p, In p (tbl_session_participants (db w'))
             /\ same_pair "s-public" (User.id Scenario.bob) p = true)
  /\ (forall p, In p (tbl_session_participants (db w')) ->
                same_pair "s-public" (User.id Scenario.bob) p = true ->
                SessionParticipant.role p = developer)
  /\ filter (fun p => negb (same_pair "s-public" (User.id Scenario.bob) p))
       (tbl_session_participants (db w'))
     = filter (fun p => negb (same_pair "s-public" (User.id Scenario.bob) p))
         (tbl_session_participants (db Scenario2.signed_in)).
Proof.
  apply (joinSession_sets_role_developer Scenario.env "s-public"
           Scenario2.signed_in Scenario.bob Scenario.public_session).
  - reflexivity.
  - reflexivity.
  - vm_compute. reflexivity.
  - vm_compute. reflexivity.
  - cbn. discriminate.
Defined.

Lemma installing_collections (env : Env) (sid : Id) (s : Session.t)
    (d : Database) (st : AppState) :
  messages (installing env sid s d st)
  = or_empty (query env SelectMessages (select_messages d sid))
  /\ codeFiles (installing env sid s d st)
     = or_empty (query env SelectCodeFiles (select_code_files d sid))
  /\ sessionParticipants (installing env sid s d st)
     = or_empty (query env SelectParticipants (select_participants d sid))
  /\ isLoading (installing env sid s d st) = false.
Proof. repeat split. Qed.

Lemma query_failed {A : Type} (env : Env) (q : Query) (rows : list A) :
  failure env q <> None -> or_empty (query env q rows) = [].
Proof.
  unfold query. destruct (failure env q); [reflexivity|].
  intros H. exfalso. apply H. reflexivity.
Qed.

(** X9. Only the read of the session itself is fatal to a join. For the
    owner, and for anyone when the session is public, the join succeeds
    whatever else fails: a failed load of messages, code files or
    participants yields an empty collection, and a failed participant
    upsert leaves the database as it was. *)
Theorem joinSession_degrades_gracefully :
  forall (env : Env) (w : World) (u : User.t) (s : Session.t),
    user (state w) = Some u ->
    NoDup (map Session.id (tbl_sessions (db w))) ->
    In s (tbl_sessions (db w)) ->
    failure env SelectSession = None ->
    Session.owner_id s = User.id u \/ Session.is_public s = true ->
    let w' := joinSession env (Session.id s) w in
    error (state w') = None
    /\ currentSession (state w') = Some s
    /\ isLoading (state w') = false
    /\ (failure env SelectMessages <> None -> messages (state w') = [])
    /\ (failure env SelectCodeFiles <> None -> codeFiles (state w') = [])
    /\ (failure env SelectParticipants <> None ->
        sessionParticipants (state w') = [])
    /\ (failure env UpsertParticipant <> None -> db w' = db w).
Proof.
  intros env w u s Hu Hpk Hin Hf Hacc w'.
  assert (Hs : single (query env SelectSession
                         (select_session (db w) (User.id u) (Session.id s)))
               = Data s).
  { rewrite (query_ok env _ _ Hf),
      (select_session_pkey (db w) (User.id u) s Hpk Hin
         (can_view_own_or_public _ _ Hacc)).
    reflexivity. }
  assert (Hadm : admitted env (Session.id s) u s (db w) = true).
  { unfold admitted. destruct Hacc as [Ho|Hp].
    - rewrite Ho, String.eqb_refl. reflexivity.
    - rewrite Hp. apply orb_true_iff. left. apply orb_true_r. }
  unfold w'. rewrite (joinSession_enters env (Session.id s) w u s Hu Hs Hadm).
  destruct (entered_client env (Session.id s) u s w) as [Hdb Hst].
  rewrite Hdb, Hst.
  set (d1 := join_db env (Session.id s) u s (db w)).
  set (st := set_error None (set_isLoading true (state w))).
  destruct (installing_fields env (Session.id s) s d1 st) as [_ [Ie [Ics _]]].
  destruct (installing_collections env (Session.id s) s d1 st)
    as [Im [Ic [Ip Il]]].
  rewrite Ie, Ics, Il, Im, Ic, Ip.
  split; [reflexivity|]. split; [reflexivity|]. split; [reflexivity|].
  split; [apply query_failed|]. split; [apply query_failed|].
  split; [apply query_failed|].
  intros Hup. unfold d1, join_db.
  destruct (negb (String.eqb (Session.owner_id s) (User.id u)));
    [|reflexivity].
  destruct (failure env UpsertParticipant); [reflexivity|].
  exfalso. apply Hup. reflexivity.
Qed.

Example join_with_everything_else_failing :
  let w' := joinSession Scenario2.env_degraded "s-public" Scenario.signed_in in
  view_of (state w') = mkSessionView (Some Scenario.public_session) [] [] []
  /\ error (state w') = None
  /\ db w' = db Scenario.signed_in.
Proof. vm_compute. repeat split; reflexivity. Qed.

Lemma joinSession_degrades_gracefully_witness :
  let env := Scenario2.env_degraded in
  let w' :=
    joinSession env (Session.id Scenario.public_session) Scenario.signed_in in
  error (state w') = None
  /\ currentSession (state w') = Some Scenario.public_session
  /\ isLoading (state w') = false
  /\ (failure env SelectMessages <> None -> messages (state w') = [])
  /\ (failure env SelectCodeFiles <> None -> codeFiles (state w') = [])
  /\ (failure env SelectParticipants <> None ->
      sessionParticipants (state w') = [])
  /\ (failure env UpsertParticipant <> None -> db w' = db Scenario.signed_in).
Proof.
  apply (joinSession_degrades_gracefully Scenario2.env_degraded
           Scenario.signed_in Scenario.bob Scenario.public_session).
  - reflexivity.
  - exact (sessions_pkey _ scenario_constraints).
  - right. left. reflexivity.
  - reflexivity.
  - right. reflexivity.
Defined.

(** X10. Joining an identifier no session has ends in the fetch error
    for a signed-in user: nothing is written, and the active session,
    its collections and the channels stay as they were. *)
Theorem joinSession_unknown_session :
  forall (env : Env) (sessionId : Id) (w : World) (u : User.t),
    user (state w) = Some u ->
    (forall s, In s (tbl_sessions (db w)) -> Session.id s <> sessionId) ->
    let w' := joinSession env sessionId w in
    error (state w') = Some "Session not found or access denied"
    /\ toasts w'
       = (toasts w ++ [toast_error "Session not found or access denied"])%list
    /\ db w' = db w
    /\ view_of (state w') = view_of (state w)
    /\ channels w' = channels w
    /\ supabaseSubscriptions w' = supabaseSubscriptions w.
Proof.
  intros env sid w u Hu Hnone w'.
  assert (Hsel : select_session (db w) (User.id u) sid = []).
  { unfold select_session. apply no_element. intros s Hs.
    apply filter_In in Hs. destruct Hs as [Hin Hid].
    apply filter_In in Hin. destruct Hin as [Hin _].
    apply String.eqb_eq in Hid. exact (Hnone s Hin Hid). }
  unfold w', joinSession. rewrite Hu. cbv zeta.
  change (db (set (fun s => set_error None (set_isLoading true s)) w))
    with (db w).
  rewrite Hsel. unfold query. destruct (failure env SelectSession);
    cbn [single]; repeat split.
Qed.

Lemma joinSession_unknown_session_witness :
  let w' := joinSession Scenario.env "s-nowhere" Scenario.joined in
  error (state w') = Some "Session not found or access denied"
  /\ toasts w'
     = (toasts Scenario.joined
        ++ [toast_error "Session not found or access denied"])%list
  /\ db w' = db Scenario.joined
  /\ view_of (state w') = view_of (state Scenario.joined)
  /\ channels w' = channels Scenario.joined
  /\ supabaseSubscriptions w' = supabaseSubscriptions Scenario.joined.
Proof.
  apply (joinSession_unknown_session Scenario.env "s-nowhere" Scenario.joined
           Scenario.bob).
  - vm_compute. reflexivity.
  - vm_compute. intros s [<-|[<-|[<-|[]]]]; discriminate.
Defined.

(** Under the policy on [sessions] a session that can be fetched is
    the user's own or public, so the check of the participant row in
    [joinSession] is never reached and its error never reported: a
    join that is refused is refused by the fetch. *)
Lemma no_access_error_is_never_reported (env : Env) (sessionId : Id)
    (w : World) (u : User.t) :
  user (state w) = Some u ->
  error (state (joinSession env sessionId w))
  <> Some "You do not have access to this session".
Proof.
  intros Hu.
  destruct (single (query env SelectSession
                      (select_session (db w) (User.id u) sessionId)))
    as [s|m] eqn:Hs.
  - assert (Hadm : admitted env sessionId u s (db w) = true).
    { apply single_query_rows in Hs. destruct Hs as [Hrows _].
      assert (H : In s (select_session (db w) (User.id u) sessionId))
        by (rewrite Hrows; left; reflexivity).
      apply filter_In in H. destruct H as [H _].
      apply filter_In in H. destruct H as [_ Hv].
      unfold admitted. unfold can_view_session in Hv. rewrite Hv.
      reflexivity. }
    rewrite (joinSession_enters env sessionId w u s Hu Hs Hadm).
    rewrite (proj2 (entered_client env sessionId u s w)).
    destruct (installing_fields env sessionId s
                (join_db env sessionId u s (db w))
                (set_error None (set_isLoading true (state w))))
      as [_ [Ierr _]].
    rewrite Ierr. discriminate.
  - unfold joinSession. rewrite Hu. cbv zeta.
    change (db (set (fun s => set_error None (set_isLoading true s)) w))
      with (db w).
    rewrite Hs. cbn. discriminate.
Qed.

(* ------------------------------------------------------------------ *)
(** ** What the edge functions write *)

(** X11. The chat function answers with success exactly when it has
    stored one row: the row it returns is the row it appended to
    [messages], an 'ai' message of the requested session with a
    non-empty text, stored under the identifier of the user the
    bearer token resolves to. With any failure answer the database is
    as it was. *)
Theorem ChatResponse_serve_stores_what_it_returns :
  forall (e : EdgeEnv) (req : ChatResponse.Request) (d : Database),
    match snd (ChatResponse.serve e req d) with
    | ChatResponse.Success m =>
        fst (ChatResponse.serve e req d) = insert_message m d
        /\ Message.type m = type_ai
        /\ Message.session_id m = ChatResponse.sessionId req
        /\ Message.content m <> ""
        /\ exists token u,
             ChatResponse.Authorization req = Some token
             /\ getUser e token = Some u
             /\ Message.user_id m = User.id u
    | ChatResponse.Failure _ => fst (ChatResponse.serve e req d) = d
    end.
Proof.
  intros e req d. unfold ChatResponse.serve.
  destruct (GROQ_API_KEY e); cbn [negb]; [|reflexivity].
  destruct (ChatResponse.Authorization req) as [token|]; [|reflexivity].
  destruct (getUser e token) as [u|] eqn:Hu; [|reflexivity].
  destruct (chat_completion e) as [m|st tx|content]; try reflexivity.
  destruct (edge_failure e InsertMessage); [reflexivity|].
  cbn [fst snd]. split; [reflexivity|]. split; [reflexivity|].
  split; [reflexivity|]. split.
  - cbn [new_message Message.content].
    destruct content as [c|]; [|discriminate].
    destruct (String.eqb c "") eqn:E; [discriminate|].
    apply String.eqb_neq. exact E.
  - exists token, u. repeat split. exact Hu.
Qed.

Lemma generated_text_nonempty (filename : string) (reply : GroqReply) :
  match reply with
  | Ok (Some c) =>
      if String.eqb c ""
      then "I've generated " ++ filename
           ++ " for you! The code includes everything you requested."
      else c
  | _ => "I've generated " ++ filename
         ++ " for you! The code includes everything you requested."
  end <> "".
Proof.
  destruct reply as [m|st tx|[c|]]; try discriminate.
  destruct (String.eqb c "") eqn:E; [discriminate|].
  apply String.eqb_neq. exact E.
Qed.

(** X12. The generation function writes at most one code file and at
    most one message, and never touches sessions or participants. On
    success the file it returns is the one row appended to
    [code_files], for the requested session and language and under the
    name [generateFilename] gives; the message row, if its insert went
    through, carries the returned text, which is never empty. On
    failure no message is stored, and the database is unchanged unless
    the file had been stored before the last completion request threw. *)
Theorem GenerateCode_serve_writes :
  forall (e : EdgeEnv) (req : GenerateCode.Request) (d : Database),
    let d' := fst (GenerateCode.serve e req d) in
    tbl_sessions d' = tbl_sessions d
    /\ tbl_session_participants d' = tbl_session_participants d
    /\ match snd (GenerateCode.serve e req d) with
       | GenerateCode.Success f text =>
           tbl_code_files d' = (tbl_code_files d ++ [f])%list
           /\ CodeFile.session_id f = GenerateCode.sessionId req
           /\ CodeFile.language f = Language_tag (GenerateCode.language req)
           /\ CodeFile.filename f
              = GenerateCode.generateFilename e (GenerateCode.prompt req)
                  (GenerateCode.language req)
           /\ text <> ""
           /\ (tbl_messages d' = tbl_messages d
               \/ exists m,
                    tbl_messages d' = (tbl_messages d ++ [m])%list
                    /\ Message.content m = text
                    /\ Message.type m = type_ai
                    /\ Message.session_id m = GenerateCode.sessionId req)
       | GenerateCode.Failure _ =>
           tbl_messages d' = tbl_messages d
           /\ (d' = d
               \/ exists f m, ai_response e = Thrown m
                              /\ d' = insert_code_file f d)
       end.
Proof.
  intros e req d d'. unfold d'. clear d'. unfold GenerateCode.serve.
  destruct (GROQ_API_KEY e); cbn [negb]; [|repeat split; left; reflexivity].
  destruct (GenerateCode.Authorization req) as [token|];
    [|repeat split; left; reflexivity].
  destruct (getUser e token) as [u|]; [|repeat split; left; reflexivity].
  destruct (generation e) as [m|st tx|content];
    try (repeat split; left; reflexivity).
  destruct (GenerateCode.analyse e) as [[healthScore issues]|];
    [|repeat split; left; reflexivity].
  destruct (edge_failure e InsertCodeFile);
    [repeat split; left; reflexivity|].
  destruct (ai_response e) as [m|st tx|reply] eqn:Hai.
  - cbn [fst snd]. repeat split. right. eexists. exists m.
    split; reflexivity.
  - cbn [fst snd].
    destruct (edge_failure e InsertMessage); cbn;
      (repeat split; [discriminate|]);
      [left; reflexivity|right; eexists; repeat split].
  - cbn [fst snd].
    assert (Hne := generated_text_nonempty
                     (GenerateCode.generateFilename e (GenerateCode.prompt req)
                        (GenerateCode.language req)) (Ok reply)).
    destruct (edge_failure e InsertMessage); cbn;
      (repeat split; [exact Hne|]);
      [left; reflexivity|right; eexists; repeat split].
Qed.

(* ------------------------------------------------------------------ *)
(** ** More on [sendMessage] and [generateCode] *)

Lemma call_chat_response_rows (env : Env) (content : string)
    (cs : Session.t) (w : World) :
  let w' := call_chat_response env content cs w in
  tbl_sessions (db w') = tbl_sessions (db w)
  /\ tbl_code_files (db w') = tbl_code_files (db w)
  /\ tbl_session_participants (db w') = tbl_session_participants (db w)
  /\ exists added,
       tbl_messages (db w') = (tbl_messages (db w) ++ added)%list
       /\ (List.length added <= 1)%nat
       /\ forall m, In m added ->
            Message.type m = type_ai
            /\ Message.session_id m = Session.id cs
            /\ exists token u,
                 getSession env = Some token
                 /\ getUser (edge env) token = Some u
                 /\ Message.user_id m = User.id u.
Proof.
  assert (Hnil : forall d : Database,
             exists added,
               tbl_messages d = (tbl_messages d ++ added)%list
               /\ (List.length added <= 1)%nat
               /\ forall m, In m added ->
                    Message.type m = type_ai
                    /\ Message.session_id m = Session.id cs
                    /\ exists token u,
                         getSession env = Some token
                         /\ getUser (edge env) token = Some u
                         /\ Message.user_id m = User.id u).
  { intros d. exists []. rewrite app_nil_r. split; [reflexivity|].
    split; [cbn; lia|]. intros m []. }
  unfold call_chat_response.
  destruct (getSession env) as [token|] eqn:Hs;
    [|repeat split; apply Hnil].
  destruct (invoke_failure env); [repeat split; apply Hnil|].
  cbn [db with_db]. unfold ChatResponse.serve.
  destruct (GROQ_API_KEY (edge env)); cbn [negb ChatResponse.Authorization];
    [|repeat split; apply Hnil].
  destruct (getUser (edge env) token) as [u|] eqn:Hu;
    [|repeat split; apply Hnil].
  destruct (chat_completion (edge env)); try (repeat split; apply Hnil).
  destruct (edge_failure (edge env) InsertMessage);
    [repeat split; apply Hnil|].
  cbn [fst]. repeat split.
  eexists. split; [reflexivity|]. split; [cbn; lia|].
  intros m [<-|[]]. split; [reflexivity|]. split; [reflexivity|].
  exists token, u. repeat split. exact Hu.
Qed.

(** X13. [sendMessage] only ever appends to [messages]: the stored rows
    of before stay in place, at most two rows come after them (the
    message, and the stored reply of the chat function to a user
    message), all of the active session, and no other table changes.
    When the insert of the message fails nothing at all is written and
    the local sequence stays as it was. *)
Theorem sendMessage_appends_only :
  forall (env : Env) (content : string) (type : MessageType) (w : World),
    let w' := sendMessage env content type w in
    tbl_sessions (db w') = tbl_sessions (db w)
    /\ tbl_code_files (db w') = tbl_code_files (db w)
    /\ tbl_session_participants (db w') = tbl_session_participants (db w)
    /\ (exists added,
          tbl_messages (db w') = (tbl_messages (db w) ++ added)%list
          /\ (List.length added <= 2)%nat
          /\ forall m cs, In m added -> currentSession (state w) = Some cs ->
                          Message.session_id m = Session.id cs)
    /\ (failure env InsertMessage <> None ->
        db w' = db w /\ messages (state w') = messages (state w)).
Proof.
  intros env content type w w'. unfold w'. clear w'.
  assert (Hnil : exists added,
             tbl_messages (db w) = (tbl_messages (db w) ++ added)%list
             /\ (List.length added <= 2)%nat
             /\ forall m cs, In m added -> currentSession (state w) = Some cs ->
                             Message.session_id m = Session.id cs).
  { exists []. rewrite app_nil_r. split; [reflexivity|].
    split; [cbn; lia|]. intros m cs []. }
  unfold sendMessage.
  destruct (user (state w)) as [u|]; [|repeat split; exact Hnil].
  destruct (currentSession (state w)) as [cs|]; [|repeat split; exact Hnil].
  destruct (failure env InsertMessage) as [e|] eqn:Hf;
    [repeat split; exact Hnil|].
  assert (Hno : None <> @None string -> False) by (intros H; apply H; reflexivity).
  destruct type; cbn [MessageType_eqb].
  - match goal with
    | |- context [call_chat_response env content cs ?w0] =>
        destruct (call_chat_response_rows env content cs w0)
          as [A [B [C [added [D [Hlen Hall]]]]]]
    end.
    cbv zeta in A, B, C, D. rewrite A, B, C, D.
    split; [reflexivity|]. split; [reflexivity|]. split; [reflexivity|].
    split; [|intros H; destruct (Hno H)].
    eexists. split.
    + cbn [db set with_db insert_message with_messages tbl_messages].
      rewrite <- app_assoc. reflexivity.
    + split; [cbn; lia|].
      intros m cs' [<-|Hm] Hcs'; injection Hcs' as <-; [reflexivity|].
      exact (proj1 (proj2 (Hall m Hm))).
  - split; [reflexivity|]. split; [reflexivity|]. split; [reflexivity|].
    split; [|intros H; destruct (Hno H)].
    eexists. split; [reflexivity|]. split; [cbn; lia|].
    intros m cs' [<-|[]] Hcs'. injection Hcs' as <-. reflexivity.
  - split; [reflexivity|]. split; [reflexivity|]. split; [reflexivity|].
    split; [|intros H; destruct (Hno H)].
    eexists. split; [reflexivity|]. split; [cbn; lia|].
    intros m cs' [<-|[]] Hcs'. injection Hcs' as <-. reflexivity.
Qed.

(** X14. Every row a user message adds to the store is authored by the
    sender, the reply of the chat function included, since the function
    stores it under the identifier of the user its token resolves to.
    When such a row arrives on the message channels, it is appended
    once for each open channel that takes it, and a channel takes it
    only if it was opened for another user than the sender. On a client
    whose channels were all opened for the sender the row is therefore
    dropped: the reply is not shown to the user who asked until the
    session is loaded again. *)
Theorem chat_reply_dropped_by_the_asker :
  forall (env : Env) (content : string) (w : World) (u : User.t),
    user (state w) = Some u ->
    (forall token, getSession env = Some token ->
                   getUser (edge env) token = Some u) ->
    let w' := sendMessage env content type_user w in
    forall m, In m (tbl_messages (db w')) ->
              ~ In m (tbl_messages (db w)) ->
              Message.user_id m = User.id u
              /\ messages (state (deliver (NewMessage m) w'))
                 = (messages (state w')
                    ++ repeat m
                         (List.length
                            (filter (takes_message m) (channels w))))%list
              /\ (forall c, In c (channels w) -> takes_message m c = true ->
                            User.id (closure_user c) <> User.id u)
              /\ ((forall c, In c (channels w) ->
                             User.id (closure_user c) = User.id u) ->
                  deliver (NewMessage m) w' = w').
Proof.
  intros env content w u Hu Htok w' m Hin Hnew.
  assert (Hch : channels w' = channels w).
  { unfold w', sendMessage. rewrite Hu.
    destruct (currentSession (state w)) as [cs|]; [|reflexivity].
    destruct (failure env InsertMessage); [reflexivity|].
    cbn [MessageType_eqb].
    rewrite (proj2 (call_chat_response_client _ _ _ _)). reflexivity. }
  assert (Hid : Message.user_id m = User.id u).
  { unfold w', sendMessage in Hin. rewrite Hu in Hin.
    destruct (currentSession (state w)) as [cs|]; [|contradiction].
    destruct (failure env InsertMessage); [contradiction|].
    cbn [MessageType_eqb] in Hin.
    match type of Hin with
    | context [call_chat_response env content cs ?w0] =>
        destruct (call_chat_response_rows env content cs w0)
          as [_ [_ [_ [added [D [_ Hall]]]]]]
    end.
    cbv zeta in D. rewrite D in Hin.
    cbn [db set with_db insert_message with_messages tbl_messages] in Hin.
    apply in_app_or in Hin. destruct Hin as [Hin|Hin].
    - apply in_app_or in Hin. destruct Hin as [Hin|[<-|[]]];
        [contradiction|reflexivity].
    - destruct (Hall m Hin) as [_ [_ [token [u' [Hs [Hg Hm]]]]]].
      rewrite (Htok token Hs) in Hg. injection Hg as <-. exact Hm. }
  split; [exact Hid|]. split; [|split].
  - rewrite deliver_message_copies, Hch. reflexivity.
  - intros c _ Ht Heq. unfold takes_message in Ht.
    destruct (binding c); try discriminate.
    rewrite Hid, Heq, String.eqb_refl, andb_false_r in Ht. discriminate.
  - intros Hc. apply deliver_own_message. rewrite Hch. intros c Hin'.
    rewrite Hid. apply Hc. exact Hin'.
Qed.

Module Scenario3.

(** Nothing fails, and the completion API answers. *)
Definition env : Env :=
  mkEnv (fun _ => None) (uuid Scenario.env) 50 (Some "token") (1 # 2) None
    Scenario.edge_up (fun s => s).

(** The row the chat function stores for Bob's question. *)
Definition reply : Message.t :=
  new_message "m-edge" 100 "s-public" "u-bob" "Hello!" type_ai.

(** The same surroundings a moment later: the generation function
    stores its rows under other identifiers. *)
Definition env_later : Env :=
  mkEnv (fun _ => None) (uuid Scenario.env2) 55 (Some "token") (1 # 2) None
    (mkEdgeEnv true (fun _ => Some Scenario.bob)
       (Ok (Some "print(1)"))
       (AnalysisParsed (JS.Number (JS.Fin (250 # 1))) None)
       (Ok (Some "Here is your file.")) (Ok (Some "Hello!"))
       (fun _ => JS.NaN) (fun _ => None)
       (fun q => match q with InsertMessage => "m-edge2" | _ => "f-edge2" end)
       101 "1700000001234" (fun s => s))
    (fun s => s).

End Scenario3.

Example reply_stored_but_not_shown :
  let w' := sendMessage Scenario3.env "hello" type_user Scenario.joined in
  map Message.id (tbl_messages (db w')) = ["m-1"; "m-new"; "m-edge"]
  /\ map Message.id (messages (state (deliver (NewMessage Scenario3.reply) w')))
     = ["m-1"; "m-new"]
  /\ map Message.id
       (messages (state (joinSession Scenario.env2 "s-public" w')))
     = ["m-1"; "m-new"; "m-edge"].
Proof. vm_compute. repeat split; reflexivity. Qed.

Example reply_shown_after_a_change_of_user :
  let w := Scenario9.alice_on_bobs_channels in
  let env :=
    mkEnv (fun _ => None) (uuid Scenario.env) 50 (Some "token") (1 # 2) None
      (mkEdgeEnv true (fun _ => Some Scenario.alice) (Ok None) AnalysisNotOk
         (Ok None) (Ok (Some "Hello!")) (fun _ => JS.NaN) (fun _ => None)
         (fun _ => "m-edge") 100 "1700000001234" (fun s => s))
      (fun s => s) in
  let reply := new_message "m-edge" 100 "s-public" "u-alice" "Hello!" type_ai in
  let w' := sendMessage env "hello" type_user w in
  map Message.id (messages (state (deliver (NewMessage reply) w')))
  = ["m-1"; "m-new"; "m-edge"].
Proof. vm_compute. reflexivity. Qed.

Lemma chat_reply_dropped_by_the_asker_witness :
  let w := Scenario.joined in
  let u := Scenario.bob in
  let m := Scenario3.reply in
  let w' := sendMessage Scenario3.env "hello" type_user w in
  Message.user_id m = User.id u
  /\ messages (state (deliver (NewMessage m) w'))
     = (messages (state w')
        ++ repeat m (List.length (filter (takes_message m) (channels w))))%list
  /\ (forall c, In c (channels w) -> takes_message m c = true ->
                User.id (closure_user c) <> User.id u)
  /\ ((forall c, In c (channels w) ->
                 User.id (closure_user c) = User.id u) ->
      deliver (NewMessage m) w' = w').
Proof.
  apply (chat_reply_dropped_by_the_asker Scenario3.env "hello" Scenario.joined
           Scenario.bob).
  - vm_compute. reflexivity.
  - intros token _. reflexivity.
  - vm_compute. right. right. left. reflexivity.
  - vm_compute. intros [H|[]]. discriminate H.
Defined.

(** What code generation has no business with: the signed-in user, the
    session list, the active session and its three local collections,
    and the tables of sessions and participants. *)
Definition generation_frame (w w' : World) : Prop :=
  user (state w') = user (state w)
  /\ sessions (state w') = sessions (state w)
  /\ view_of (state w') = view_of (state w)
  /\ tbl_sessions (db w') = tbl_sessions (db w)
  /\ tbl_session_participants (db w') = tbl_session_participants (db w).

Lemma generation_frame_refl (w : World) : generation_frame w w.
Proof. repeat split. Qed.

Lemma generation_frame_trans (w1 w2 w3 : World) :
  generation_frame w1 w2 -> generation_frame w2 w3 -> generation_frame w1 w3.
Proof.
  unfold generation_frame.
  intros [A [B [C [D E]]]] [A' [B' [C' [D' E']]]]. repeat split; congruence.
Qed.

Lemma frame_set_isLoading (b : bool) (w : World) :
  generation_frame w (set (set_isLoading b) w).
Proof. repeat split. Qed.

Lemma frame_set_error (e : option string) (w : World) :
  generation_frame w (set (set_error e) w).
Proof. repeat split. Qed.

Lemma frame_toast (t : Toast) (w : World) : generation_frame w (toast t w).
Proof. repeat split. Qed.

Lemma frame_with_db (d : Database) (w : World) :
  tbl_sessions d = tbl_sessions (db w) ->
  tbl_session_participants d = tbl_session_participants (db w) ->
  generation_frame w (with_db d w).
Proof. intros A B. repeat split; assumption. Qed.

Ltac frame_step lemma :=
  eapply generation_frame_trans; [|apply lemma].

Lemma frame_sendMessage_ai (env : Env) (content : string) (w : World) :
  generation_frame w (sendMessage env content type_ai w).
Proof.
  unfold sendMessage.
  destruct (user (state w)); [|apply frame_toast].
  destruct (currentSession (state w)); [|apply frame_toast].
  destruct (failure env InsertMessage).
  - frame_step frame_toast. apply frame_set_error.
  - cbn [MessageType_eqb]. apply frame_with_db; reflexivity.
Qed.

Lemma frame_generateMockCode (env : Env) (prompt : string) (w : World) :
  generation_frame w (useAppStore.generateMockCode env prompt w).
Proof.
  unfold useAppStore.generateMockCode.
  destruct (currentSession (state w)); [|apply generation_frame_refl].
  destruct (user (state w)); [|apply generation_frame_refl].
  frame_step frame_set_isLoading.
  destruct (failure env InsertCodeFile).
  - frame_step frame_toast. frame_step frame_set_error.
    apply frame_set_isLoading.
  - frame_step frame_toast. frame_step frame_sendMessage_ai.
    frame_step frame_with_db; [apply frame_set_isLoading| |]; reflexivity.
Qed.

Lemma GenerateCode_serve_tables (e : EdgeEnv) (req : GenerateCode.Request)
    (d : Database) :
  tbl_sessions (fst (GenerateCode.serve e req d)) = tbl_sessions d
  /\ tbl_session_participants (fst (GenerateCode.serve e req d))
     = tbl_session_participants d.
Proof.
  unfold GenerateCode.serve.
  destruct (GROQ_API_KEY e); cbn [negb]; [|split; reflexivity].
  destruct (GenerateCode.Authorization req) as [token|]; [|split; reflexivity].
  destruct (getUser e token); [|split; reflexivity].
  destruct (generation e); try (split; reflexivity).
  destruct (GenerateCode.analyse e) as [[h i]|]; [|split; reflexivity].
  destruct (edge_failure e InsertCodeFile); [split; reflexivity|].
  destruct (ai_response e); [split; reflexivity| |];
    destruct (edge_failure e InsertMessage); split; reflexivity.
Qed.

Lemma frame_invoke_generate_code (env : Env) (prompt : string)
    (cs : Session.t) (w : World) :
  generation_frame w (fst (invoke_generate_code env prompt cs w)).
Proof.
  unfold invoke_generate_code.
  destruct (getSession env) as [token|]; [|apply generation_frame_refl].
  destruct (invoke_failure env); [apply generation_frame_refl|].
  match goal with
  | |- context [GenerateCode.serve ?e ?r ?d] =>
      destruct (GenerateCode_serve_tables e r d) as [A B];
      destruct (GenerateCode.serve e r d) as [d' [f a|m]]
  end; cbn [fst] in *.
  - frame_step frame_toast. apply frame_with_db; assumption.
  - apply frame_with_db; assumption.
Qed.

(** X15. [generateCode] never touches the local lists: the user, the
    session list, the active session and the local messages, code
    files and participants are what they were, whichever way the
    generation went (function, fallback, or neither), and so are the
    channels and the tables of sessions and participants. A generated
    file or message reaches the local lists only through the realtime
    channel or the next join. With a user and an active session the
    loading flag ends cleared. *)
Theorem generateCode_leaves_local_lists :
  forall (env : Env) (prompt : string) (w : World),
    let w' := generateCode env prompt w in
    user (state w') = user (state w)
    /\ sessions (state w') = sessions (state w)
    /\ view_of (state w') = view_of (state w)
    /\ tbl_sessions (db w') = tbl_sessions (db w)
    /\ tbl_session_participants (db w') = tbl_session_participants (db w)
    /\ channels w' = channels w
    /\ (user (state w) <> None -> currentSession (state w) <> None ->
        isLoading (state w') = false).
Proof.
  intros env prompt w w'.
  assert (F : generation_frame w w').
  { unfold w', generateCode.
    destruct (currentSession (state w)) as [cs|]; [|apply frame_toast].
    destruct (user (state w)); [|apply frame_toast].
    frame_step frame_set_isLoading.
    pose proof (frame_invoke_generate_code env prompt cs
                  (set (set_isLoading true) w)) as H.
    destruct (invoke_generate_code env prompt cs (set (set_isLoading true) w))
      as [w2 [m|]]; cbn [fst] in H.
    - frame_step frame_generateMockCode. frame_step frame_set_error.
      eapply generation_frame_trans; [apply frame_set_isLoading|exact H].
    - eapply generation_frame_trans; [apply frame_set_isLoading|exact H]. }
  destruct F as [A [B [C [D E]]]].
  split; [exact A|]. split; [exact B|]. split; [exact C|].
  split; [exact D|]. split; [exact E|].
  split; [exact (proj1 (generateCode_realtime env prompt w))|].
  intros Hu Hcs. unfold w', generateCode.
  destruct (currentSession (state w)); [|destruct (Hcs eq_refl)].
  destruct (user (state w)); [|destruct (Hu eq_refl)].
  reflexivity.
Qed.

(** X16. When the generation function answers with success, the
    fallback does not run: the database is the one the function left,
    with its one file appended to [code_files]; the stored error is
    untouched, the toast names the file, and the file is not yet in the
    local list. *)
Theorem generateCode_through_the_function :
  forall (env : Env) (prompt : string) (w : World) (u : User.t)
         (cs : Session.t) (token : string) (f : CodeFile.t) (text : string),
    user (state w) = Some u ->
    currentSession (state w) = Some cs ->
    getSession env = Some token ->
    invoke_failure env = None ->
    let req :=
      GenerateCode.mkRequest prompt (Session.language cs)
        ("Session: " ++ Session.name cs) (Session.id cs)
        (map (fun f => (CodeFile.filename f, CodeFile.content f))
           (codeFiles (state w)))
        (Some token) in
    snd (GenerateCode.serve (edge env) req (db w))
    = GenerateCode.Success f text ->
    let w' := generateCode env prompt w in
    db w' = fst (GenerateCode.serve (edge env) req (db w))
    /\ tbl_code_files (db w') = (tbl_code_files (db w) ++ [f])%list
    /\ CodeFile.session_id f = Session.id cs
    /\ codeFiles (state w') = codeFiles (state w)
    /\ error (state w') = error (state w)
    /\ isLoading (state w') = false
    /\ toasts w'
       = (toasts w ++ [toast_success ("Generated " ++ CodeFile.filename f)])%list.
Proof.
  intros env prompt w u cs token f text Hu Hcs Hs Hi req Hok w'.
  assert (Hfile : tbl_code_files (fst (GenerateCode.serve (edge env) req (db w)))
                  = (tbl_code_files (db w) ++ [f])%list
                  /\ CodeFile.session_id f = Session.id cs).
  { revert Hok. unfold GenerateCode.serve.
    destruct (GROQ_API_KEY (edge env)); cbn [negb]; [|discriminate].
    destruct (GenerateCode.Authorization req) as [tk|]; [|discriminate].
    destruct (getUser (edge env) tk); [|discriminate].
    destruct (generation (edge env)); try discriminate.
    destruct (GenerateCode.analyse (edge env)) as [[h i]|]; [|discriminate].
    destruct (edge_failure (edge env) InsertCodeFile); [discriminate|].
    destruct (ai_response (edge env)); [discriminate| |];
      destruct (edge_failure (edge env) InsertMessage); cbn [fst snd];
      intros H; injection H as <- _; split; reflexivity. }
  assert (E : w' = set (set_isLoading false)
                     (toast (toast_success ("Generated " ++ CodeFile.filename f))
                        (with_db (fst (GenerateCode.serve (edge env) req (db w)))
                           (set (set_isLoading true) w)))).
  { unfold w', generateCode, invoke_generate_code. rewrite Hu, Hcs, Hs, Hi.
    cbn [state set db codeFiles set_isLoading].
    fold req. destruct (GenerateCode.serve (edge env) req (db w)) as [d r].
    cbn [snd] in Hok. rewrite Hok. reflexivity. }
  rewrite E. cbn [db set toast with_db state toasts].
  split; [reflexivity|]. split; [exact (proj1 Hfile)|].
  split; [exact (proj2 Hfile)|]. repeat split.
Qed.

Example function_answers_in_scenario :
  let w' := generateCode Scenario3.env "sort a list" Scenario.joined in
  map (fun f => (CodeFile.id f, CodeFile.filename f, CodeFile.health_score f))
    (tbl_code_files (db w'))
  = [("f-edge", "generated-1234.py", Some (JS.Fin (100 # 1)))]
  /\ map Message.id (tbl_messages (db w')) = ["m-1"; "m-edge"]
  /\ codeFiles (state w') = [].
Proof. vm_compute. repeat split; reflexivity. Qed.

Lemma generateCode_through_the_function_witness :
  let w := Scenario.joined in
  let f :=
    new_code_file "f-edge" 100 "s-public" "generated-1234.py" "print(1)"
      "python" (JS.Fin (100 # 1)) "[]" in
  let req :=
    GenerateCode.mkRequest "sort a list" python "Session: Open room" "s-public"
      [] (Some "token") in
  let w' := generateCode Scenario3.env "sort a list" w in
  db w' = fst (GenerateCode.serve Scenario.edge_up req (db w))
  /\ tbl_code_files (db w') = (tbl_code_files (db w) ++ [f])%list
  /\ CodeFile.session_id f = "s-public"
  /\ codeFiles (state w') = codeFiles (state w)
  /\ error (state w') = error (state w)
  /\ isLoading (state w') = false
  /\ toasts w'
     = (toasts w ++ [toast_success ("Generated " ++ CodeFile.filename f)])%list.
Proof.
  apply (generateCode_through_the_function Scenario3.env "sort a list"
           Scenario.joined Scenario.bob Scenario.public_session "token"
           (new_code_file "f-edge" 100 "s-public" "generated-1234.py" "print(1)"
              "python" (JS.Fin (100 # 1)) "[]")
           "Here is your file.").
  - vm_compute. reflexivity.
  - vm_compute. reflexivity.
  - reflexivity.
  - reflexivity.
  - vm_compute. reflexivity.
Defined.

(* ------------------------------------------------------------------ *)
(** ** File names and keywords of the two generators *)

Lemma lower_ascii_idempotent (c : ascii) :
  lower_ascii (lower_ascii c) = lower_ascii c.
Proof. destruct c as [[] [] [] [] [] [] [] []]; reflexivity. Qed.

Lemma lower_ascii_text_idempotent (s : string) :
  lower_ascii_text (lower_ascii_text s) = lower_ascii_text s.
Proof.
  induction s as [|c s IH]; cbn; [reflexivity|].
  rewrite lower_ascii_idempotent, IH. reflexivity.
Qed.

Lemma lower_ascii_below_128 (c : ascii) :
  (nat_of_ascii (lower_ascii c) <? 128)%nat = (nat_of_ascii c <? 128)%nat.
Proof. destruct c as [[] [] [] [] [] [] [] []]; reflexivity. Qed.

Lemma lower_ascii_text_is_ascii (s : string) :
  is_ascii (lower_ascii_text s) = is_ascii s.
Proof.
  induction s as [|c s IH]; cbn [lower_ascii_text is_ascii]; [reflexivity|].
  rewrite lower_ascii_below_128, IH. reflexivity.
Qed.

(** On ASCII texts lower-casing is idempotent, whatever the runtime
    does elsewhere. *)
Lemma toLowerCase_idempotent (L : string -> string) (s : string) :
  is_ascii s = true ->
  toLowerCase L (toLowerCase L s) = toLowerCase L s.
Proof.
  intros H. unfold toLowerCase.
  rewrite H, lower_ascii_text_is_ascii, H. apply lower_ascii_text_idempotent.
Qed.

(** The extension a file of the given language gets. *)
Definition extension (language : Language) : string :=
  match language with javascript => ".js" | python => ".py" end.

(** X17. Both generators name their file after the session's language:
    the name the generation function picks and the name the fallback
    picks end in ".js" for javascript and ".py" for python, whatever
    the prompt. *)
Theorem generated_filenames_carry_the_extension :
  forall (e : EdgeEnv) (L : string -> string) (prompt : string)
         (language : Language),
    (exists stem,
        GenerateCode.generateFilename e prompt language
        = stem ++ extension language)
    /\ (exists stem,
           MockCode.filename (Mock.generateMockCode L prompt language)
           = stem ++ extension language).
Proof.
  intros e L prompt language. split.
  - unfold GenerateCode.generateFilename. cbv zeta.
    destruct language;
      repeat match goal with
             | |- context [if ?b then _ else _] => destruct b
             end;
      first [ exists "todo-app"; reflexivity
            | exists "calculator"; reflexivity
            | exists "api-server"; reflexivity
            | exists "auth"; reflexivity
            | exists "database"; reflexivity
            | exists "component"; reflexivity
            | exists "utils"; reflexivity
            | exists ("generated-" ++ slice_last4 (Date_now e)); reflexivity ].
  - unfold Mock.generateMockCode. cbv zeta.
    destruct language;
      repeat match goal with
             | |- context [if ?b then _ else _] => destruct b
             end;
      first [ exists "TodoApp"; reflexivity
            | exists "todo_app"; reflexivity
            | exists "Calculator"; reflexivity
            | exists "calculator"; reflexivity
            | exists "app"; reflexivity ].
Qed.

(** X18. Neither generator looks at the case of an ASCII prompt:
    lower-casing the prompt beforehand changes neither the file name
    the generation function picks nor the template the fallback picks,
    whatever the runtime's conversion does to other texts. *)
Theorem keywords_match_in_any_case :
  forall (e : EdgeEnv) (L : string -> string) (prompt : string)
         (language : Language),
    is_ascii prompt = true ->
    GenerateCode.generateFilename e
      (toLowerCase (Deno_toLowerCase e) prompt) language
    = GenerateCode.generateFilename e prompt language
    /\ Mock.generateMockCode L (toLowerCase L prompt) language
       = Mock.generateMockCode L prompt language.
Proof.
  intros e L prompt language H.
  unfold GenerateCode.generateFilename, Mock.generateMockCode.
  rewrite !(toLowerCase_idempotent _ _ H). split; reflexivity.
Qed.

Example shouted_prompt (L : string -> string) :
  MockCode.filename (Mock.generateMockCode L "Build A TODO App" python)
  = "todo_app.py"
  /\ toLowerCase L "Build A TODO App" = "build a todo app".
Proof. vm_compute. split; reflexivity. Qed.

Lemma keywords_match_in_any_case_witness :
  GenerateCode.generateFilename Scenario.edge_up
    (toLowerCase (Deno_toLowerCase Scenario.edge_up) "Build A TODO App")
    python
  = GenerateCode.generateFilename Scenario.edge_up "Build A TODO App" python
  /\ Mock.generateMockCode (fun s => s)
       (toLowerCase (fun s => s) "Build A TODO App") python
     = Mock.generateMockCode (fun s => s) "Build A TODO App" python.
Proof.
  apply (keywords_match_in_any_case Scenario.edge_up (fun s => s)
           "Build A TODO App" python).
  reflexivity.
Defined.

(* ------------------------------------------------------------------ *)
(** ** [createSession] and the form that calls it *)

Lemma loadSessions_frame (env : Env) (w : World) :
  let w' := loadSessions env w in
  db w' = db w
  /\ view_of (state w') = view_of (state w)
  /\ user (state w') = user (state w)
  /\ channels w' = channels w.
Proof.
  unfold loadSessions, loadSessions_failed.
  destruct (user (state w)) eqn:Hu; [|repeat split; exact Hu].
  destruct (query env SelectOwnedSessions _);
    [destruct (query env SelectParticipantSessions _)|];
    repeat split; exact Hu.
Qed.

Lemma insert_session_rows (env : Env) (s : Session.t) (d d1 : Database) :
  insert_session env s d = Data d1 ->
  d1 = with_sessions (tbl_sessions d ++ [s]) d
  /\ failure env InsertSession = None
  /\ forall s', In s' (tbl_sessions d) -> Session.id s' <> Session.id s.
Proof.
  unfold insert_session. destruct (failure env InsertSession); [discriminate|].
  destruct (existsb _ (tbl_sessions d)) eqn:E; [discriminate|].
  intros H. injection H as <-. split; [reflexivity|]. split; [reflexivity|].
  intros s' Hin Hid.
  assert (Hex : existsb (fun s' => String.eqb (Session.id s') (Session.id s))
                  (tbl_sessions d) = true).
  { apply existsb_exists. exists s'. split; [exact Hin|].
    apply String.eqb_eq. exact Hid. }
  congruence.
Qed.

Lemma insert_participant_rows (env : Env) (p : SessionParticipant.t)
    (d : Database) :
  let d' := match insert_participant env p d with
            | Error _ => d
            | Data d' => d'
            end in
  tbl_sessions d' = tbl_sessions d
  /\ tbl_messages d' = tbl_messages d
  /\ tbl_code_files d' = tbl_code_files d
  /\ (d' = d
      \/ tbl_session_participants d' = (tbl_session_participants d ++ [p])%list
         /\ existsb (same_pair (SessionParticipant.session_id p)
                       (SessionParticipant.user_id p))
              (tbl_session_participants d) = false).
Proof.
  unfold insert_participant.
  destruct (failure env InsertParticipant); [repeat split; left; reflexivity|].
  destruct (existsb _ (tbl_session_participants d)); cbn [orb];
    [repeat split; left; reflexivity|].
  destruct (existsb _ (tbl_session_participants d)) eqn:E;
    [repeat split; left; reflexivity|].
  repeat split. right. split; reflexivity.
Qed.

(** The world [createSession] leaves when the insert of the session
    went through, before the list is loaded again. *)
Definition created (env : Env) (u : User.t) (data : Session.t) (d1 : Database)
    (w : World) : World :=
  toast (toast_success "Session created successfully!")
    (set (set_isLoading false)
       (with_db
          match insert_participant env
                  (SessionParticipant.mk (uuid env InsertParticipant)
                     (Session.id data) (User.id u) owner (now env) (now env))
                  d1 with
          | Error _ => d1
          | Data d => d
          end
          (set (fun s => set_error None (set_isLoading true s)) w))).

Lemma createSession_shape (env : Env) (name description : string)
    (language : Language) (w : World) (u : User.t) :
  user (state w) = Some u ->
  let data :=
    new_session (uuid env InsertSession) (now env) name description
      (User.id u) language in
  (exists m,
      createSession env name description language w
      = (toast (toast_error "Failed to create session")
           (set (fun s => set_isLoading false (set_error (Some m) s))
              (set (fun s => set_error None (set_isLoading true s)) w)),
         None)
      /\ insert_session env data (db w) = Error m)
  \/ (exists d1,
         createSession env name description language w
         = (loadSessions env (created env u data d1 w), Some data)
         /\ insert_session env data (db w) = Data d1).
Proof.
  intros Hu data. unfold createSession. rewrite Hu. cbv zeta.
  change (db (set (fun s => set_error None (set_isLoading true s)) w))
    with (db w).
  fold data. destruct (insert_session env data (db w)) as [d1|m].
  - right. exists d1. split; reflexivity.
  - left. exists m. split; reflexivity.
Qed.

Lemma created_fields (env : Env) (u : User.t) (data : Session.t)
    (d1 : Database) (w : World) :
  user (state (created env u data d1 w)) = user (state w)
  /\ view_of (state (created env u data d1 w)) = view_of (state w)
  /\ channels (created env u data d1 w) = channels w
  /\ sessions (state (created env u data d1 w)) = sessions (state w)
  /\ error (state (created env u data d1 w)) = None
  /\ db (created env u data d1 w)
     = match insert_participant env
               (SessionParticipant.mk (uuid env InsertParticipant)
                  (Session.id data) (User.id u) owner (now env) (now env))
               d1 with
       | Error _ => d1
       | Data d => d
       end.
Proof. repeat split. Qed.

(** X19. What [createSession] resolves to tells what it wrote. With
    [null] the database is as it was and so is the session list. With
    a session, that session is the one row appended to [sessions]: it
    belongs to the signed-in user, is private, and carries the given
    name and language; at most one participant row is added, making
    that user the owner of that session; messages and code files are
    not touched. Either way the active session, its collections and
    the channels stay as they were: creating a session does not enter
    it. *)
Theorem createSession_result :
  forall (env : Env) (name description : string) (language : Language)
         (w : World),
    let w' := fst (createSession env name description language w) in
    view_of (state w') = view_of (state w)
    /\ channels w' = channels w
    /\ tbl_messages (db w') = tbl_messages (db w)
    /\ tbl_code_files (db w') = tbl_code_files (db w)
    /\ match snd (createSession env name description language w) with
       | None => db w' = db w /\ sessions (state w') = sessions (state w)
       | Some s =>
           exists u,
             user (state w) = Some u
             /\ tbl_sessions (db w') = (tbl_sessions (db w) ++ [s])%list
             /\ Session.owner_id s = User.id u
             /\ Session.is_public s = false
             /\ Session.name s = name
             /\ Session.language s = language
             /\ (tbl_session_participants (db w')
                 = tbl_session_participants (db w)
                 \/ exists p,
                      tbl_session_participants (db w')
                      = (tbl_session_participants (db w) ++ [p])%list
                      /\ SessionParticipant.session_id p = Session.id s
                      /\ SessionParticipant.user_id p = User.id u
                      /\ SessionParticipant.role p = owner)
       end.
Proof.
  intros env name description language w w'. unfold w'. clear w'.
  destruct (user (state w)) as [u|] eqn:Hu.
  - destruct (createSession_shape env name description language w u Hu)
      as [[m [-> _]]|[d1 [-> Hins]]]; cbn [fst snd].
    + repeat split.
    + destruct (loadSessions_frame env
                  (created env u
                     (new_session (uuid env InsertSession) (now env) name
                        description (User.id u) language) d1 w))
        as [Hdb [Hv [_ Hc]]].
      cbv zeta in Hdb, Hv, Hc. rewrite Hdb, Hv, Hc.
      destruct (created_fields env u
                  (new_session (uuid env InsertSession) (now env) name
                     description (User.id u) language) d1 w)
        as [_ [Fv [Fc [_ [_ Fdb]]]]].
      rewrite Fv, Fc, Fdb.
      apply insert_session_rows in Hins. destruct Hins as [-> _].
      match goal with
      | |- context [insert_participant env ?p ?d] =>
          destruct (insert_participant_rows env p d) as [A [B [C D]]]
      end.
      cbv zeta in A, B, C, D.
      split; [reflexivity|]. split; [reflexivity|].
      split; [exact B|]. split; [exact C|].
      exists u. split; [reflexivity|]. split; [exact A|].
      split; [reflexivity|]. split; [reflexivity|].
      split; [reflexivity|]. split; [reflexivity|].
      destruct D as [D|[D _]].
      * left. rewrite D. reflexivity.
      * right. eexists. split; [exact D|]. repeat split.
  - unfold createSession. rewrite Hu. cbn [fst snd]. repeat split.
Qed.

(** X20. A session created by a signed-in user shows up in that user's
    session list right away, when the generated identifier is new, the
    insert of the session goes through and the two reads that reload
    the list succeed; this does not depend on the participant row
    having been written. *)
Theorem createSession_lists_the_session :
  forall (env : Env) (name description : string) (language : Language)
         (w : World) (u : User.t),
    user (state w) = Some u ->
    NoDup (map Session.id (tbl_sessions (db w))) ->
    (forall s, In s (tbl_sessions (db w)) ->
               Session.id s <> uuid env InsertSession) ->
    failure env InsertSession = None ->
    failure env SelectOwnedSessions = None ->
    failure env SelectParticipantSessions = None ->
    let r := createSession env name description language w in
    exists s,
      snd r = Some s
      /\ Session.id s = uuid env InsertSession
      /\ In s (sessions (state (fst r)))
      /\ NoDup (map Session.id (sessions (state (fst r))))
      /\ error (state (fst r)) = None
      /\ isLoading (state (fst r)) = false.
Proof.
  intros env name description language w u Hu Hpk Hfresh Hi Ho Hp r.
  set (data := new_session (uuid env InsertSession) (now env) name description
                 (User.id u) language).
  assert (Hins : insert_session env data (db w)
                 = Data (with_sessions (tbl_sessions (db w) ++ [data]) (db w))).
  { unfold insert_session. rewrite Hi.
    destruct (existsb _ (tbl_sessions (db w))) eqn:E; [|reflexivity].
    apply existsb_exists in E. destruct E as [s' [Hin Hid]].
    apply String.eqb_eq in Hid. destruct (Hfresh s' Hin Hid). }
  destruct (createSession_shape env name description language w u Hu)
    as [[m [_ Hm]]|[d1 [E Hd1]]]; fold data in Hm || fold data in Hd1, E.
  - rewrite Hins in Hm. discriminate Hm.
  - rewrite Hins in Hd1. injection Hd1 as <-.
    exists data. unfold r. rewrite E. cbn [fst snd].
    set (w3 := created env u data
                 (with_sessions (tbl_sessions (db w) ++ [data]) (db w)) w).
    assert (Hu3 : user (state w3) = Some u) by exact Hu.
    assert (Hs3 : tbl_sessions (db w3) = (tbl_sessions (db w) ++ [data])%list).
    { unfold w3.
      rewrite (proj2 (proj2 (proj2 (proj2 (proj2
                 (created_fields env u data _ w)))))).
      match goal with
      | |- context [insert_participant env ?p ?d] =>
          destruct (insert_participant_rows env p d) as [A _]
      end.
      exact A. }
    assert (Hpk3 : NoDup (map Session.id (tbl_sessions (db w3)))).
    { rewrite Hs3, map_app. apply NoDup_app; [exact Hpk| |].
      - repeat constructor. intros [].
      - intros i Hin [<-|[]]. apply in_map_iff in Hin.
        destruct Hin as [s' [Hid Hin]]. exact (Hfresh s' Hin Hid). }
    assert (El : loadSessions env w3
                 = set (fun s =>
                          set_isLoading false
                            (set_sessions
                               (combine_sessions
                                  (select_owned_sessions (db w3) (User.id u))
                                  (select_participant_sessions (db w3)
                                     (User.id u))) s))
                     (set (fun s => set_error None (set_isLoading true s)) w3)).
    { unfold loadSessions. rewrite Hu3. unfold query. rewrite Ho, Hp.
      reflexivity. }
    rewrite El. cbn [state set sessions set_sessions set_isLoading set_error
                       error isLoading].
    split; [reflexivity|]. split; [reflexivity|].
    split; [|split; [|split; reflexivity]].
    + apply combine_sessions_complete; [exact Hpk3|].
      split; [|apply can_view_own_or_public; left; reflexivity].
      split; [|left; reflexivity].
      rewrite Hs3. apply in_or_app. right. left. reflexivity.
    + apply combine_sessions_NoDup, Hpk3.
Qed.

Module Scenario5.

(** The surroundings of [Scenario], with the identifiers the store
    generates for a new session and its owner row. *)
Definition env : Env :=
  mkEnv (fun _ => None)
    (fun q => match q with
              | InsertSession => "s-new"
              | InsertParticipant => "p-own"
              | other => uuid Scenario.env other
              end)
    50 (Some "token") (1 # 2) None Scenario.edge_down (fun s => s).

End Scenario5.

Example create_in_scenario :
  let r := createSession Scenario5.env "Bob's room" "" javascript
             Scenario.signed_in in
  map Session.id (sessions (state (fst r))) = ["s-new"]
  /\ map (fun p => (SessionParticipant.session_id p, SessionParticipant.role p))
       (rows_for "s-new" "u-bob" (db (fst r)))
     = [("s-new", owner)].
Proof. vm_compute. split; reflexivity. Qed.

Lemma createSession_lists_the_session_witness :
  let r := createSession Scenario5.env "Bob's room" "" javascript
             Scenario.signed_in in
  exists s,
    snd r = Some s
    /\ Session.id s = uuid Scenario5.env InsertSession
    /\ In s (sessions (state (fst r)))
    /\ NoDup (map Session.id (sessions (state (fst r))))
    /\ error (state (fst r)) = None
    /\ isLoading (state (fst r)) = false.
Proof.
  apply (createSession_lists_the_session Scenario5.env "Bob's room" ""
           javascript Scenario.signed_in Scenario.bob).
  - reflexivity.
  - exact (sessions_pkey _ scenario_constraints).
  - vm_compute. intros s [<-|[<-|[<-|[]]]]; discriminate.
  - reflexivity.
  - reflexivity.
  - reflexivity.
Defined.

Lemma rows_for_app (sid uid : Id) (d : Database) (p : SessionParticipant.t) :
  existsb (same_pair (SessionParticipant.session_id p)
             (SessionParticipant.user_id p))
    (tbl_session_participants d) = false ->
  (List.length (filter (same_pair sid uid) (tbl_session_participants d)) <= 1)%nat ->
  (List.length
     (filter (same_pair sid uid) (tbl_session_participants d ++ [p])) <= 1)%nat.
Proof.
  intros Hex Hle. rewrite filter_app, length_app. cbn.
  destruct (same_pair sid uid p) eqn:E; cbn; [|lia].
  assert (Hp : same_pair (SessionParticipant.session_id p)
                 (SessionParticipant.user_id p) p = true).
  { unfold same_pair. rewrite !String.eqb_refl. reflexivity. }
  destruct (same_pair_eq _ _ _ _ p Hp E) as [-> ->].
  rewrite (existsb_false_filter _ _ Hex). cbn. lia.
Qed.

(** X21. [createSession] keeps the keys of the tables: identifiers of
    sessions stay distinct and no pair of session and user gets a
    second participant row, whatever fails and whatever identifiers
    are generated. *)
Theorem createSession_keeps_constraints :
  forall (env : Env) (name description : string) (language : Language)
         (w : World),
    constraints (db w) ->
    constraints (db (fst (createSession env name description language w))).
Proof.
  intros env name description language w H.
  destruct (user (state w)) as [u|] eqn:Hu.
  - destruct (createSession_shape env name description language w u Hu)
      as [[m [-> _]]|[d1 [-> Hins]]]; cbn [fst]; [exact H|].
    rewrite (proj1 (loadSessions_frame env _)).
    rewrite (proj2 (proj2 (proj2 (proj2 (proj2
               (created_fields env u _ d1 w)))))).
    apply insert_session_rows in Hins. destruct Hins as [-> [_ Hfresh]].
    match goal with
    | |- context [insert_participant env ?p ?d] =>
        destruct (insert_participant_rows env p d) as [A [_ [_ D]]]
    end.
    cbv zeta in A, D. destruct H as [Hpk Hun]. split.
    + rewrite A. cbn [tbl_sessions with_sessions]. rewrite map_app.
      apply NoDup_app; [exact Hpk| |].
      * repeat constructor. intros [].
      * intros i Hin [<-|[]]. apply in_map_iff in Hin.
        destruct Hin as [s' [Hid Hin]]. exact (Hfresh s' Hin Hid).
    + intros sid uid. unfold rows_for. destruct D as [->|[-> Hex]].
      * exact (Hun sid uid).
      * apply rows_for_app; [exact Hex|exact (Hun sid uid)].
  - unfold createSession. rewrite Hu. exact H.
Qed.

Lemma createSession_keeps_constraints_witness :
  constraints
    (db (fst (createSession Scenario5.env "Bob's room" "" javascript
                Scenario.signed_in))).
Proof.
  apply (createSession_keeps_constraints Scenario5.env "Bob's room" ""
           javascript Scenario.signed_in).
  exact scenario_constraints.
Defined.

Lemma NoDup_ids_app (l : list Session.t) (s : Session.t) :
  NoDup (map Session.id l) ->
  (forall s', In s' l -> Session.id s' <> Session.id s) ->
  NoDup (map Session.id (l ++ [s])).
Proof.
  intros Hpk Hfresh. rewrite map_app. apply NoDup_app; [exact Hpk| |].
  - repeat constructor. intros [].
  - intros i Hin [<-|[]]. apply in_map_iff in Hin.
    destruct Hin as [s' [Hid Hin]]. exact (Hfresh s' Hin Hid).
Qed.

Lemma createSession_succeeds (env : Env) (name description : string)
    (language : Language) (w : World) (u : User.t) :
  user (state w) = Some u ->
  (forall s, In s (tbl_sessions (db w)) ->
             Session.id s <> uuid env InsertSession) ->
  failure env InsertSession = None ->
  let data :=
    new_session (uuid env InsertSession) (now env) name description
      (User.id u) language in
  exists w1,
    createSession env name description language w = (w1, Some data)
    /\ user (state w1) = Some u
    /\ tbl_sessions (db w1) = (tbl_sessions (db w) ++ [data])%list.
Proof.
  intros Hu Hfresh Hi data.
  assert (Hins : insert_session env data (db w)
                 = Data (with_sessions (tbl_sessions (db w) ++ [data]) (db w))).
  { unfold insert_session. rewrite Hi.
    destruct (existsb _ (tbl_sessions (db w))) eqn:E; [|reflexivity].
    apply existsb_exists in E. destruct E as [s' [Hin Hid]].
    apply String.eqb_eq in Hid. destruct (Hfresh s' Hin Hid). }
  destruct (createSession_shape env name description language w u Hu)
    as [[m [_ Hm]]|[d1 [E Hd1]]]; fold data in Hm || fold data in Hd1, E.
  - rewrite Hins in Hm. discriminate Hm.
  - rewrite Hins in Hd1. injection Hd1 as <-.
    eexists. split; [exact E|].
    destruct (loadSessions_frame env
                (created env u data
                   (with_sessions (tbl_sessions (db w) ++ [data]) (db w)) w))
      as [Hdb [_ [Hus _]]].
    cbv zeta in Hdb, Hus. rewrite Hdb, Hus. split; [exact Hu|].
    rewrite (proj2 (proj2 (proj2 (proj2 (proj2
               (created_fields env u data _ w)))))).
    match goal with
    | |- context [insert_participant env ?p ?d] =>
        destruct (insert_participant_rows env p d) as [A _]
    end.
    exact A.
Qed.

(** A session of the table that its owner, or anyone if it is public,
    asks to join is entered, provided the read of the session works. *)
Lemma joinSession_of_accessible (env : Env) (w : World) (u : User.t)
    (s : Session.t) :
  user (state w) = Some u ->
  NoDup (map Session.id (tbl_sessions (db w))) ->
  In s (tbl_sessions (db w)) ->
  failure env SelectSession = None ->
  Session.owner_id s = User.id u \/ Session.is_public s = true ->
  joinSession env (Session.id s) w = entered env (Session.id s) u s w.
Proof.
  intros Hu Hpk Hin Hf Hacc.
  apply (joinSession_enters env (Session.id s) w u s Hu).
  - rewrite (query_ok env _ _ Hf),
      (select_session_pkey (db w) (User.id u) s Hpk Hin
         (can_view_own_or_public _ _ Hacc)).
    reflexivity.
  - unfold admitted. destruct Hacc as [Ho|Hp].
    + rewrite Ho, String.eqb_refl. reflexivity.
    + rewrite Hp. apply orb_true_iff. left. apply orb_true_r.
Qed.

(** X22. Submitting the new-session form with a name that is not blank
    creates the session and enters it: the active session is the new
    one, owned by the user, private, in javascript, under the name as
    typed (it is not trimmed); the join that follows writes nothing,
    its user being the owner. Needed: a new identifier, the insert of
    the session and the read of it by the join going through. *)
Theorem handleCreateSession_enters_the_new_session :
  forall (trim : string -> string) (env env' : Env) (newSessionName : string)
         (w : World) (u : User.t),
    trim newSessionName <> "" ->
    user (state w) = Some u ->
    NoDup (map Session.id (tbl_sessions (db w))) ->
    (forall s, In s (tbl_sessions (db w)) ->
               Session.id s <> uuid env InsertSession) ->
    failure env InsertSession = None ->
    failure env' SelectSession = None ->
    let w' := handleCreateSession trim env env' newSessionName w in
    exists s,
      currentSession (state w') = Some s
      /\ Session.id s = uuid env InsertSession
      /\ Session.name s = newSessionName
      /\ Session.owner_id s = User.id u
      /\ Session.is_public s = false
      /\ Session.language s = javascript
      /\ error (state w') = None
      /\ tbl_sessions (db w') = (tbl_sessions (db w) ++ [s])%list
      /\ db w' = db (fst (createSession env newSessionName "" javascript w)).
Proof.
  intros trim env env' name w u Hname Hu Hpk Hfresh Hi Hs w'.
  destruct (createSession_succeeds env name "" javascript w u Hu Hfresh Hi)
    as [w1 [E [Hu1 Ht1]]].
  set (data := new_session (uuid env InsertSession) (now env) name ""
                 (User.id u) javascript) in *.
  assert (Hjoin : w' = entered env' (Session.id data) u data w1).
  { unfold w', handleCreateSession. apply String.eqb_neq in Hname.
    rewrite Hname, E.
    apply joinSession_of_accessible.
    - exact Hu1.
    - rewrite Ht1. apply NoDup_ids_app; [exact Hpk|exact Hfresh].
    - rewrite Ht1. apply in_or_app. right. left. reflexivity.
    - exact Hs.
    - left. reflexivity. }
  destruct (entered_client env' (Session.id data) u data w1) as [Hdb Hst].
  assert (Hown : join_db env' (Session.id data) u data (db w1) = db w1).
  { unfold join_db. change (Session.owner_id data) with (User.id u).
    rewrite String.eqb_refl. reflexivity. }
  destruct (installing_fields env' (Session.id data) data
              (join_db env' (Session.id data) u data (db w1))
              (set_error None (set_isLoading true (state w1))))
    as [_ [Ierr [Ics _]]].
  exists data. rewrite Hjoin, Hst, Ics, Ierr, Hdb, Hown, E.
  repeat split. exact Ht1.
Qed.

Example form_in_scenario :
  let w' := handleCreateSession (fun s => s) Scenario5.env Scenario.env2
              "Bob's room" Scenario.signed_in in
  option_map Session.name (currentSession (state w')) = Some "Bob's room"
  /\ map (fun c => (binding c, filter_session_id c)) (channels w')
     = [(INSERT_messages, "s-new"); (INSERT_code_files, "s-new");
        (UPDATE_code_files, "s-new")].
Proof. vm_compute. split; reflexivity. Qed.

Lemma handleCreateSession_enters_the_new_session_witness :
  let w' := handleCreateSession (fun s => s) Scenario5.env Scenario.env2
              "Bob's room" Scenario.signed_in in
  exists s,
    currentSession (state w') = Some s
    /\ Session.id s = uuid Scenario5.env InsertSession
    /\ Session.name s = "Bob's room"
    /\ Session.owner_id s = User.id Scenario.bob
    /\ Session.is_public s = false
    /\ Session.language s = javascript
    /\ error (state w') = None
    /\ tbl_sessions (db w')
       = (tbl_sessions (db Scenario.signed_in) ++ [s])%list
    /\ db w'
       = db (fst (createSession Scenario5.env "Bob's room" "" javascript
                    Scenario.signed_in)).
Proof.
  apply (handleCreateSession_enters_the_new_session (fun s => s) Scenario5.env
           Scenario.env2 "Bob's room" Scenario.signed_in Scenario.bob).
  - discriminate.
  - reflexivity.
  - exact (sessions_pkey _ scenario_constraints).
  - vm_compute. intros s [<-|[<-|[<-|[]]]]; discriminate.
  - reflexivity.
  - reflexivity.
Defined.

(* ------------------------------------------------------------------ *)
(** ** [updateCodeFile] and the editor that calls it *)

(** The local list after a save of [content] into file [fileId]. *)
Definition saved_locally (fileId : Id) (content : string) (s : AppState)
    : AppState :=
  set_codeFiles
    (map (fun file => if String.eqb (CodeFile.id file) fileId
                      then with_content content file else file)
       (codeFiles s)) s.

(** [updateCodeFile] either throws, leaving the world alone, or has
    updated a stored row with the given identifier and resolves to it. *)
Lemma updateCodeFile_shape (env : Env) (fileId : Id) (content : string)
    (w : World) :
  (exists m, updateCodeFile env fileId content w = (w, Error m))
  \/ (exists g,
         In g (tbl_code_files (db w))
         /\ CodeFile.id g = fileId
         /\ user (state w) <> None
         /\ failure env UpdateCodeFile = None
         /\ updateCodeFile env fileId content w
            = (set (saved_locally fileId content)
                 (with_db (update_code_file fileId content (now env) (db w)) w),
               Data (updated_row content (now env) g))).
Proof.
  unfold updateCodeFile.
  destruct (user (state w)) as [u|]; [|left; eexists; reflexivity].
  cbv zeta.
  destruct (single (query env UpdateCodeFile _)) as [data|m] eqn:Hs;
    [|left; eexists; reflexivity].
  right. apply single_query_rows in Hs. destruct Hs as [Hrows Hf].
  assert (Hin : In data
                  (filter (fun file => String.eqb (CodeFile.id file) fileId)
                     (tbl_code_files
                        (update_code_file fileId content (now env) (db w)))))
    by (rewrite Hrows; left; reflexivity).
  apply filter_In in Hin. destruct Hin as [Hin Hid].
  cbn [update_code_file tbl_code_files with_code_files] in Hin.
  apply in_map_iff in Hin. destruct Hin as [g [Hg Hin]].
  destruct (String.eqb (CodeFile.id g) fileId) eqn:E.
  - exists g. apply String.eqb_eq in E. subst data.
    split; [exact Hin|]. split; [exact E|]. split; [discriminate|].
    split; [exact Hf|reflexivity].
  - subst data. congruence.
Qed.

Lemma updated_ids (fileId : Id) (content : string) (now : Timestamp)
    (l : list CodeFile.t) :
  map CodeFile.id
    (map (fun file => if String.eqb (CodeFile.id file) fileId
                      then updated_row content now file else file) l)
  = map CodeFile.id l.
Proof.
  rewrite map_map. apply map_ext. intros g.
  destruct (String.eqb (CodeFile.id g) fileId); reflexivity.
Qed.

Lemma saved_ids (fileId : Id) (content : string) (l : list CodeFile.t) :
  map CodeFile.id
    (map (fun file => if String.eqb (CodeFile.id file) fileId
                      then with_content content file else file) l)
  = map CodeFile.id l.
Proof.
  rewrite map_map. apply map_ext. intros g.
  destruct (String.eqb (CodeFile.id g) fileId); reflexivity.
Qed.

(** X23. Saving new content into a stored file, signed in and with the
    update going through: the call resolves to the stored row, which
    now holds the content and the time of the update; every other row
    of [code_files] is the same and no row is added or removed; the
    other tables are untouched. Locally the files with that identifier
    take the content, everything else about the list stays, so the
    local copy keeps its old [updated_at]. *)
Theorem updateCodeFile_saves :
  forall (env : Env) (content : string) (w : World) (u : User.t)
         (f : CodeFile.t),
    user (state w) = Some u ->
    NoDup (map CodeFile.id (tbl_code_files (db w))) ->
    In f (tbl_code_files (db w)) ->
    failure env UpdateCodeFile = None ->
    let r := updateCodeFile env (CodeFile.id f) content w in
    let w' := fst r in
    snd r = Data (updated_row content (now env) f)
    /\ In (updated_row content (now env) f) (tbl_code_files (db w'))
    /\ (forall g, In g (tbl_code_files (db w)) ->
                  CodeFile.id g <> CodeFile.id f ->
                  In g (tbl_code_files (db w')))
    /\ map CodeFile.id (tbl_code_files (db w'))
       = map CodeFile.id (tbl_code_files (db w))
    /\ tbl_sessions (db w') = tbl_sessions (db w)
    /\ tbl_messages (db w') = tbl_messages (db w)
    /\ tbl_session_participants (db w') = tbl_session_participants (db w)
    /\ map CodeFile.id (codeFiles (state w'))
       = map CodeFile.id (codeFiles (state w))
    /\ (forall g, In g (codeFiles (state w')) ->
          (CodeFile.id g = CodeFile.id f -> CodeFile.content g = content)
          /\ (CodeFile.id g <> CodeFile.id f -> In g (codeFiles (state w))))
    /\ (forall g, In g (codeFiles (state w)) ->
                  CodeFile.id g = CodeFile.id f ->
                  In (with_content content g) (codeFiles (state w'))).
Proof.
  intros env content w u f Hu Hpk Hin Hf r w'.
  assert (E : r = (set (saved_locally (CodeFile.id f) content)
                     (with_db (update_code_file (CodeFile.id f) content
                                 (now env) (db w)) w),
                   Data (updated_row content (now env) f))).
  { unfold r, updateCodeFile. rewrite Hu. cbv zeta.
    rewrite (query_ok env _ _ Hf).
    cbn [update_code_file tbl_code_files with_code_files].
    assert (Hrows : filter (fun file => String.eqb (CodeFile.id file) (CodeFile.id f))
                      (map (fun file =>
                              if String.eqb (CodeFile.id file) (CodeFile.id f)
                              then updated_row content (now env) file else file)
                         (tbl_code_files (db w)))
                    = [updated_row content (now env) f]).
    { change (CodeFile.id f)
        with (CodeFile.id (updated_row content (now env) f)) at 1.
      apply (filter_unique_key CodeFile.id).
      - change (CodeFile.id (updated_row content (now env) f))
          with (CodeFile.id f).
        rewrite updated_ids. exact Hpk.
      - apply in_map_iff. exists f. split; [|exact Hin].
        change (CodeFile.id (updated_row content (now env) f))
          with (CodeFile.id f).
        rewrite String.eqb_refl. reflexivity. }
    rewrite Hrows. reflexivity. }
  unfold w'. rewrite E. cbn [fst snd].
  cbn [db set with_db state update_code_file tbl_code_files with_code_files
         tbl_sessions tbl_messages tbl_session_participants
         saved_locally codeFiles set_codeFiles].
  split; [reflexivity|]. split.
  { apply in_map_iff. exists f. rewrite String.eqb_refl.
    split; [reflexivity|exact Hin]. }
  split.
  { intros g Hg Hne. apply in_map_iff. exists g.
    apply String.eqb_neq in Hne. rewrite Hne. split; [reflexivity|exact Hg]. }
  split; [apply updated_ids|].
  split; [reflexivity|]. split; [reflexivity|]. split; [reflexivity|].
  split; [apply saved_ids|]. split.
  - intros g Hg. apply in_map_iff in Hg. destruct Hg as [g0 [Hg0 Hin0]].
    destruct (String.eqb (CodeFile.id g0) (CodeFile.id f)) eqn:E0; subst g.
    + split; [reflexivity|]. intros Hne. apply String.eqb_eq in E0.
      destruct (Hne E0).
    + split; [|intros _; exact Hin0]. intros He.
      apply String.eqb_neq in E0. destruct (E0 He).
  - intros g Hg He. apply in_map_iff. exists g.
    apply String.eqb_eq in He. rewrite He. split; [reflexivity|exact Hg].
Qed.

Module Scenario4.

(** The public session holding one stored file that Bob's client has
    loaded by joining. *)
Definition database : Database :=
  with_code_files [Scenario.remote_file] Scenario.database.

Definition joined : World :=
  joinSession Scenario.env "s-public"
    (set (set_user (Some Scenario.bob)) (initialWorld database)).

End Scenario4.

Example save_in_scenario :
  let r := updateCodeFile Scenario.env2 "f-7" "print(2)" Scenario4.joined in
  map (fun f => (CodeFile.content f, CodeFile.updated_at f))
    (tbl_code_files (db (fst r)))
  = [("print(2)", 55)]
  /\ map (fun f => (CodeFile.content f, CodeFile.updated_at f))
       (codeFiles (state (fst r)))
     = [("print(2)", 70)].
Proof. vm_compute. split; reflexivity. Qed.

Lemma updateCodeFile_saves_witness :
  let w := Scenario4.joined in
  let f := Scenario.remote_file in
  let r := updateCodeFile Scenario.env2 (CodeFile.id f) "print(2)" w in
  let w' := fst r in
  snd r = Data (updated_row "print(2)" (now Scenario.env2) f)
  /\ In (updated_row "print(2)" (now Scenario.env2) f) (tbl_code_files (db w'))
  /\ (forall g, In g (tbl_code_files (db w)) ->
                CodeFile.id g <> CodeFile.id f ->
                In g (tbl_code_files (db w')))
  /\ map CodeFile.id (tbl_code_files (db w'))
     = map CodeFile.id (tbl_code_files (db w))
  /\ tbl_sessions (db w') = tbl_sessions (db w)
  /\ tbl_messages (db w') = tbl_messages (db w)
  /\ tbl_session_participants (db w') = tbl_session_participants (db w)
  /\ map CodeFile.id (codeFiles (state w'))
     = map CodeFile.id (codeFiles (state w))
  /\ (forall g, In g (codeFiles (state w')) ->
        (CodeFile.id g = CodeFile.id f -> CodeFile.content g = "print(2)")
        /\ (CodeFile.id g <> CodeFile.id f -> In g (codeFiles (state w))))
  /\ (forall g, In g (codeFiles (state w)) ->
                CodeFile.id g = CodeFile.id f ->
                In (with_content "print(2)" g) (codeFiles (state w'))).
Proof.
  apply (updateCodeFile_saves Scenario.env2 "print(2)" Scenario4.joined
           Scenario.bob Scenario.remote_file).
  - vm_compute. reflexivity.
  - vm_compute. repeat constructor. intros [].
  - vm_compute. left. reflexivity.
  - reflexivity.
Defined.

Lemma replace_after_save (data : CodeFile.t) (content : string)
    (l : list CodeFile.t) :
  map (fun file => if String.eqb (CodeFile.id file) (CodeFile.id data)
                   then data else file)
    (map (fun file => if String.eqb (CodeFile.id file) (CodeFile.id data)
                      then with_content content file else file) l)
  = map (fun file => if String.eqb (CodeFile.id file) (CodeFile.id data)
                     then data else file) l.
Proof.
  rewrite map_map. apply map_ext. intros g.
  destruct (String.eqb (CodeFile.id g) (CodeFile.id data)) eqn:E.
  - cbn [with_content CodeFile.id]. rewrite E. reflexivity.
  - rewrite E. reflexivity.
Qed.

(** X24. The notification of the update settles the local copy: once
    the row [updateCodeFile] resolved to comes back on the update
    channel of its session, every local file with that identifier is
    that stored row, [updated_at] included, and the rest of the list is
    as before the save. Nothing else of the state is touched by the
    notification. *)
Theorem saved_file_settled_by_notification :
  forall (env : Env) (fileId : Id) (content : string) (w : World)
         (data : CodeFile.t),
    snd (updateCodeFile env fileId content w) = Data data ->
    subscribed_to (CodeFile.session_id data) w ->
    let w1 := fst (updateCodeFile env fileId content w) in
    let w2 := deliver (UpdatedCodeFile data) w1 in
    CodeFile.id data = fileId
    /\ CodeFile.content data = content
    /\ In data (tbl_code_files (db w1))
    /\ codeFiles (state w2)
       = map (fun file => if String.eqb (CodeFile.id file) fileId
                          then data else file)
           (codeFiles (state w))
    /\ messages (state w2) = messages (state w)
    /\ db w2 = db w1.
Proof.
  intros env fileId content w data Hok Hsub w1 w2.
  destruct (updateCodeFile_shape env fileId content w)
    as [[m E]|[g [Hg [Hid [_ [_ E]]]]]].
  - rewrite E in Hok. discriminate Hok.
  - unfold w2, w1. rewrite E in *. cbn [fst snd] in *.
    injection Hok as <-.
    split; [exact Hid|]. split; [reflexivity|]. split.
    { cbn [db set with_db update_code_file tbl_code_files with_code_files].
      apply in_map_iff. exists g. rewrite Hid, String.eqb_refl.
      split; [reflexivity|exact Hg]. }
    assert (Hsub' : subscribed_to (CodeFile.session_id g)
                      (set (saved_locally fileId content)
                         (with_db (update_code_file fileId content (now env)
                                     (db w)) w)))
      by exact Hsub.
    rewrite (deliver_update_subscribed (CodeFile.session_id g) _
               (updated_row content (now env) g) Hsub' eq_refl).
    split; [|split; reflexivity].
    cbn [on_file_update state set saved_locally codeFiles set_codeFiles].
    change (CodeFile.id (updated_row content (now env) g))
      with (CodeFile.id g).
    rewrite <- Hid.
    change (CodeFile.id g)
      with (CodeFile.id (updated_row content (now env) g)).
    apply replace_after_save.
Qed.

Lemma saved_file_settled_by_notification_witness :
  let w := Scenario4.joined in
  let data := updated_row "print(2)" 55 Scenario.remote_file in
  let w1 := fst (updateCodeFile Scenario.env2 "f-7" "print(2)" w) in
  let w2 := deliver (UpdatedCodeFile data) w1 in
  CodeFile.id data = "f-7"
  /\ CodeFile.content data = "print(2)"
  /\ In data (tbl_code_files (db w1))
  /\ codeFiles (state w2)
     = map (fun file => if String.eqb (CodeFile.id file) "f-7"
                        then data else file)
         (codeFiles (state w))
  /\ messages (state w2) = messages (state w)
  /\ db w2 = db w1.
Proof.
  apply (saved_file_settled_by_notification Scenario.env2 "f-7" "print(2)"
           Scenario4.joined (updated_row "print(2)" 55 Scenario.remote_file)).
  - vm_compute. reflexivity.
  - vm_compute. reflexivity.
Defined.

(** X25. A save from the editor has three outcomes and no other.
    Nothing happens at all (no file selected, or only blank text). Or
    the update was refused and the only trace is the toast "Failed to
    update file": state and database are untouched. Or the toast
    reports success, and then a stored row with the selected
    identifier holds the edited text exactly as typed (it is not
    trimmed), and so does every local file with that identifier. *)
Theorem handleSave_outcomes :
  forall (trim : string -> string) (env : Env) (selectedFile : option Id)
         (editedContent : string) (w : World),
    let w' := handleSave trim env selectedFile editedContent w in
    w' = w
    \/ w' = toast (toast_error "Failed to update file") w
    \/ (exists i g,
           selectedFile = Some i
           /\ trim editedContent <> ""
           /\ In g (tbl_code_files (db w))
           /\ CodeFile.id g = i
           /\ toasts w'
              = (toasts w ++ [toast_success "File updated successfully!"])%list
           /\ In (updated_row editedContent (now env) g)
                (tbl_code_files (db w'))
           /\ forall g', In g' (codeFiles (state w')) -> CodeFile.id g' = i ->
                         CodeFile.content g' = editedContent).
Proof.
  intros trim env selectedFile editedContent w w'. unfold w', handleSave.
  destruct selectedFile as [i|]; [|left; reflexivity].
  destruct (find _ (codeFiles (state w))) as [file|] eqn:Hfind;
    [|left; reflexivity].
  apply find_some in Hfind. destruct Hfind as [_ Hi].
  apply String.eqb_eq in Hi. rewrite Hi.
  destruct (String.eqb (trim editedContent) "") eqn:Ht; [left; reflexivity|].
  apply String.eqb_neq in Ht.
  destruct (updateCodeFile_shape env i editedContent w)
    as [[m ->]|[g [Hg [Hid [_ [_ ->]]]]]].
  - right. left. reflexivity.
  - right. right. exists i, g.
    split; [reflexivity|]. split; [exact Ht|]. split; [exact Hg|].
    split; [exact Hid|]. split; [reflexivity|]. split.
    + cbn [db toast set with_db update_code_file tbl_code_files
             with_code_files].
      apply in_map_iff. exists g. rewrite Hid, String.eqb_refl.
      split; [reflexivity|exact Hg].
    + cbn [state toast set saved_locally codeFiles set_codeFiles].
      intros g' Hg' Hid'. apply in_map_iff in Hg'.
      destruct Hg' as [g0 [E0 _]].
      destruct (String.eqb (CodeFile.id g0) i) eqn:E; subst g'.
      * reflexivity.
      * apply String.eqb_neq in E. destruct (E Hid').
Qed.

Example save_keeps_the_spaces :
  let w' := handleSave (fun _ => "x") Scenario.env2 (Some "f-7") " print(2) "
              Scenario4.joined in
  map CodeFile.content (tbl_code_files (db w')) = [" print(2) "]
  /\ map CodeFile.content (codeFiles (state w')) = [" print(2) "].
Proof. vm_compute. split; reflexivity. Qed.

Example save_signed_out :
  let w := set (set_user None) Scenario4.joined in
  handleSave (fun s => s) Scenario.env2 (Some "f-7") "print(2)" w
  = toast (toast_error "Failed to update file") w.
Proof. vm_compute. reflexivity. Qed.

Lemma frame_generateCode (env : Env) (prompt : string) (w : World) :
  generation_frame w (generateCode env prompt w).
Proof.
  unfold generateCode.
  destruct (currentSession (state w)) as [cs|]; [|apply frame_toast].
  destruct (user (state w)); [|apply frame_toast].
  frame_step frame_set_isLoading.
  pose proof (frame_invoke_generate_code env prompt cs
                (set (set_isLoading true) w)) as H.
  destruct (invoke_generate_code env prompt cs (set (set_isLoading true) w))
    as [w2 [m|]]; cbn [fst] in H.
  - frame_step frame_generateMockCode. frame_step frame_set_error.
    eapply generation_frame_trans; [apply frame_set_isLoading|exact H].
  - eapply generation_frame_trans; [apply frame_set_isLoading|exact H].
Qed.

(** X26. Submitting the chat box with an active session and a text that
    is not blank sends the trimmed text once and asks for code for the
    same text. When the insert of the message goes through, what the
    user sees afterwards is the old messages followed by the question,
    and the same code files as before: neither a reply nor a generated
    file is put into the local lists by the submit itself. *)
Theorem handleSubmit_shows_the_question :
  forall (trim : string -> string) (env env' : Env) (message : string)
         (w : World) (u : User.t) (cs : Session.t),
    trim message <> "" ->
    user (state w) = Some u ->
    currentSession (state w) = Some cs ->
    failure env InsertMessage = None ->
    let w' := handleSubmit trim env env' message w in
    w' = generateCode env' (trim message)
           (sendMessage env (trim message) type_user w)
    /\ messages (state w')
       = (messages (state w)
          ++ [new_message (uuid env InsertMessage) (now env) (Session.id cs)
                (User.id u) (trim message) type_user])%list
    /\ codeFiles (state w') = codeFiles (state w)
    /\ currentSession (state w') = Some cs
    /\ channels w' = channels w.
Proof.
  intros trim env env' message w u cs Ht Hu Hcs Hf w'.
  assert (E : w' = generateCode env' (trim message)
                     (sendMessage env (trim message) type_user w)).
  { unfold w', handleSubmit. apply String.eqb_neq in Ht.
    rewrite Ht, Hcs. reflexivity. }
  split; [exact E|]. rewrite E.
  destruct (frame_generateCode env' (trim message)
              (sendMessage env (trim message) type_user w))
    as [_ [_ [Hv _]]].
  assert (Hs : state (sendMessage env (trim message) type_user w)
               = set_messages
                   (messages (state w)
                    ++ [new_message (uuid env InsertMessage) (now env)
                          (Session.id cs) (User.id u) (trim message) type_user])
                   (state w)).
  { unfold sendMessage. rewrite Hu, Hcs, Hf. cbn [MessageType_eqb].
    rewrite (proj1 (call_chat_response_client _ _ _ _)). reflexivity. }
  rewrite Hs in Hv.
  split; [exact (f_equal view_messages Hv)|].
  split; [exact (f_equal view_codeFiles Hv)|].
  split; [rewrite <- Hcs; exact (f_equal view_session Hv)|].
  rewrite (proj1 (generateCode_realtime _ _ _)).
  exact (proj1 (sendMessage_realtime _ _ _ _)).
Qed.

Example submit_in_scenario :
  let w' := handleSubmit (fun s => s) Scenario3.env Scenario3.env_later
              "sort a list" Scenario.joined in
  map Message.id (messages (state w')) = ["m-1"; "m-new"]
  /\ map Message.id (tbl_messages (db w')) = ["m-1"; "m-new"; "m-edge"; "m-edge2"]
  /\ codeFiles (state w') = []
  /\ map CodeFile.filename (tbl_code_files (db w')) = ["generated-1234.py"].
Proof. vm_compute. repeat split; reflexivity. Qed.

Lemma handleSubmit_shows_the_question_witness :
  let w := Scenario.joined in
  let w' := handleSubmit (fun s => s) Scenario3.env Scenario3.env_later
              "sort a list" w in
  w' = generateCode Scenario3.env_later "sort a list"
         (sendMessage Scenario3.env "sort a list" type_user w)
  /\ messages (state w')
     = (messages (state w)
        ++ [new_message (uuid Scenario3.env InsertMessage) (now Scenario3.env)
              (Session.id Scenario.public_session) (User.id Scenario.bob)
              "sort a list" type_user])%list
  /\ codeFiles (state w') = codeFiles (state w)
  /\ currentSession (state w') = Some Scenario.public_session
  /\ channels w' = channels w.
Proof.
  apply (handleSubmit_shows_the_question (fun s => s) Scenario3.env
           Scenario3.env_later "sort a list" Scenario.joined Scenario.bob
           Scenario.public_session).
  - discriminate.
  - vm_compute. reflexivity.
  - vm_compute. reflexivity.
  - reflexivity.
Defined.

(* ------------------------------------------------------------------ *)
(** ** The figures of the dashboard *)

Definition isNaN (n : JS.number) : bool :=
  match n with JS.NaN => true | _ => false end.

Definition count {A : Type} (p : A -> bool) (l : list A) : nat :=
  List.length (filter p l).

Lemma count_cons {A : Type} (p : A -> bool) (x : A) (l : list A) :
  count p (x :: l) = ((if p x then 1 else 0) + count p l)%nat.
Proof. unfold count. cbn. destruct (p x); reflexivity. Qed.

Lemma Qle_bool_60_80 (q : Q) :
  Qle_bool (inject_Z 80) q = true -> Qle_bool (inject_Z 60) q = true.
Proof.
  rewrite !Qle_bool_iff. intros H.
  apply (Qle_trans _ (inject_Z 80)); [|exact H].
  unfold Qle. cbn. lia.
Qed.

(** Every number falls into exactly one of the three classes, NaN into
    none. *)
Lemma health_class (h : JS.number) :
  ((if JS.leb (JS.of_Z 80) h then 1 else 0)
   + (if JS.leb (JS.of_Z 60) h && Dashboard.ltb h (JS.of_Z 80) then 1 else 0)
   + (if Dashboard.ltb h (JS.of_Z 60) then 1 else 0)
   + (if isNaN h then 1 else 0) = 1)%nat.
Proof.
  destruct h as [|q| |]; try reflexivity.
  unfold Dashboard.ltb, JS.of_Z, JS.leb, isNaN.
  destruct (Qle_bool (inject_Z 80) q) eqn:E80.
  - rewrite (Qle_bool_60_80 q E80). reflexivity.
  - destruct (Qle_bool (inject_Z 60) q); reflexivity.
Qed.

Lemma totalLines_from (l : list CodeFile.t) (a : nat) :
  (a + List.length l
   <= fold_left (fun sum file => (sum + Dashboard.lines (CodeFile.content file))%nat)
        l a)%nat.
Proof.
  revert a. induction l as [|f l IH]; intros a; cbn [fold_left List.length];
    [lia|].
  assert (H1 : (1 <= Dashboard.lines (CodeFile.content f))%nat).
  { induction (CodeFile.content f) as [|c s IHs]; cbn; [lia|].
    destruct (Ascii.eqb c _); lia. }
  specialize (IH (a + Dashboard.lines (CodeFile.content f))%nat). lia.
Qed.

(** X27. The three health classes of the dashboard never overlap: the
    healthy, the warning and the issue files, together with the files
    whose score is not a number, add up to the number of files (a score
    that is null compares as 0). Every file counts at least one line,
    and the 'ai' messages are among the messages. *)
Theorem dashboard_counts_add_up :
  forall (codeFiles : list CodeFile.t) (messages : list Message.t),
    (Dashboard.healthyFiles codeFiles + Dashboard.warningFiles codeFiles
     + Dashboard.issueFiles codeFiles
     + count (fun file => isNaN (Dashboard.score file)) codeFiles
     = Dashboard.totalFiles codeFiles)%nat
    /\ (Dashboard.totalFiles codeFiles <= Dashboard.totalLines codeFiles)%nat
    /\ (Dashboard.aiMessages messages <= Dashboard.totalMessages messages)%nat.
Proof.
  intros l ms. split; [|split].
  - unfold Dashboard.healthyFiles, Dashboard.warningFiles,
      Dashboard.issueFiles, Dashboard.totalFiles.
    fold (count (fun file => JS.leb (JS.of_Z 80) (Dashboard.score file)) l).
    fold (count (fun file => JS.leb (JS.of_Z 60) (Dashboard.score file)
                             && Dashboard.ltb (Dashboard.score file)
                                  (JS.of_Z 80)) l).
    fold (count (fun file => Dashboard.ltb (Dashboard.score file)
                               (JS.of_Z 60)) l).
    induction l as [|f l IH]; [reflexivity|].
    rewrite !count_cons. cbn [List.length].
    pose proof (health_class (Dashboard.score f)) as H. lia.
  - unfold Dashboard.totalFiles, Dashboard.totalLines.
    exact (totalLines_from l 0).
  - unfold Dashboard.aiMessages, Dashboard.totalMessages. apply filter_length_le.
Qed.

Example file_without_score_is_an_issue :
  let file := CodeFile.mk "f-8" "s-public" "x.py" "" "python" 60 70 None None in
  (Dashboard.healthyFiles [file], Dashboard.warningFiles [file],
   Dashboard.issueFiles [file])
  = (0%nat, 0%nat, 1%nat).
Proof. reflexivity. Qed.

Lemma between_not_below_60 (h : JS.number) :
  JS.between 60 100 h ->
  Dashboard.ltb h (JS.of_Z 60) = false /\ isNaN h = false.
Proof.
  destruct h as [|q| |]; cbn; try contradiction. intros [Hlo _].
  split; [|reflexivity].
  apply Qle_bool_iff in Hlo. unfold JS.leb, JS.of_Z.
  unfold Dashboard.ltb, JS.of_Z, JS.leb. rewrite Hlo. reflexivity.
Qed.

Lemma score_between (file : CodeFile.t) :
  JS.nullable_between 60 100 (CodeFile.health_score file) ->
  JS.between 60 100 (Dashboard.score file).
Proof.
  unfold Dashboard.score. destruct (CodeFile.health_score file);
    [intros H; exact H|contradiction].
Qed.

(** X28. Files whose score lies between 60 and 100, which is where
    both generators put it, never show up as issue files: each of them
    counts as healthy or as warning. *)
Theorem scores_in_range_are_never_issues :
  forall (codeFiles : list CodeFile.t),
    (forall file, In file codeFiles ->
                  JS.nullable_between 60 100 (CodeFile.health_score file)) ->
    Dashboard.issueFiles codeFiles = 0%nat
    /\ (Dashboard.healthyFiles codeFiles + Dashboard.warningFiles codeFiles
        = Dashboard.totalFiles codeFiles)%nat.
Proof.
  intros l Hall.
  unfold Dashboard.healthyFiles, Dashboard.warningFiles,
    Dashboard.issueFiles, Dashboard.totalFiles.
  fold (count (fun file => JS.leb (JS.of_Z 80) (Dashboard.score file)) l).
  fold (count (fun file => JS.leb (JS.of_Z 60) (Dashboard.score file)
                           && Dashboard.ltb (Dashboard.score file)
                                (JS.of_Z 80)) l).
  fold (count (fun file => Dashboard.ltb (Dashboard.score file)
                             (JS.of_Z 60)) l).
  induction l as [|f l IH]; [split; reflexivity|].
  rewrite !count_cons. cbn [List.length].
  destruct (between_not_below_60 _
              (score_between f (Hall f (or_introl eq_refl)))) as [Hi Hn].
  pose proof (health_class (Dashboard.score f)) as H.
  rewrite Hi, Hn in H. rewrite Hi.
  destruct IH as [IH1 IH2]; [intros g Hg; apply Hall; right; exact Hg|].
  split; lia.
Qed.

Lemma scores_in_range_are_never_issues_witness :
  Dashboard.issueFiles [Scenario.remote_file] = 0%nat
  /\ (Dashboard.healthyFiles [Scenario.remote_file]
      + Dashboard.warningFiles [Scenario.remote_file]
      = Dashboard.totalFiles [Scenario.remote_file])%nat.
Proof.
  apply (scores_in_range_are_never_issues [Scenario.remote_file]).
  intros file [<-|[]]. cbn. unfold Qle. cbn. split; lia.
Defined.

(* ------------------------------------------------------------------ *)
(** ** The session list and the join agree *)

(** X29. Every session [loadSessions] lists can be entered. A listed
    session is one the user owns or a public one the user takes part
    in, so it is among the sessions the user may view, and the join's
    own read of it finds it: with distinct session identifiers and the
    reads going through, joining a listed session makes it the active
    session without an error. *)
Theorem listed_sessions_can_be_joined :
  forall (env env' : Env) (w : World) (u : User.t) (s : Session.t),
    user (state w) = Some u ->
    NoDup (map Session.id (tbl_sessions (db w))) ->
    failure env SelectOwnedSessions = None ->
    failure env SelectParticipantSessions = None ->
    failure env' SelectSession = None ->
    In s (sessions (state (loadSessions env w))) ->
    let w' := joinSession env' (Session.id s) (loadSessions env w) in
    (Session.owner_id s = User.id u \/ Session.is_public s = true)
    /\ currentSession (state w') = Some s
    /\ error (state w') = None.
Proof.
  intros env env' w u s Hu Hpk Ho Hp Hs Hin w'.
  assert (El : loadSessions env w
               = set (fun st =>
                        set_isLoading false
                          (set_sessions
                             (combine_sessions
                                (select_owned_sessions (db w) (User.id u))
                                (select_participant_sessions (db w)
                                   (User.id u))) st))
                   (set (fun st => set_error None (set_isLoading true st)) w)).
  { unfold loadSessions. rewrite Hu. unfold query. rewrite Ho, Hp.
    reflexivity. }
  assert (Horigin : listed_for (User.id u) (db w) s).
  { apply combine_sessions_origin. rewrite El in Hin. exact Hin. }
  destruct Horigin as [[Htbl _] Hv].
  assert (Hacc : Session.owner_id s = User.id u \/ Session.is_public s = true).
  { unfold can_view_session in Hv. apply orb_true_iff in Hv.
    destruct Hv as [Hv|Hv]; [left; apply String.eqb_eq, Hv|right; exact Hv]. }
  split; [exact Hacc|].
  destruct (loadSessions_frame env w) as [Hdb [_ [Hus _]]].
  cbv zeta in Hdb, Hus.
  assert (Hu1 : user (state (loadSessions env w)) = Some u)
    by (rewrite Hus; exact Hu).
  assert (Hpk1 : NoDup (map Session.id (tbl_sessions (db (loadSessions env w)))))
    by (rewrite Hdb; exact Hpk).
  assert (Htbl1 : In s (tbl_sessions (db (loadSessions env w))))
    by (rewrite Hdb; exact Htbl).
  unfold w'.
  rewrite (joinSession_of_accessible env' _ u s Hu1 Hpk1 Htbl1 Hs Hacc).
  rewrite (proj2 (entered_client env' (Session.id s) u s _)).
  destruct (installing_fields env' (Session.id s) s
              (join_db env' (Session.id s) u s (db (loadSessions env w)))
              (set_error None
                 (set_isLoading true (state (loadSessions env w)))))
    as [_ [Ierr [Ics _]]].
  split; [exact Ics|exact Ierr].
Qed.

Example bob_list_and_join :
  let w := loadSessions Scenario.env Scenario8.signed_in in
  map Session.id (sessions (state w)) = ["s-public"]
  /\ error (state (joinSession Scenario.env2 "s-public" w)) = None
  /\ error (state (joinSession Scenario.env2 "s-private" w))
     = Some "Session not found or access denied".
Proof. vm_compute. repeat split; reflexivity. Qed.

Lemma listed_sessions_can_be_joined_witness :
  let w := Scenario.alice_signed_in in
  let s := Scenario.private_session in
  let w' := joinSession Scenario.env2 (Session.id s) (loadSessions Scenario.env w) in
  (Session.owner_id s = User.id Scenario.alice \/ Session.is_public s = true)
  /\ currentSession (state w') = Some s
  /\ error (state w') = None.
Proof.
  apply (listed_sessions_can_be_joined Scenario.env Scenario.env2
           Scenario.alice_signed_in Scenario.alice Scenario.private_session).
  - reflexivity.
  - exact (sessions_pkey _ scenario_constraints).
  - reflexivity.
  - reflexivity.
  - reflexivity.
  - vm_compute. left. reflexivity.
Defined.

(* ------------------------------------------------------------------ *)
(** ** A client that is signed out *)

(** The actions of the store a component can call. *)
Inductive Action : Type :=
| act_loadSessions
| act_createSession (name description : string) (language : Language)
| act_joinSession (sessionId : Id)
| act_sendMessage (content : string) (type : MessageType)
| act_generateCode (prompt : string)
| act_generateMockCode (prompt : string)
| act_updateCodeFile (fileId : Id) (content : string)
| act_setupRealtimeSubscriptions
| act_cleanupSubscriptions.

Definition perform (env : Env) (a : Action) (w : World) : World :=
  match a with
  | act_loadSessions => loadSessions env w
  | act_createSession name description language =>
      fst (createSession env name description language w)
  | act_joinSession sessionId => joinSession env sessionId w
  | act_sendMessage content type => sendMessage env content type w
  | act_generateCode prompt => generateCode env prompt w
  | act_generateMockCode prompt => useAppStore.generateMockCode env prompt w
  | act_updateCodeFile fileId content =>
      fst (updateCodeFile env fileId content w)
  | act_setupRealtimeSubscriptions => setupRealtimeSubscriptions w
  | act_cleanupSubscriptions => cleanupSubscriptions w
  end.

(** X30. Without a signed-in user no action of the store writes to the
    database or changes what the user sees: any sequence of actions
    leaves the tables, the session list, the active session and its
    collections as they were, opens no channel, and the user stays
    signed out. *)
Theorem signed_out_client_writes_nothing :
  forall (steps : list (Env * Action)) (w : World),
    user (state w) = None ->
    let w' := fold_left (fun w step => perform (fst step) (snd step) w) steps w in
    db w' = db w
    /\ user (state w') = None
    /\ sessions (state w') = sessions (state w)
    /\ view_of (state w') = view_of (state w)
    /\ forall c, In c (channels w') -> In c (channels w).
Proof.
  assert (Hone : forall env a w,
             user (state w) = None ->
             db (perform env a w) = db w
             /\ user (state (perform env a w)) = None
             /\ sessions (state (perform env a w)) = sessions (state w)
             /\ view_of (state (perform env a w)) = view_of (state w)
             /\ forall c, In c (channels (perform env a w)) ->
                          In c (channels w)).
  { intros env a w Hu. destruct a; cbn [perform].
    - unfold loadSessions. rewrite Hu. repeat split; auto.
    - unfold createSession. rewrite Hu. repeat split; auto.
    - unfold joinSession. rewrite Hu. repeat split; auto.
    - unfold sendMessage. rewrite Hu. repeat split; auto.
    - unfold generateCode. rewrite Hu.
      destruct (currentSession (state w)); repeat split; auto.
    - unfold useAppStore.generateMockCode. rewrite Hu.
      destruct (currentSession (state w)); repeat split; auto.
    - unfold updateCodeFile. rewrite Hu. repeat split; auto.
    - unfold setupRealtimeSubscriptions. rewrite Hu.
      destruct (currentSession (state w)); repeat split; auto.
    - destruct (cleanupSubscriptions_client w) as [Hs [Hd _]].
      cbv zeta in Hs, Hd. rewrite Hs, Hd.
      split; [reflexivity|]. split; [exact Hu|].
      split; [reflexivity|]. split; [reflexivity|].
      intros c Hc. unfold cleanupSubscriptions in Hc.
      destruct (supabaseSubscriptions w) as [subs|]; [|exact Hc].
      cbn [channels] in Hc. revert Hc. generalize (channels w) as open.
      induction subs as [|x subs IH]; intros open Hc; [exact Hc|].
      cbn [fold_left] in Hc. apply IH in Hc. unfold removeChannel in Hc.
      apply filter_In in Hc. exact (proj1 Hc). }
  intros steps. induction steps as [|[env a] steps IH]; intros w Hu.
  - cbv zeta. cbn [fold_left]. repeat split; auto.
  - cbv zeta. cbn [fold_left fst snd].
    destruct (Hone env a w Hu) as [A [B [C [D E]]]].
    destruct (IH (perform env a w) B) as [A' [B' [C' [D' E']]]].
    cbv zeta in A', B', C', D', E'.
    split; [congruence|]. split; [exact B'|]. split; [congruence|].
    split; [congruence|]. intros c Hc. apply E, E', Hc.
Qed.

Lemma signed_out_client_writes_nothing_witness :
  let w := set (set_user None) Scenario.joined in
  let w' :=
    fold_left (fun w step => perform (fst step) (snd step) w)
      [(Scenario.env2, act_sendMessage "hello" type_user);
       (Scenario.env2, act_joinSession "s-other");
       (Scenario3.env, act_generateCode "build a todo app");
       (Scenario.env2, act_createSession "room" "" python);
       (Scenario.env2, act_cleanupSubscriptions)] w in
  db w' = db w
  /\ user (state w') = None
  /\ sessions (state w') = sessions (state w)
  /\ view_of (state w') = view_of (state w)
  /\ forall c, In c (channels w') -> In c (channels w).
Proof.
  apply (signed_out_client_writes_nothing
           [(Scenario.env2, act_sendMessage "hello" type_user);
            (Scenario.env2, act_joinSession "s-other");
            (Scenario3.env, act_generateCode "build a todo app");
            (Scenario.env2, act_createSession "room" "" python);
            (Scenario.env2, act_cleanupSubscriptions)]
           (set (set_user None) Scenario.joined)).
  reflexivity.
Defined.
